(** * hikma-engine Python workers: a shallow embedding

    The repository ships three Python scripts that wrap a language model
    behind a JSON protocol on standard input and output:

    - [src/python/embed_server.py]: the persistent (streaming) embedding worker;
    - [src/python/embed.py]: the one-shot embedding script;
    - [src/python/llm_rag.py]: the one-shot RAG explanation script.

    The scripts are embedded as functions in a small monad that carries the
    module globals, the exception being propagated (if any) and the trace of
    observable events: lines printed on stdout and stderr and calls made
    into the model libraries (transformers, torch).  What the libraries
    compute is not repository code and enters as the fields of type classes.

    Conventions of the embedding:
    - a Python [str] is a [string]; one [ascii] stands for one character
      (code points 0..255);
    - a value produced by [json.loads] is a [json]; a dict is the list of its
      items in insertion order, looked up by first match;
    - [print(json.dumps(v), flush=True)] is the event [Print v];
    - stdin is given decoded: the lines that iterating [sys.stdin] yields, or
      what [sys.stdin.read()] returns or raises;
    - signals are outside the model: no KeyboardInterrupt is delivered and
      the signal handlers never run. *)

From Stdlib Require Import ZArith List String Ascii Bool Arith Lia.
From Stdlib Require Import Floats.SpecFloat Numbers.DecimalString.
Import ListNotations.
Open Scope list_scope.
Open Scope string_scope.

Set Implicit Arguments.

(** ** Python values *)

Definition float := spec_float.

(** What [json.loads] can return. *)
#[warnings="-register-all"]
Inductive json : Type :=
| JNull
| JBool (b : bool)
| JInt (z : Z)
| JFloat (f : float)
| JStr (s : string)
| JArr (l : list json)
| JObj (items : list (string * json)).

(** [type(v).__name__] *)
Definition type_name (v : json) : string :=
  match v with
  | JNull => "NoneType"
  | JBool _ => "bool"
  | JInt _ => "int"
  | JFloat _ => "float"
  | JStr _ => "str"
  | JArr _ => "list"
  | JObj _ => "dict"
  end.

(** [bool(v)]: what [if not v] tests. *)
Definition truthy (v : json) : bool :=
  match v with
  | JNull => false
  | JBool b => b
  | JInt z => negb (z =? 0)%Z
  | JFloat (S754_zero _) => false
  | JFloat _ => true
  | JStr s => negb (s =? "")
  | JArr l => match l with [] => false | _ :: _ => true end
  | JObj items => match items with [] => false | _ :: _ => true end
  end.

Definition is_dict (v : json) : bool :=
  match v with JObj _ => true | _ => false end.

(** *** Dict operations *)

Fixpoint dict_lookup (items : list (string * json)) (k : string) : option json :=
  match items with
  | [] => None
  | (k', v) :: rest => if k' =? k then Some v else dict_lookup rest k
  end.

(** [d.get(k, default)] *)
Definition dict_get (items : list (string * json)) (k : string) (default : json) : json :=
  match dict_lookup items k with
  | Some v => v
  | None => default
  end.

(** [d[k] = v]: an existing key keeps its position. *)
Fixpoint dict_set (items : list (string * json)) (k : string) (v : json)
  : list (string * json) :=
  match items with
  | [] => [(k, v)]
  | (k', v') :: rest =>
      if k' =? k then (k, v) :: rest else (k', v') :: dict_set rest k v
  end.

(** [d.pop(k, None)] *)
Fixpoint dict_remove (items : list (string * json)) (k : string)
  : list (string * json) :=
  match items with
  | [] => []
  | (k', v') :: rest =>
      if k' =? k then dict_remove rest k else (k', v') :: dict_remove rest k
  end.

(** *** String operations *)

Definition nl : string := String (ascii_of_nat 10) EmptyString.
Definition dquote : string := String (ascii_of_nat 34) EmptyString.

(** [c.isspace()] for the characters of the model. *)
Definition isspace (c : ascii) : bool :=
  let n := nat_of_ascii c in
  (((9 <=? n) && (n <=? 13)) || ((28 <=? n) && (n <=? 32))
   || (n =? 133) || (n =? 160))%nat.

Fixpoint lstrip (s : string) : string :=
  match s with
  | EmptyString => EmptyString
  | String c r => if isspace c then lstrip r else s
  end.

Fixpoint rstrip (s : string) : string :=
  match s with
  | EmptyString => EmptyString
  | String c r =>
      match rstrip r with
      | EmptyString => if isspace c then EmptyString else String c EmptyString
      | r' => String c r'
      end
  end.

(** [s.strip()] *)
Definition strip (s : string) : string := rstrip (lstrip s).

(** [s.split('/')[-1]]: [acc] is the segment after the last slash seen. *)
Fixpoint last_segment (acc : string) (s : string) : string :=
  match s with
  | EmptyString => acc
  | String c r =>
      if (c =? "/")%char then last_segment EmptyString r
      else last_segment (acc ++ String c EmptyString) r
  end.

Definition basename (s : string) : string := last_segment EmptyString s.

(** The string [s] with every ['] replaced by the double quote: a way to
    write JSON lines. *)
Fixpoint dq (s : string) : string :=
  match s with
  | EmptyString => EmptyString
  | String c r =>
      String (if (c =? "'")%char then ascii_of_nat 34 else c) (dq r)
  end.

(** [sep.join(parts)] *)
Fixpoint join (sep : string) (parts : list string) : string :=
  match parts with
  | [] => EmptyString
  | [p] => p
  | p :: rest => p ++ sep ++ join sep rest
  end.

(** [str(n)] for an int. *)
Definition str_of_nat (n : nat) : string := NilEmpty.string_of_uint (Nat.to_uint n).

(** ** Exceptions *)

Inductive exc_class : Type :=
| ClsException
| ClsValueError
| ClsJSONDecodeError
| ClsAttributeError
| ClsTypeError
| ClsRuntimeError
| ClsOverflowError
| ClsOther (name : string).

(** An instance of a subclass of [Exception]; [exc_msg] is [str(e)]. *)
Record exc : Type := mkExc { exc_class_of : exc_class; exc_msg : string }.

(** [isinstance(e, json.JSONDecodeError)] *)
Definition is_JSONDecodeError (e : exc) : bool :=
  match exc_class_of e with ClsJSONDecodeError => true | _ => false end.

(** What propagates: an [Exception], or the [SystemExit] of [sys.exit]. *)
Inductive raised : Type :=
| Exc (e : exc)
| SystemExit (code : Z).

(** The result of a call into a library. *)
Inductive res (A : Type) : Type :=
| Val (a : A)
| Exn (e : exc).
Arguments Val {A} a.
Arguments Exn {A} e.

Definition res_bind {A B} (r : res A) (k : A -> res B) : res B :=
  match r with
  | Val a => k a
  | Exn e => Exn e
  end.

Notation "'let?' x := r 'in' k" := (res_bind r (fun x => k))
  (at level 10, x name, r at level 100, k at level 200).

Definition no_attribute (v : json) (attr : string) : exc :=
  mkExc ClsAttributeError
    ("'" ++ type_name v ++ "' object has no attribute '" ++ attr ++ "'").

Definition not_callable_None : exc :=
  mkExc ClsTypeError "'NoneType' object is not callable".

(** ** Events and the monad *)

Inductive call : Type :=
| LoadTokenizer (name : json)
| LoadModel (name : json)
| LoadPipeline (name : json)
| MoveModel
| EvalModel
| Tokenize (text : json)
| MoveInputs
| Forward
| ChatTemplate
| Generate.

Inductive event : Type :=
| Print (v : json)          (* a line on stdout *)
| PrintErr (v : json)       (* a line on stderr *)
| Invoke (c : call).        (* a call into transformers / torch *)

(** The Backend compute operation of the specification. *)
Definition is_compute (e : event) : bool :=
  match e with
  | Invoke (Tokenize _) | Invoke MoveInputs | Invoke Forward
  | Invoke ChatTemplate | Invoke Generate => true
  | _ => false
  end.

Definition is_invoke (e : event) : bool :=
  match e with Invoke _ => true | _ => false end.

(** The lines written on stdout, in order. *)
Fixpoint stdout (tr : list event) : list json :=
  match tr with
  | [] => []
  | Print v :: rest => v :: stdout rest
  | _ :: rest => stdout rest
  end.

Inductive outcome (A : Type) : Type :=
| Ret (a : A)
| Raise (r : raised).
Arguments Ret {A} a.
Arguments Raise {A} r.

(** A computation over globals [S]: the events it emits, the globals it
    leaves and how it ends. *)
Definition M (S A : Type) : Type := S -> list event * S * outcome A.

Definition ret {S A} (a : A) : M S A := fun s => ([], s, Ret a).

Definition bind {S A B} (m : M S A) (k : A -> M S B) : M S B :=
  fun s =>
    match m s with
    | (tr, s', Ret a) =>
        match k a s' with
        | (tr', s'', o) => ((tr ++ tr')%list, s'', o)
        end
    | (tr, s', Raise r) => (tr, s', Raise r)
    end.

Definition raise {S A} (r : raised) : M S A := fun s => ([], s, Raise r).
Definition emit {S} (e : event) : M S unit := fun s => ([e], s, Ret tt).
Definition gets {S A} (f : S -> A) : M S A := fun s => ([], s, Ret (f s)).
Definition modify {S} (f : S -> S) : M S unit := fun s => ([], f s, Ret tt).

Declare Scope py_scope.
Delimit Scope py_scope with py.
Notation "x <- m ;; k" := (bind m (fun x => k))
  (at level 61, m at next level, right associativity) : py_scope.
Notation "m ;; k" := (bind m (fun _ => k))
  (at level 61, right associativity) : py_scope.
Open Scope py_scope.

(** [print(json.dumps(v), flush=True)] and its stderr variant *)
Definition print {S} (v : json) : M S unit := emit (Print v).
Definition print_err {S} (v : json) : M S unit := emit (PrintErr v).

(** [raise cls(msg)] *)
Definition raise_exc {S A} (c : exc_class) (msg : string) : M S A :=
  raise (Exc (mkExc c msg)).

(** [sys.exit(code)] *)
Definition sys_exit {S A} (code : Z) : M S A := raise (SystemExit code).

(** A library call: logged, then its value or its exception. *)
Definition invoke {S A} (c : call) (r : res A) : M S A :=
  emit (Invoke c) ;;
  match r with
  | Val a => ret a
  | Exn e => raise (Exc e)
  end.

(** A library result without a logged call (builtins). *)
Definition lift {S A} (r : res A) : M S A :=
  match r with
  | Val a => ret a
  | Exn e => raise (Exc e)
  end.

(** [try: m  except C as e: h e] for the classes [C] selected by [catches];
    an exception raised by [h] propagates. *)
Definition try_except_when {S A} (catches : exc -> bool)
    (m : M S A) (h : exc -> M S A) : M S A :=
  fun s =>
    match m s with
    | (tr, s', Raise (Exc e)) =>
        if catches e then
          match h e s' with
          | (tr', s'', o) => ((tr ++ tr')%list, s'', o)
          end
        else (tr, s', Raise (Exc e))
    | r => r
    end.

(** [try: m  except Exception as e: h e].  [SystemExit] is not an
    [Exception] and passes through. *)
Definition try_except {S A} (m : M S A) (h : exc -> M S A) : M S A :=
  try_except_when (fun _ => true) m h.

(** [for x in xs: body x] *)
Fixpoint for_each {S A} (xs : list A) (body : A -> M S unit) : M S unit :=
  match xs with
  | [] => ret tt
  | x :: rest => body x ;; for_each rest body
  end.

(** [v.get(k, default)] on an arbitrary value *)
Definition py_get {S} (v : json) (k : string) (default : json) : M S json :=
  match v with
  | JObj items => ret (dict_get items k default)
  | _ => raise (Exc (no_attribute v "get"))
  end.

(** The status with which the interpreter leaves: 0 at the end of the
    script, the argument of [sys.exit], 1 after an uncaught exception. *)
Definition exit_code {A} (o : outcome A) : Z :=
  match o with
  | Ret _ => 0
  | Raise (SystemExit c) => c
  | Raise (Exc _) => 1
  end.

(** ** Builtins that are not repository code *)

Class Builtins : Type := {
  (** [json.loads] *)
  json_loads : string -> res json;
  (** [str(v)] of a value that is not a [str] *)
  py_repr : json -> string;
  (** [format(x, ".1%")] of a float *)
  float_percent : float -> string;
  (** [float(n)], [None] on OverflowError *)
  float_of_int : Z -> option float
}.

Section WithBuiltins.
Context {B : Builtins}.

(** [f"{v}"] *)
Definition py_str (v : json) : string :=
  match v with
  | JStr s => s
  | _ => py_repr v
  end.

(** [f"{v:.1%}"] *)
Definition format_percent (v : json) : res string :=
  let of_int (z : Z) :=
    match float_of_int z with
    | Some f => Val (float_percent f)
    | None => Exn (mkExc ClsOverflowError "int too large to convert to float")
    end in
  match v with
  | JFloat f => Val (float_percent f)
  | JInt z => of_int z
  | JBool b => of_int (if b then 1 else 0)%Z
  | JStr _ =>
      Exn (mkExc ClsValueError "Unknown format code '%' for object of type 'str'")
  | _ =>
      Exn (mkExc ClsTypeError
             ("unsupported format string passed to " ++ type_name v ++ ".__format__"))
  end.

End WithBuiltins.

(** ** The embedding libraries (transformers, torch) *)

Class EmbeddingBackend : Type := {
  Tokenizer : Type;
  Model : Type;
  Device : Type;
  Inputs : Type;
  Pipeline : Type;
  (** ["cuda" if available else "mps" if available else "cpu"] *)
  torch_device : Device;
  AutoTokenizer_from_pretrained : string -> res Tokenizer;
  AutoModel_from_pretrained : string -> res Model;
  pipeline : string -> res Pipeline;
  (** [model.to(device)] and [model.eval()] *)
  model_to : Model -> Device -> res Model;
  model_eval : Model -> res Model;
  (** [tokenizer(text, return_tensors="pt", truncation=True, max_length=512,
      padding=True)] *)
  tokenize : Tokenizer -> json -> res Inputs;
  (** [{k: v.to(device) for k, v in inputs.items()}] *)
  inputs_to : Inputs -> option Device -> res Inputs;
  (** the forward pass under [no_grad], mean pooling, L2 normalisation and
      [squeeze().tolist()] *)
  mean_pooled : Model -> Inputs -> res (list float)
}.

(** ** src/python/embed_server.py *)

Module EmbedServer.
Section Worker.
Context {B : Builtins} {K : EmbeddingBackend}.

(** The module globals. *)
Record globals : Type := mkGlobals {
  MODEL_NAME : string;
  tokenizer : option Tokenizer;
  model : option Model;
  device : option Device
}.

Definition initial_globals : globals :=
  mkGlobals "mixedbread-ai/mxbai-embed-large-v1" None None None.

Definition set_MODEL_NAME (n : string) (g : globals) : globals :=
  mkGlobals n (tokenizer g) (model g) (device g).
Definition set_tokenizer (t : option Tokenizer) (g : globals) : globals :=
  mkGlobals (MODEL_NAME g) t (model g) (device g).
Definition set_model (m : option Model) (g : globals) : globals :=
  mkGlobals (MODEL_NAME g) (tokenizer g) m (device g).
Definition set_device (d : option Device) (g : globals) : globals :=
  mkGlobals (MODEL_NAME g) (tokenizer g) (model g) d.

Definition ready_message : json := JObj [("type", JStr "ready")].

Definition init_error_message (msg : string) : json :=
  JObj [("type", JStr "error"); ("error", JStr msg)].

Definition setup_model : M globals unit :=
  try_except
    (modify (set_device (Some torch_device)) ;;
     name <- gets MODEL_NAME ;;
     tok <- invoke (LoadTokenizer (JStr name)) (AutoTokenizer_from_pretrained name) ;;
     modify (set_tokenizer (Some tok)) ;;
     mdl <- invoke (LoadModel (JStr name)) (AutoModel_from_pretrained name) ;;
     modify (set_model (Some mdl)) ;;
     mdl <- invoke MoveModel (model_to mdl torch_device) ;;
     modify (set_model (Some mdl)) ;;
     mdl <- invoke EvalModel (model_eval mdl) ;;
     modify (set_model (Some mdl)) ;;
     print ready_message)
    (fun e =>
       let error_msg := "Failed to load model: " ++ exc_msg e in
       print (init_error_message error_msg) ;;
       sys_exit 1).

(** [is_query] is a parameter that the body never reads. *)
Definition get_embedding (text : json) (is_query : json) : M globals (list float) :=
  try_except
    (let processed_text := text in
     tok <- gets tokenizer ;;
     inputs <- match tok with
               | Some tok => invoke (Tokenize processed_text) (tokenize tok processed_text)
               | None => raise (Exc not_callable_None)
               end ;;
     dev <- gets device ;;
     inputs <- invoke MoveInputs (inputs_to inputs dev) ;;
     mdl <- gets model ;;
     match mdl with
     | Some mdl => invoke Forward (mean_pooled mdl inputs)
     | None => raise (Exc not_callable_None)
     end)
    (fun e => raise_exc ClsException ("Embedding generation failed: " ++ exc_msg e)).

Definition success_response (request_id : json) (embedding : list float)
    (model_name : string) : json :=
  JObj [("type", JStr "result");
        ("id", request_id);
        ("embedding", JArr (map JFloat embedding));
        ("dimensions", JInt (Z.of_nat (List.length embedding)));
        ("model", JStr model_name)].

Definition error_response (request_id : json) (msg : string) : json :=
  JObj [("type", JStr "result");
        ("id", request_id);
        ("error", JStr msg)].

Definition process_request (request_data : json) : M globals unit :=
  try_except
    (request_id <- py_get request_data "id" JNull ;;
     text <- py_get request_data "text" (JStr "") ;;
     is_query <- py_get request_data "is_query" (JBool false) ;;
     if negb (truthy text) then raise_exc ClsValueError "No text provided"
     else
       embedding <- get_embedding text is_query ;;
       name <- gets MODEL_NAME ;;
       print (success_response request_id embedding name))
    (fun e =>
       request_id <- py_get request_data "id" JNull ;;
       print (error_response request_id (exc_msg e))).

(** The body of [for line in sys.stdin]. *)
Definition loop_body (line : string) : M globals unit :=
  let line := strip line in
  if line =? "" then ret tt
  else
    try_except
      (request_data <- lift (json_loads line) ;;
       process_request request_data)
      (fun e =>
         if is_JSONDecodeError e then
           print (error_response JNull ("Invalid JSON: " ++ exc_msg e))
         else
           print (error_response JNull ("Request processing error: " ++ exc_msg e))).

(** The loop of [main].  The [try] around it catches KeyboardInterrupt and
    EOFError only, which nothing in the model raises. *)
Definition main_loop (lines : list string) : M globals unit :=
  for_each lines loop_body.

(** [argv] is [sys.argv]; [lines] are the lines that stdin delivers. *)
Definition main (argv : list string) (lines : list string) : M globals unit :=
  (if (1 <? List.length argv)%nat then modify (set_MODEL_NAME (nth 1 argv ""))
   else ret tt) ;;
  setup_model ;;
  main_loop lines.

(** The process: its trace and its exit status. *)
Definition run (argv : list string) (lines : list string) : list event * Z :=
  match main argv lines initial_globals with
  | (tr, _, o) => (tr, exit_code o)
  end.

End Worker.
End EmbedServer.

(** ** src/python/embed.py *)

Module Embed.
Section Script.
Context {B : Builtins} {K : EmbeddingBackend}.

Definition MODEL_NAME : string := "mixedbread-ai/mxbai-embed-large-v1".

(** The names bound at module level. *)
Record globals : Type := mkGlobals {
  tokenizer : option Tokenizer;
  model : option Model;
  pipe : option Pipeline
}.

Definition initial_globals : globals := mkGlobals None None None.

(** The three loads that run when the module is executed. *)
Definition module_init : M globals unit :=
  tok <- invoke (LoadTokenizer (JStr MODEL_NAME)) (AutoTokenizer_from_pretrained MODEL_NAME) ;;
  modify (fun g => mkGlobals (Some tok) (model g) (pipe g)) ;;
  mdl <- invoke (LoadModel (JStr MODEL_NAME)) (AutoModel_from_pretrained MODEL_NAME) ;;
  modify (fun g => mkGlobals (tokenizer g) (Some mdl) (pipe g)) ;;
  p <- invoke (LoadPipeline (JStr MODEL_NAME)) (pipeline MODEL_NAME) ;;
  modify (fun g => mkGlobals (tokenizer g) (model g) (Some p)).

Definition get_embedding (code_string : json) (is_query : json) : M globals (list float) :=
  let text := code_string in
  tok <- gets tokenizer ;;
  inputs <- match tok with
            | Some tok => invoke (Tokenize text) (tokenize tok text)
            | None => raise (Exc not_callable_None)
            end ;;
  mdl <- gets model ;;
  match mdl with
  | Some mdl => invoke Forward (mean_pooled mdl inputs)
  | None => raise (Exc not_callable_None)
  end.

Definition success_result (embedding : list float) : json :=
  JObj [("embedding", JArr (map JFloat embedding));
        ("dimensions", JInt (Z.of_nat (List.length embedding)));
        ("model", JStr MODEL_NAME)].

Definition error_result (msg : string) : json :=
  JObj [("error", JStr msg); ("embedding", JNull)].

(** What follows the parsing of stdin in the [__main__] block. *)
Definition embed_text (text : json) (is_query : json) : M globals unit :=
  if negb (truthy text) then raise_exc ClsValueError "No text provided"
  else
    embedding <- get_embedding text is_query ;;
    print (success_result embedding).

(** The [__main__] block; [stdin] is what [sys.stdin.read()] returns or
    raises. *)
Definition main_block (stdin : res string) : M globals unit :=
  try_except
    (raw <- lift stdin ;;
     let input_data := strip raw in
     parsed <- try_except_when is_JSONDecodeError
       (parsed_input <- lift (json_loads input_data) ;;
        text <- py_get parsed_input "text" (JStr "") ;;
        is_query <- py_get parsed_input "is_query" (JBool false) ;;
        ret (text, is_query))
       (fun _ => ret (JStr input_data, JBool false)) ;;
     embed_text (fst parsed) (snd parsed))
    (fun e =>
       print (error_result (exc_msg e)) ;;
       sys_exit 1).

Definition script (stdin : res string) : M globals unit :=
  module_init ;; main_block stdin.

Definition run (stdin : res string) : list event * Z :=
  match script stdin initial_globals with
  | (tr, _, o) => (tr, exit_code o)
  end.

End Script.
End Embed.

(** ** The generation libraries *)

Class GenerationBackend : Type := {
  CausalTokenizer : Type;
  CausalModel : Type;
  PromptInputs : Type;
  (** [torch.cuda.is_available()], [torch.backends.mps.is_available()] *)
  cuda_available : bool;
  mps_available : bool;
  (** [AutoTokenizer.from_pretrained(name, trust_remote_code=True)] *)
  load_tokenizer : json -> res CausalTokenizer;
  (** [AutoModelForCausalLM.from_pretrained(name, torch_dtype=..,
      device_map=.., ...)] *)
  load_causal_model : json -> string -> option string -> res CausalModel;
  causal_model_to : CausalModel -> string -> res CausalModel;
  (** [pad_token = eos_token] when there is no pad token *)
  ensure_pad_token : CausalTokenizer -> CausalTokenizer;
  apply_chat_template : CausalTokenizer -> list (string * string) -> res string;
  (** [tokenizer(prompt, ..., max_length=n, padding=True).to(device)] *)
  tokenize_prompt : CausalTokenizer -> string -> Z -> string -> res PromptInputs;
  (** [model.generate(...)] followed by [tokenizer.decode(...)] *)
  generate_decode : CausalTokenizer -> CausalModel -> PromptInputs -> res string
}.

(** ** src/python/llm_rag.py *)

Module LlmRag.
Section Service.
Context {B : Builtins} {G : GenerationBackend}.

(** An instance of [CodeRAGService]. *)
Record CodeRAGService : Type := mkService {
  model_name : json;
  tokenizer : option CausalTokenizer;
  model : option CausalModel;
  device : string;
  max_context : Z
}.

Definition _get_best_device : string :=
  if cuda_available then "cuda"
  else if mps_available then "mps"
  else "cpu".

(** [CodeRAGService(model_name)] *)
Definition new_service (name : json) : CodeRAGService :=
  mkService name None None _get_best_device 4096.

Definition status_message (msg : string) : json :=
  JObj [("type", JStr "status"); ("message", JStr msg)].

Definition load_model : M CodeRAGService unit :=
  mdl <- gets model ;;
  match mdl with
  | Some _ => ret tt
  | None =>
      name <- gets model_name ;;
      print_err (status_message
                   ("Loading " ++ py_str name ++ "... (this may take 2-3 minutes)")) ;;
      try_except
        (tok <- invoke (LoadTokenizer name) (load_tokenizer name) ;;
         modify (fun s => mkService (model_name s) (Some tok) (model s)
                            (device s) (max_context s)) ;;
         dev <- gets device ;;
         mdl <- invoke (LoadModel name)
                  (load_causal_model name
                     (if negb (dev =? "cpu") then "float16" else "float32")
                     (if dev =? "cuda" then Some "auto" else None)) ;;
         modify (fun s => mkService (model_name s) (tokenizer s) (Some mdl)
                            (device s) (max_context s)) ;;
         (if negb (dev =? "cuda") then
            mdl <- invoke MoveModel (causal_model_to mdl dev) ;;
            modify (fun s => mkService (model_name s) (tokenizer s) (Some mdl)
                               (device s) (max_context s))
          else ret tt) ;;
         modify (fun s => mkService (model_name s)
                            (option_map ensure_pad_token (tokenizer s)) (model s)
                            (device s) (max_context s)) ;;
         print_err (status_message
                      ("Model loaded successfully on " ++ dev ++ "!")))
        (fun e => raise_exc ClsRuntimeError ("Failed to load model: " ++ exc_msg e))
  end.

(** [len(v)] *)
Definition py_len (v : json) : res nat :=
  match v with
  | JStr s => Val (String.length s)
  | JArr l => Val (List.length l)
  | JObj items => Val (List.length items)
  | _ => Exn (mkExc ClsTypeError
                ("object of type '" ++ type_name v ++ "' has no len()"))
  end.

Definition unhashable_slice : exc :=
  mkExc ClsTypeError "unhashable type: 'slice'".

(** [if len(source_text) > 600: source_text = source_text[:600] + "..."] *)
Definition truncate_source (source_text : json) : res json :=
  let? n := py_len source_text in
  if (600 <? n)%nat then
    match source_text with
    | JStr s => Val (JStr (substring 0 600 s ++ "..."))
    | JArr _ =>
        Exn (mkExc ClsTypeError
               ("can only concatenate list (not " ++ dquote ++ "str" ++ dquote
                ++ ") to list"))
    | _ => Exn unhashable_slice
    end
  else Val source_text.

(** One turn of the loop of [format_search_context]: the block appended to
    [context_parts] for [result], numbered [i]. *)
Definition render_result (i : nat) (result : json) : res string :=
  match result with
  | JObj items =>
      let file_path := dict_get items "file_path" (JStr "Unknown file") in
      let node_type := dict_get items "node_type" (JStr "Unknown") in
      let similarity := dict_get items "similarity" (JInt 0) in
      let source_text := dict_get items "source_text" (JStr "No source available") in
      let? source_text := truncate_source source_text in
      let? relevance := format_percent similarity in
      let? base := match file_path with
                   | JStr path => Val (basename path)
                   | _ => Exn (no_attribute file_path "split")
                   end in
      Val (nl ++ "Code Snippet " ++ str_of_nat i ++ " (Relevance: " ++ relevance
           ++ ") from " ++ base ++ ":" ++ nl ++ py_str source_text ++ nl)
  | _ => Exn (no_attribute result "get")
  end.

(** [for i, result in enumerate(results, i): context_parts.append(...)] *)
Fixpoint render_loop (i : nat) (results : list json) (context_parts : list string)
  : res (list string) :=
  match results with
  | [] => Val context_parts
  | result :: rest =>
      let? part := render_result i result in
      render_loop (S i) rest (context_parts ++ [part])%list
  end.

(** [l[:k]] *)
Definition slice_to {A} (k : Z) (l : list A) : list A :=
  if (k <? 0)%Z then firstn (Z.to_nat (Z.of_nat (List.length l) + k)) l
  else firstn (Z.to_nat k) l.

Definition no_results_sentinel : string := "No search results provided.".

Definition format_search_context (search_results : json) (max_results : Z)
  : res string :=
  if negb (truthy search_results) then Val no_results_sentinel
  else
    let? items :=
      match search_results with
      | JArr l => Val (slice_to max_results l)
      | JStr s =>
          Val (map (fun c => JStr (String c EmptyString))
                   (slice_to max_results (list_ascii_of_string s)))
      | JObj _ => Exn unhashable_slice
      | v => Exn (mkExc ClsTypeError
                    ("'" ++ type_name v ++ "' object is not subscriptable"))
      end in
    let? context_parts := render_loop 1 items [] in
    Val (join nl context_parts).

Definition system_prompt : string :=
  join nl
    ["You are a senior software engineer providing concise code explanations. Your goal is to synthesize search results into a single, coherent explanation.";
     "";
     "Guidelines:";
     "- Write 1-2 paragraphs maximum";
     "- Focus on the overall approach and key mechanisms";
     "- Explain how the pieces work together as a unified system";
     "- Use clear, developer-friendly language";
     "- Avoid file-by-file breakdowns - instead provide a unified explanation";
     "- Be direct and specific about what the code accomplishes"].

(** The list of role and content pairs. *)
Definition create_messages (query : json) (context : string) : list (string * string) :=
  let user_prompt :=
    "Query: " ++ dquote ++ py_str query ++ dquote ++ nl ++ nl
    ++ "Based on these search results from the codebase, provide a single, unified explanation of how this functionality works:"
    ++ nl ++ nl ++ context ++ nl ++ nl
    ++ "Write a cohesive explanation (1-2 paragraphs) that explains the overall approach and implementation for "
    ++ dquote ++ py_str query ++ dquote
    ++ " without breaking it down file-by-file." in
  [("system", system_prompt); ("user", user_prompt)].

Definition generate_explanation (query : json) (search_results : json)
  : M CodeRAGService string :=
  mdl <- gets model ;;
  tok <- gets tokenizer ;;
  (match mdl, tok with
   | Some _, Some _ => ret tt
   | _, _ => load_model
   end) ;;
  context <- lift (format_search_context search_results 8) ;;
  let messages := create_messages query context in
  tok <- gets tokenizer ;;
  formatted_prompt <-
    try_except
      (match tok with
       | Some t => invoke ChatTemplate (apply_chat_template t messages)
       | None => raise (Exc (no_attribute JNull "apply_chat_template"))
       end)
      (fun _ => ret (snd (nth 0 messages ("", "")) ++ nl ++ nl
                     ++ snd (nth 1 messages ("", ""))
                     ++ nl ++ nl ++ "Assistant:")) ;;
  dev <- gets device ;;
  ctx <- gets max_context ;;
  inputs <- match tok with
            | Some t =>
                invoke (Tokenize (JStr formatted_prompt))
                  (tokenize_prompt t formatted_prompt (ctx - 512) dev)
            | None => raise (Exc not_callable_None)
            end ;;
  try_except
    (mdl <- gets model ;;
     match mdl, tok with
     | Some m, Some t =>
         generated_text <- invoke Generate (generate_decode t m inputs) ;;
         ret (strip generated_text)
     | _, _ => raise (Exc (no_attribute JNull "generate"))
     end)
    (fun e => raise_exc ClsRuntimeError ("Generation failed: " ++ exc_msg e)).

(** The module global [rag_service]. *)
Record globals : Type := mkGlobals { rag_service : option CodeRAGService }.

Definition initial_globals : globals := mkGlobals None.

(** A method call [rag_service.meth(...)]: it runs on the object the global
    refers to. *)
Definition on_service {A} (meth : string) (m : M CodeRAGService A) : M globals A :=
  fun g =>
    match rag_service g with
    | Some svc =>
        match m svc with
        | (tr, svc', o) => (tr, mkGlobals (Some svc'), o)
        end
    | None => ([], g, Raise (Exc (no_attribute JNull meth)))
    end.

(** [rag_service.model_name if rag_service else "unknown"] *)
Definition model_or_unknown : M globals json :=
  svc <- gets rag_service ;;
  ret (match svc with
       | Some s => model_name s
       | None => JStr "unknown"
       end).

Definition failure (msg : string) (model_field : json) : json :=
  JObj [("success", JBool false); ("error", JStr msg); ("model", model_field)].

Definition process_request (request_data : json) : M globals json :=
  try_except
    (query <- py_get request_data "query" (JStr "") ;;
     search_results <- py_get request_data "search_results" (JArr []) ;;
     if negb (truthy query) then
       m <- model_or_unknown ;;
       ret (failure "Query is required" m)
     else if negb (truthy search_results) then
       m <- model_or_unknown ;;
       ret (failure "No search results provided" m)
     else
       svc <- gets rag_service ;;
       (match svc with
        | None =>
            name <- py_get request_data "model"
                      (JStr "Qwen/Qwen2.5-Coder-1.5B-Instruct") ;;
            modify (fun _ => mkGlobals (Some (new_service name))) ;;
            on_service "load_model" load_model
        | Some _ => ret tt
        end) ;;
       explanation <- on_service "generate_explanation"
                        (generate_explanation query search_results) ;;
       name <- on_service "model_name" (gets model_name) ;;
       dev <- on_service "device" (gets device) ;;
       ret (JObj [("success", JBool true);
                  ("explanation", JStr explanation);
                  ("model", name);
                  ("device", JStr dev)]))
    (fun e =>
       m <- model_or_unknown ;;
       ret (failure (exc_msg e) m)).

(** [stdin] is what [sys.stdin.read()] returns or raises. *)
Definition main (stdin : res string) : M globals unit :=
  try_except
    (raw <- lift stdin ;;
     input_data <- lift (json_loads raw) ;;
     result <- process_request input_data ;;
     print result)
    (fun e =>
       if is_JSONDecodeError e then
         print (failure ("Invalid JSON input: " ++ exc_msg e) (JStr "unknown")) ;;
         sys_exit 1
       else
         m <- model_or_unknown ;;
         print (failure ("Unexpected error: " ++ exc_msg e) m) ;;
         sys_exit 1).

Definition run (stdin : res string) : list event * Z :=
  match main stdin initial_globals with
  | (tr, _, o) => (tr, exit_code o)
  end.

End Service.
End LlmRag.

(** ** A JSON reader for running the scripts

    [MiniJson.loads] reads the fragment of JSON without fractions, exponents
    and [\u] escapes, and reports errors with the messages of [json.loads]
    for one-line inputs.  It instantiates [json_loads] wherever a script is
    run on a concrete line; the theorems hold for every [Builtins]. *)

Module MiniJson.

Definition dq_char : ascii := ascii_of_nat 34.
Definition backslash : ascii := ascii_of_nat 92.

Definition is_ws (c : ascii) : bool :=
  let n := nat_of_ascii c in
  ((n =? 32) || (n =? 9) || (n =? 10) || (n =? 13))%nat.

Fixpoint skip_ws (s : string) : string :=
  match s with
  | String c r => if is_ws c then skip_ws r else s
  | EmptyString => s
  end.

Definition digit_of (c : ascii) : option Z :=
  let n := nat_of_ascii c in
  if ((48 <=? n) && (n <=? 57))%nat then Some (Z.of_nat (n - 48)) else None.

Fixpoint read_digits (acc : Z) (s : string) : Z * string :=
  match s with
  | String c r =>
      match digit_of c with
      | Some d => read_digits (10 * acc + d) r
      | None => (acc, s)
      end
  | EmptyString => (acc, s)
  end.

(** A parse error: the message and the input left where it was found. *)
Inductive parsed (A : Type) : Type :=
| Got (a : A) (rest : string)
| Bad (msg : string) (at_ : string)
| TooDeep.
Arguments Got {A} a rest.
Arguments Bad {A} msg at_.
Arguments TooDeep {A}.

(** The characters after the opening quote, up to the closing one. *)
Fixpoint read_string (start : string) (acc : string) (s : string) : parsed string :=
  match s with
  | EmptyString => Bad "Unterminated string starting at" start
  | String c r =>
      if (c =? dq_char)%char then Got acc r
      else if (c =? backslash)%char then
        match r with
        | String e r' =>
            let esc (x : ascii) := read_string start (acc ++ String x EmptyString) r' in
            if (e =? dq_char)%char then esc dq_char
            else if (e =? backslash)%char then esc backslash
            else if (e =? "/")%char then esc "/"%char
            else if (e =? "n")%char then esc (ascii_of_nat 10)
            else if (e =? "r")%char then esc (ascii_of_nat 13)
            else if (e =? "t")%char then esc (ascii_of_nat 9)
            else if (e =? "b")%char then esc (ascii_of_nat 8)
            else if (e =? "f")%char then esc (ascii_of_nat 12)
            else Bad "Invalid \escape" s
        | EmptyString => Bad "Unterminated string starting at" start
        end
      else if (nat_of_ascii c <? 32)%nat then Bad "Invalid control character at" s
      else read_string start (acc ++ String c EmptyString) r
  end.

(** The digits of an int: a single [0], or a run that does not start
    with [0]. *)
Definition read_int (s : string) : option (Z * string) :=
  match s with
  | String "0" r => Some (0%Z, r)
  | String c _ =>
      match digit_of c with
      | Some _ => Some (read_digits 0 s)
      | None => None
      end
  | EmptyString => None
  end.

Definition read_number (s : string) : parsed json :=
  match s with
  | String "-" r =>
      match read_int r with
      | Some (n, rest) => Got (JInt (- n)) rest
      | None => Bad "Expecting value" s
      end
  | _ =>
      match read_int s with
      | Some (n, rest) => Got (JInt n) rest
      | None => Bad "Expecting value" s
      end
  end.

Fixpoint read_value (fuel : nat) (s : string) : parsed json :=
  match fuel with
  | O => TooDeep
  | S fuel' =>
      match s with
      | String "n" (String "u" (String "l" (String "l" r))) => Got JNull r
      | String "t" (String "r" (String "u" (String "e" r))) => Got (JBool true) r
      | String "f" (String "a" (String "l" (String "s" (String "e" r)))) =>
          Got (JBool false) r
      | String "[" r =>
          match skip_ws r with
          | String "]" r' => Got (JArr []) r'
          | r' => read_elements fuel' [] r'
          end
      | String "{" r =>
          match skip_ws r with
          | String "}" r' => Got (JObj []) r'
          | r' => read_members fuel' [] r'
          end
      | String c r =>
          if (c =? dq_char)%char then
            match read_string s EmptyString r with
            | Got str rest => Got (JStr str) rest
            | Bad msg at_ => Bad msg at_
            | TooDeep => TooDeep
            end
          else read_number s
      | EmptyString => Bad "Expecting value" s
      end
  end

with read_elements (fuel : nat) (acc : list json) (s : string) : parsed json :=
  match fuel with
  | O => TooDeep
  | S fuel' =>
      match read_value fuel' s with
      | Got v rest =>
          match skip_ws rest with
          | String "," r => read_elements fuel' (acc ++ [v])%list (skip_ws r)
          | String "]" r => Got (JArr (acc ++ [v])%list) r
          | r => Bad "Expecting ',' delimiter" r
          end
      | Bad msg at_ => Bad msg at_
      | TooDeep => TooDeep
      end
  end

with read_members (fuel : nat) (acc : list (string * json)) (s : string) : parsed json :=
  match fuel with
  | O => TooDeep
  | S fuel' =>
      match s with
      | String c r =>
          if (c =? dq_char)%char then
            match read_string s EmptyString r with
            | Got key rest =>
                match skip_ws rest with
                | String ":" r1 =>
                    match read_value fuel' (skip_ws r1) with
                    | Got v rest' =>
                        match skip_ws rest' with
                        | String "," r2 =>
                            read_members fuel' (dict_set acc key v) (skip_ws r2)
                        | String "}" r2 => Got (JObj (dict_set acc key v)) r2
                        | r2 => Bad "Expecting ',' delimiter" r2
                        end
                    | Bad msg at_ => Bad msg at_
                    | TooDeep => TooDeep
                    end
                | r1 => Bad "Expecting ':' delimiter" r1
                end
            | Bad msg at_ => Bad msg at_
            | TooDeep => TooDeep
            end
          else Bad "Expecting property name enclosed in double quotes" s
      | EmptyString => Bad "Expecting property name enclosed in double quotes" s
      end
  end.

Definition decode_error (doc : string) (msg : string) (at_ : string) : exc :=
  let pos := String.length doc - String.length at_ in
  mkExc ClsJSONDecodeError
    (msg ++ ": line 1 column " ++ str_of_nat (S pos) ++ " (char " ++ str_of_nat pos ++ ")").

Definition loads (doc : string) : res json :=
  match read_value (4 * String.length doc + 4) (skip_ws doc) with
  | Got v rest =>
      match skip_ws rest with
      | EmptyString => Val v
      | r => Exn (decode_error doc "Extra data" r)
      end
  | Bad msg at_ => Exn (decode_error doc msg at_)
  | TooDeep =>
      Exn (mkExc (ClsOther "RecursionError")
             "maximum recursion depth exceeded while decoding a JSON document")
  end.

End MiniJson.


(** ** Reference definitions for the statements *)

Definition trace_of {S A} (r : list event * S * outcome A) : list event := fst (fst r).
Definition globals_of {S A} (r : list event * S * outcome A) : S := snd (fst r).
Definition outcome_of {S A} (r : list event * S * outcome A) : outcome A := snd r.
Definition stdout_of {S A} (r : list event * S * outcome A) : list json :=
  stdout (trace_of r).

(** A computation that writes nothing on stdout and does not call
    [sys.exit]. *)
Definition quiet {S A} (m : M S A) : Prop :=
  forall s,
    stdout_of (m s) = []
    /\ (forall code, outcome_of (m s) <> Raise (SystemExit code)).

Definition option_list {A} (o : option A) : list A :=
  match o with
  | Some a => [a]
  | None => []
  end.

(** [s.startswith(p)] *)
Definition starts_with (p s : string) : bool := String.prefix p s.

(** The value of a field of a response. *)
Definition field (k : string) (v : json) : option json :=
  match v with
  | JObj items => dict_lookup items k
  | _ => None
  end.

Definition is_result (v : json) : bool :=
  match field "type" v with
  | Some (JStr t) => t =? "result"
  | _ => false
  end.

(** A result that carries an [error] field. *)
Definition is_error_result (v : json) : bool :=
  is_result v && match field "error" v with Some (JStr _) => true | _ => false end.

Module Streaming.
Section Reference.
Context {B : Builtins} {K : EmbeddingBackend}.
Import EmbedServer.

(** What the library calls of [get_embedding] return, the log left out. *)
Definition embed_result (g : globals) (text : json) : res (list float) :=
  match tokenizer g with
  | Some tok =>
      let? inputs := tokenize tok text in
      let? inputs := inputs_to inputs (device g) in
      match model g with
      | Some mdl => mean_pooled mdl inputs
      | None => Exn not_callable_None
      end
  | None => Exn not_callable_None
  end.

(** The specification's [process(raw_line)], with its validation order:
    blank line, JSON, required field, backend. *)
Definition process (g : globals) (raw_line : string) : option json :=
  let line := strip raw_line in
  if line =? "" then None
  else
    Some
      match json_loads line with
      | Exn e =>
          if is_JSONDecodeError e
          then error_response JNull ("Invalid JSON: " ++ exc_msg e)
          else error_response JNull ("Request processing error: " ++ exc_msg e)
      | Val (JObj items) =>
          let id := dict_get items "id" JNull in
          let text := dict_get items "text" (JStr "") in
          if truthy text then
            match embed_result g text with
            | Val embedding => success_response id embedding (MODEL_NAME g)
            | Exn e => error_response id ("Embedding generation failed: " ++ exc_msg e)
            end
          else error_response id "No text provided"
      | Val v =>
          error_response JNull
            ("Request processing error: " ++ exc_msg (no_attribute v "get"))
      end.

(** The recoverable failures of a line, with the id and the message of the
    response each one leads to. *)
Inductive failing (g : globals) (raw_line : string) : json -> string -> Prop :=
| Malformed (e : exc) :
    strip raw_line <> "" ->
    json_loads (strip raw_line) = Exn e ->
    is_JSONDecodeError e = true ->
    failing g raw_line JNull ("Invalid JSON: " ++ exc_msg e)
| DecoderFault (e : exc) :
    strip raw_line <> "" ->
    json_loads (strip raw_line) = Exn e ->
    is_JSONDecodeError e = false ->
    failing g raw_line JNull ("Request processing error: " ++ exc_msg e)
| NotAnObject (v : json) :
    strip raw_line <> "" ->
    json_loads (strip raw_line) = Val v ->
    is_dict v = false ->
    failing g raw_line JNull
      ("Request processing error: " ++ exc_msg (no_attribute v "get"))
| NoText (items : list (string * json)) :
    strip raw_line <> "" ->
    json_loads (strip raw_line) = Val (JObj items) ->
    truthy (dict_get items "text" (JStr "")) = false ->
    failing g raw_line (dict_get items "id" JNull) "No text provided"
| BackendFailure (items : list (string * json)) (e : exc) :
    strip raw_line <> "" ->
    json_loads (strip raw_line) = Val (JObj items) ->
    truthy (dict_get items "text" (JStr "")) = true ->
    embed_result g (dict_get items "text" (JStr "")) = Exn e ->
    failing g raw_line (dict_get items "id" JNull)
      ("Embedding generation failed: " ++ exc_msg e).

(** The model name that [main] selects. *)
Definition effective_model_name (argv : list string) : string :=
  if (1 <? List.length argv)%nat then nth 1 argv "" else MODEL_NAME initial_globals.

(** What the library calls of [setup_model] return. *)
Definition initialize (name : string) : res (Tokenizer * Model) :=
  let? tok := AutoTokenizer_from_pretrained name in
  let? mdl := AutoModel_from_pretrained name in
  let? mdl := model_to mdl torch_device in
  let? mdl := model_eval mdl in
  Val (tok, mdl).

(** The globals of a worker that is ready. *)
Definition ready_globals (name : string) (tok : Tokenizer) (mdl : Model) : globals :=
  mkGlobals name (Some tok) (Some mdl) (Some torch_device).

End Reference.
End Streaming.

(** The lines of end-to-end scenario 3. *)
Definition scenario_line1 : string := dq "{'id':1,'text':'a'}".
Definition scenario_line2 : string := "{bad json".
Definition scenario_line3 : string := dq "{'id':2,'text':'b'}".

Module ContextSpec.
Section Reference.
Context {B : Builtins}.

(** The [SearchResult] of the specification's data model. *)
Record SearchResult : Type := mkSearchResult {
  file_path : string;
  node_type : string;
  similarity : float;
  source_text : string
}.

Definition to_json (r : SearchResult) : json :=
  JObj [("file_path", JStr (file_path r));
        ("node_type", JStr (node_type r));
        ("similarity", JFloat (similarity r));
        ("source_text", JStr (source_text r))].

(** The source text "truncated to 600 characters with an ellipsis marker if
    truncated". *)
Definition truncated (s : string) : string :=
  if (String.length s <=? 600)%nat then s else substring 0 600 s ++ "...".

(** The numbered block of one result. *)
Definition block (i : nat) (r : SearchResult) : string :=
  nl ++ "Code Snippet " ++ str_of_nat i ++ " (Relevance: "
  ++ float_percent (similarity r) ++ ") from " ++ basename (file_path r) ++ ":"
  ++ nl ++ truncated (source_text r) ++ nl.

(** The results with their numbers, from 1, in input order. *)
Definition numbered (rs : list SearchResult) : list (nat * SearchResult) :=
  combine (seq 1 (List.length rs)) rs.

(** The context of the specification: the first [k] results in input order,
    one block each, or the sentinel. *)
Definition context (k : nat) (rs : list SearchResult) : string :=
  match rs with
  | [] => LlmRag.no_results_sentinel
  | _ => join nl (map (fun p => block (fst p) (snd p)) (numbered (firstn k rs)))
  end.

End Reference.
End ContextSpec.

(** ** Library doubles

    Instances of the library classes on which the scripts can be run. *)

Module Mock.

Definition one : float := S754_finite false 1 0.
Definition vector : list float := [S754_zero false; one; one].

#[local] Instance builtins : Builtins := {
  json_loads := MiniJson.loads;
  py_repr := fun v => "<" ++ type_name v ++ ">";
  float_percent := fun f => match f with S754_zero _ => "0.0%" | _ => "100.0%" end;
  float_of_int := fun z => Some (if (z =? 0)%Z then S754_zero false else one)
}.

(** A backend that loads and embeds every [str] as [vector]. *)
#[local] Instance backend : EmbeddingBackend := {
  Tokenizer := unit;
  Model := unit;
  Device := string;
  Inputs := string;
  Pipeline := unit;
  torch_device := "cpu";
  AutoTokenizer_from_pretrained := fun _ => Val tt;
  AutoModel_from_pretrained := fun _ => Val tt;
  pipeline := fun _ => Val tt;
  model_to := fun m _ => Val m;
  model_eval := fun m => Val m;
  tokenize := fun _ text =>
    match text with
    | JStr s => Val s
    | _ => Exn (mkExc ClsValueError "text input must be of type `str`")
    end;
  inputs_to := fun i _ => Val i;
  mean_pooled := fun _ _ => Val vector
}.

(** A backend whose model cannot be loaded. *)
#[local] Instance broken_backend : EmbeddingBackend := {
  Tokenizer := unit;
  Model := unit;
  Device := string;
  Inputs := string;
  Pipeline := unit;
  torch_device := "cpu";
  AutoTokenizer_from_pretrained := fun _ => Val tt;
  AutoModel_from_pretrained := fun _ => Exn (mkExc (ClsOther "OSError") "model not found");
  pipeline := fun _ => Val tt;
  model_to := fun m _ => Val m;
  model_eval := fun m => Val m;
  tokenize := fun _ _ => Exn (mkExc ClsRuntimeError "no model");
  inputs_to := fun i _ => Val i;
  mean_pooled := fun _ _ => Val []
}.

(** A generation backend that answers every prompt with the same text. *)
#[local] Instance generator : GenerationBackend := {
  CausalTokenizer := unit;
  CausalModel := unit;
  PromptInputs := string;
  cuda_available := false;
  mps_available := false;
  load_tokenizer := fun _ => Val tt;
  load_causal_model := fun _ _ _ => Val tt;
  causal_model_to := fun m _ => Val m;
  ensure_pad_token := fun t => t;
  apply_chat_template := fun _ msgs => Val (snd (nth 1 msgs ("", "")));
  tokenize_prompt := fun _ p _ _ => Val p;
  generate_decode := fun _ _ _ => Val " It works. "
}.

(** The globals of the streaming worker once [backend] is loaded. *)
Definition ready : @EmbedServer.globals backend :=
  @Streaming.ready_globals backend "m" tt tt.

Definition ready_embed : @Embed.globals backend :=
  @Embed.mkGlobals backend (Some tt) (Some tt) (Some tt).

(** What [MiniJson.loads] raises on [scenario_line2] and on plain text. *)
Definition bad_json : exc :=
  mkExc ClsJSONDecodeError
    "Expecting property name enclosed in double quotes: line 1 column 2 (char 1)".

Definition not_json : exc :=
  mkExc ClsJSONDecodeError "Expecting value: line 1 column 1 (char 0)".

(** [c * n] *)
Fixpoint replicate (n : nat) (c : ascii) : string :=
  match n with
  | O => EmptyString
  | S n' => String c (replicate n' c)
  end.

Definition hit (path : string) (text : string) : ContextSpec.SearchResult :=
  ContextSpec.mkSearchResult path "function" one text.

End Mock.

(** ** Reference definitions for the further properties *)

(** The lines written on stderr, in order. *)
Fixpoint stderr (tr : list event) : list json :=
  match tr with
  | [] => []
  | PrintErr v :: rest => v :: stderr rest
  | _ :: rest => stderr rest
  end.

Definition is_status (v : json) : bool :=
  match field "type" v with
  | Some (JStr t) => t =? "status"
  | _ => false
  end.

(** A loading call, as opposed to a compute call. *)
Definition is_load (e : event) : bool :=
  match e with
  | Invoke (LoadTokenizer _) | Invoke (LoadModel _) | Invoke (LoadPipeline _)
  | Invoke MoveModel | Invoke EvalModel => true
  | _ => false
  end.

(** Every event of the computation satisfies [p]. *)
Definition emits {S A} (p : event -> bool) (m : M S A) : Prop :=
  forall s, forallb p (trace_of (m s)) = true.

(** An event that is not a line on stderr other than a status message. *)
Definition status_only (e : event) : bool :=
  match e with
  | PrintErr v => is_status v
  | _ => true
  end.

Module OneShot.
Section Reference.
Context {K : EmbeddingBackend}.

(** What the library calls of [get_embedding] of [embed.py] return. *)
Definition embed_result (g : Embed.globals) (text : json) : res (list float) :=
  match Embed.tokenizer g with
  | Some tok =>
      let? inputs := tokenize tok text in
      match Embed.model g with
      | Some mdl => mean_pooled mdl inputs
      | None => Exn not_callable_None
      end
  | None => Exn not_callable_None
  end.

End Reference.
End OneShot.

Module Rag.
Section Reference.
Context {B : Builtins} {G : GenerationBackend}.

(** The prompt used when the tokenizer has no chat template. *)
Definition fallback_prompt (query : json) (context : string) : string :=
  let messages := LlmRag.create_messages query context in
  snd (nth 0 messages ("", "")) ++ nl ++ nl ++ snd (nth 1 messages ("", ""))
  ++ nl ++ nl ++ "Assistant:".

(** The prompt that reaches the tokenizer. *)
Definition prompt_for (t : CausalTokenizer) (query : json) (context : string) : string :=
  match apply_chat_template t (LlmRag.create_messages query context) with
  | Val p => p
  | Exn _ => fallback_prompt query context
  end.

(** The search result [r] with its [node_type] set to [v]. *)
Definition with_node_type (v : json) (r : json) : json :=
  match r with
  | JObj items => JObj (dict_set items "node_type" v)
  | _ => r
  end.

(** The response to a request that was served. *)
Definition success (explanation : string) (s : LlmRag.CodeRAGService) : json :=
  JObj [("success", JBool true);
        ("explanation", JStr explanation);
        ("model", LlmRag.model_name s);
        ("device", JStr (LlmRag.device s))].

End Reference.
End Rag.

(** More library doubles. *)
Module Fixture.

(** A generation backend on cuda whose chat template, tokenizer and
    generation each work or raise, as the three flags say. *)
Definition generator_with (template tokenizes generates : bool) : GenerationBackend := {|
  CausalTokenizer := unit;
  CausalModel := unit;
  PromptInputs := string;
  cuda_available := true;
  mps_available := true;
  load_tokenizer := fun _ => Val tt;
  load_causal_model := fun _ _ _ => Val tt;
  causal_model_to := fun m _ => Val m;
  ensure_pad_token := fun t => t;
  apply_chat_template := fun _ msgs =>
    if template then Val (snd (nth 1 msgs ("", "")))
    else Exn (mkExc ClsValueError "tokenizer.chat_template is not set");
  tokenize_prompt := fun _ p _ _ =>
    if tokenizes then Val p else Exn (mkExc ClsValueError "prompt cannot be encoded");
  generate_decode := fun _ _ _ =>
    if generates then Val " It works. "
    else Exn (mkExc ClsRuntimeError "out of memory")
|}.

(** A hub from which no tokenizer can be loaded. *)
#[local] Instance offline_generator : GenerationBackend := {
  CausalTokenizer := unit;
  CausalModel := unit;
  PromptInputs := string;
  cuda_available := false;
  mps_available := true;
  load_tokenizer := fun _ => Exn (mkExc (ClsOther "OSError") "no network");
  load_causal_model := fun _ _ _ => Val tt;
  causal_model_to := fun m _ => Val m;
  ensure_pad_token := fun t => t;
  apply_chat_template := fun _ msgs => Val (snd (nth 1 msgs ("", "")));
  tokenize_prompt := fun _ p _ _ => Val p;
  generate_decode := fun _ _ _ => Val "ok"
}.

(** An embedding hub from which no tokenizer can be loaded. *)
#[local] Instance offline_backend : EmbeddingBackend := {
  Tokenizer := unit;
  Model := unit;
  Device := string;
  Inputs := string;
  Pipeline := unit;
  torch_device := "cpu";
  AutoTokenizer_from_pretrained := fun _ => Exn (mkExc (ClsOther "OSError") "no network");
  AutoModel_from_pretrained := fun _ => Val tt;
  pipeline := fun _ => Val tt;
  model_to := fun m _ => Val m;
  model_eval := fun m => Val m;
  tokenize := fun _ _ => Exn (mkExc ClsRuntimeError "no tokenizer");
  inputs_to := fun i _ => Val i;
  mean_pooled := fun _ _ => Val []
}.

(** A loaded service over [Mock.generator] and over [generator_with]. *)
Definition service : @LlmRag.CodeRAGService Mock.generator :=
  @LlmRag.mkService Mock.generator (JStr "m") (Some tt) (Some tt) "cpu" 4096.

Definition service_with (template tokenizes generates : bool)
  : @LlmRag.CodeRAGService (generator_with template tokenizes generates) :=
  @LlmRag.mkService (generator_with template tokenizes generates)
    (JStr "m") (Some tt) (Some tt) "cuda" 4096.

Definition hits : json :=
  JArr [ContextSpec.to_json (Mock.hit "src/a.py" "def a(): pass")].

(** A request for an explanation of [hits]. *)
Definition question : list (string * json) :=
  [("query", JStr "what is a?"); ("search_results", hits); ("model", JStr "other")].

(** The context of [hits]. *)
Definition hits_context : string :=
  ContextSpec.context (B := Mock.builtins) 8 [Mock.hit "src/a.py" "def a(): pass"].

(** The number of [[] that open the document. *)
Fixpoint leading_brackets (s : string) : nat :=
  match s with
  | String "[" r => S (leading_brackets r)
  | _ => O
  end.

Definition too_deep : exc :=
  mkExc (ClsOther "RecursionError")
    "maximum recursion depth exceeded while decoding a JSON array from a unicode string".

(** [MiniJson.loads] under a recursion limit, as CPython's decoder has one
    (about 1000 frames by default): a document that opens more than [limit]
    nested arrays raises RecursionError, which is not a JSONDecodeError. *)
Definition loads_limited (limit : nat) (doc : string) : res json :=
  if (limit <? leading_brackets (MiniJson.skip_ws doc))%nat then Exn too_deep
  else MiniJson.loads doc.

(** Builtins whose [json.loads] has a recursion limit of 990 arrays. *)
Definition limited_builtins : Builtins := {|
  json_loads := loads_limited 990;
  py_repr := fun v => "<" ++ type_name v ++ ">";
  float_percent := fun f => match f with S754_zero _ => "0.0%" | _ => "100.0%" end;
  float_of_int := fun z => Some (if (z =? 0)%Z then S754_zero false else Mock.one)
|}.

(** A document of 2000 opening brackets. *)
Definition deep_line : string := Mock.replicate 2000 "[".

End Fixture.

(** * Properties *)

(** ** Traces *)

Lemma stdout_app (a b : list event) : stdout (a ++ b) = (stdout a ++ stdout b)%list.
Proof.
  induction a as [| e a IH]; simpl; [reflexivity |].
  destruct e; simpl; rewrite IH; reflexivity.
Qed.

Lemma stdout_invokes (tr : list event) :
  forallb is_invoke tr = true -> stdout tr = [].
Proof.
  induction tr as [| e tr IH]; simpl; [reflexivity |].
  destruct e; simpl; try discriminate. exact IH.
Qed.

(** ** The streaming worker, line by line *)

Section StreamingFacts.
Context {B : Builtins} {K : EmbeddingBackend}.
Import EmbedServer Streaming.

Ltac run_monad :=
  cbv [try_except try_except_when bind ret gets raise raise_exc invoke lift
       emit print py_get modify sys_exit].

(** [get_embedding] only calls the libraries: it prints nothing, keeps the
    globals and returns what the calls return, whatever [is_query] is. *)
Lemma get_embedding_run (text is_query : json) (g : globals) :
  exists tr,
    get_embedding text is_query g
    = (tr, g,
       match embed_result g text with
       | Val v => Ret v
       | Exn e =>
           Raise (Exc (mkExc ClsException ("Embedding generation failed: " ++ exc_msg e)))
       end)
    /\ forallb is_invoke tr = true.
Proof.
  unfold get_embedding, embed_result. run_monad.
  destruct (tokenizer g) as [tok |]; simpl; [| eexists; split; reflexivity].
  destruct (tokenize tok text) as [i | e]; simpl; [| eexists; split; reflexivity].
  destruct (inputs_to i (device g)) as [i' | e]; simpl; [| eexists; split; reflexivity].
  destruct (model g) as [mdl |]; simpl; [| eexists; split; reflexivity].
  destruct (mean_pooled mdl i') as [v | e]; simpl; eexists; split; reflexivity.
Qed.

(** A request that is a dict is answered by one line; the globals stay. *)
Lemma process_request_dict (items : list (string * json)) (g : globals) :
  exists tr,
    process_request (JObj items) g = (tr, g, Ret tt)
    /\ stdout tr =
       [let id := dict_get items "id" JNull in
        let text := dict_get items "text" (JStr "") in
        if truthy text then
          match embed_result g text with
          | Val embedding => success_response id embedding (MODEL_NAME g)
          | Exn e => error_response id ("Embedding generation failed: " ++ exc_msg e)
          end
        else error_response id "No text provided"].
Proof.
  unfold process_request. run_monad.
  destruct (truthy (dict_get items "text" (JStr ""))) eqn:Ht; simpl.
  - destruct (get_embedding_run (dict_get items "text" (JStr ""))
                (dict_get items "is_query" (JBool false)) g) as (tr & Hrun & Hinv).
    rewrite Hrun.
    destruct (embed_result g (dict_get items "text" (JStr ""))) as [v | e]; simpl.
    + eexists; split; [reflexivity |].
      rewrite !stdout_app, (stdout_invokes _ Hinv). reflexivity.
    + eexists; split; [reflexivity |].
      rewrite !stdout_app, (stdout_invokes _ Hinv). reflexivity.
  - eexists; split; reflexivity.
Qed.

(** On any other value both reads of the id raise, and the second
    [AttributeError] leaves [process_request]. *)
Lemma process_request_not_dict (v : json) (g : globals) :
  is_dict v = false ->
  process_request v g = ([], g, Raise (Exc (no_attribute v "get"))).
Proof.
  intros Hv. unfold process_request. run_monad.
  destruct v; simpl in *; try reflexivity; discriminate.
Qed.

(** One turn of the loop: it ends normally, keeps the globals and prints
    what [process] says. *)
Lemma loop_body_run (line : string) (g : globals) :
  exists tr,
    loop_body line g = (tr, g, Ret tt)
    /\ stdout tr = option_list (process g line).
Proof.
  unfold loop_body, process.
  destruct (strip line =? "") eqn:Hblank; [eexists; split; reflexivity |].
  run_monad.
  destruct (json_loads (strip line)) as [v | e]; simpl.
  - destruct (is_dict v) eqn:Hd.
    + destruct v; try discriminate.
      destruct (process_request_dict items g) as (tr & Hrun & Hout).
      rewrite Hrun. eexists; split; [reflexivity |].
      simpl. exact Hout.
    + rewrite (process_request_not_dict v g Hd).
      unfold no_attribute at 1, is_JSONDecodeError; simpl.
      eexists; split; [reflexivity |].
      destruct v; try discriminate; reflexivity.
  - destruct (is_JSONDecodeError e); eexists; split; reflexivity.
Qed.

(** The whole loop: every line is answered from the same globals. *)
Lemma main_loop_run (lines : list string) (g : globals) :
  exists tr,
    main_loop lines g = (tr, g, Ret tt)
    /\ stdout tr = flat_map (fun l => option_list (process g l)) lines.
Proof.
  unfold main_loop.
  induction lines as [| line rest IH]; simpl.
  - eexists; split; reflexivity.
  - destruct (loop_body_run line g) as (tr1 & H1 & O1).
    destruct IH as (tr2 & H2 & O2).
    unfold bind at 1. rewrite H1, H2.
    eexists; split; [reflexivity |].
    rewrite stdout_app, O1, O2. reflexivity.
Qed.

Lemma main_loop_stdout (lines : list string) (g : globals) :
  stdout_of (main_loop lines g)
  = flat_map (fun l => option_list (process g l)) lines.
Proof.
  destruct (main_loop_run lines g) as (tr & Hrun & Hout).
  unfold stdout_of, trace_of. rewrite Hrun. exact Hout.
Qed.

Lemma loop_body_stdout (line : string) (g : globals) :
  stdout_of (loop_body line g) = option_list (process g line).
Proof.
  destruct (loop_body_run line g) as (tr & Hrun & Hout).
  unfold stdout_of, trace_of. rewrite Hrun. exact Hout.
Qed.

(** A failing line is answered by the error response of its failure. *)
Lemma failing_process (g : globals) (line : string) (id : json) (msg : string) :
  failing g line id msg -> process g line = Some (error_response id msg).
Proof.
  intros H. unfold process.
  destruct H as [e Hb Hl He | e Hb Hl He | v Hb Hl Hd | items Hb Hl Ht
                | items e Hb Hl Ht He];
    apply String.eqb_neq in Hb; rewrite Hb, Hl.
  - rewrite He. reflexivity.
  - rewrite He. reflexivity.
  - destruct v; try discriminate; reflexivity.
  - rewrite Ht. reflexivity.
  - rewrite Ht, He. reflexivity.
Qed.

(** A line that passes every check is answered by the embedding. *)
Lemma process_success (g : globals) (line : string) (items : list (string * json))
    (embedding : list float) :
  strip line <> "" ->
  json_loads (strip line) = Val (JObj items) ->
  truthy (dict_get items "text" (JStr "")) = true ->
  embed_result g (dict_get items "text" (JStr "")) = Val embedding ->
  process g line
  = Some (success_response (dict_get items "id" JNull) embedding (MODEL_NAME g)).
Proof.
  intros Hb Hl Ht He. unfold process.
  apply String.eqb_neq in Hb. rewrite Hb, Hl, Ht, He. reflexivity.
Qed.

Lemma main_loop_app_stdout (l1 l2 : list string) (g : globals) :
  stdout_of (main_loop (l1 ++ l2) g)
  = (stdout_of (main_loop l1 g) ++ stdout_of (main_loop l2 g))%list.
Proof.
  rewrite !main_loop_stdout, flat_map_app. reflexivity.
Qed.

Lemma starts_with_app (p s : string) : starts_with p (p ++ s) = true.
Proof.
  unfold starts_with.
  induction p as [| c p IH]; simpl; [destruct s; reflexivity |].
  destruct (ascii_dec c c) as [_ | Hne]; [exact IH | contradiction].
Qed.

(** Everything the loop prints is a result. *)
Lemma process_is_result (g : globals) (line : string) (r : json) :
  process g line = Some r -> is_result r = true.
Proof.
  unfold process. destruct (strip line =? ""); [discriminate |].
  intros H. injection H as <-.
  destruct (json_loads (strip line)) as [v | e].
  - destruct v; try reflexivity.
    destruct (truthy _); [| reflexivity].
    destruct (embed_result _ _); reflexivity.
  - destruct (is_JSONDecodeError e); reflexivity.
Qed.

Lemma main_loop_results (lines : list string) (g : globals) :
  forallb is_result (stdout_of (main_loop lines g)) = true.
Proof.
  rewrite main_loop_stdout.
  induction lines as [| l rest IH]; simpl; [reflexivity |].
  rewrite forallb_app, IH, andb_true_r.
  destruct (process g l) as [r |] eqn:Hp; simpl; [| reflexivity].
  rewrite (process_is_result _ _ Hp). reflexivity.
Qed.

(** [setup_model]: the loading calls, then either the ready message or the
    error message and [sys.exit(1)]. *)
Lemma setup_model_run (g : globals) :
  exists loads,
    forallb is_invoke loads = true
    /\ existsb is_compute loads = false
    /\ match initialize (MODEL_NAME g) with
       | Val (tok, mdl) =>
           setup_model g
           = ((loads ++ [Print ready_message])%list,
              ready_globals (MODEL_NAME g) tok mdl, Ret tt)
       | Exn e =>
           exists g',
             setup_model g
             = ((loads ++ [Print (init_error_message
                                   ("Failed to load model: " ++ exc_msg e))])%list,
                g', Raise (SystemExit 1))
       end.
Proof.
  unfold setup_model, initialize, ready_globals. run_monad. simpl.
  destruct (AutoTokenizer_from_pretrained (MODEL_NAME g)) as [tok | e]; simpl.
  2: { exists [Invoke (LoadTokenizer (JStr (MODEL_NAME g)))].
       repeat split; eexists; reflexivity. }
  destruct (AutoModel_from_pretrained (MODEL_NAME g)) as [mdl | e]; simpl.
  2: { exists [Invoke (LoadTokenizer (JStr (MODEL_NAME g)));
               Invoke (LoadModel (JStr (MODEL_NAME g)))].
       repeat split; eexists; reflexivity. }
  destruct (model_to mdl torch_device) as [mdl1 | e]; simpl.
  2: { exists [Invoke (LoadTokenizer (JStr (MODEL_NAME g)));
               Invoke (LoadModel (JStr (MODEL_NAME g))); Invoke MoveModel].
       repeat split; eexists; reflexivity. }
  destruct (model_eval mdl1) as [mdl2 | e]; simpl.
  2: { exists [Invoke (LoadTokenizer (JStr (MODEL_NAME g)));
               Invoke (LoadModel (JStr (MODEL_NAME g))); Invoke MoveModel;
               Invoke EvalModel].
       repeat split; eexists; reflexivity. }
  exists [Invoke (LoadTokenizer (JStr (MODEL_NAME g)));
          Invoke (LoadModel (JStr (MODEL_NAME g))); Invoke MoveModel;
          Invoke EvalModel].
  repeat split.
Qed.

(** The process once the model is loaded: loading calls, the ready
    message, then the loop on the ready globals; status 0. *)
Lemma run_ready (argv lines : list string) (tok : Tokenizer) (mdl : Model) :
  initialize (effective_model_name argv) = Val (tok, mdl) ->
  exists loads,
    forallb is_invoke loads = true
    /\ existsb is_compute loads = false
    /\ run argv lines
       = ((loads ++ Print ready_message
             :: trace_of (main_loop lines
                            (ready_globals (effective_model_name argv) tok mdl)))%list,
          0%Z).
Proof.
  intros Hinit. unfold run, main.
  destruct (setup_model_run (if (1 <? List.length argv)%nat
                             then set_MODEL_NAME (nth 1 argv "") initial_globals
                             else initial_globals))
    as (loads & Hinv & Hcomp & Hsetup).
  replace (MODEL_NAME (if (1 <? List.length argv)%nat
                       then set_MODEL_NAME (nth 1 argv "") initial_globals
                       else initial_globals))
    with (effective_model_name argv) in Hsetup
    by (unfold effective_model_name; destruct (1 <? List.length argv)%nat; reflexivity).
  rewrite Hinit in Hsetup.
  set (g1 := ready_globals (effective_model_name argv) tok mdl) in *.
  destruct (main_loop_run lines g1) as (tr & Hloop & _).
  exists loads. split; [exact Hinv |]. split; [exact Hcomp |].
  unfold trace_of. rewrite Hloop. unfold bind, modify, ret.
  destruct (1 <? List.length argv)%nat; cbv beta iota;
    rewrite Hsetup, Hloop; cbn [app fst snd exit_code];
    rewrite <- app_assoc; reflexivity.
Qed.

(** The process when a loading call raises: the error message and
    status 1. *)
Lemma run_broken (argv lines : list string) (e : exc) :
  initialize (effective_model_name argv) = Exn e ->
  exists loads,
    forallb is_invoke loads = true
    /\ existsb is_compute loads = false
    /\ run argv lines
       = ((loads ++ [Print (init_error_message
                             ("Failed to load model: " ++ exc_msg e))])%list,
          1%Z).
Proof.
  intros Hinit. unfold run, main.
  destruct (setup_model_run (if (1 <? List.length argv)%nat
                             then set_MODEL_NAME (nth 1 argv "") initial_globals
                             else initial_globals))
    as (loads & Hinv & Hcomp & Hsetup).
  replace (MODEL_NAME (if (1 <? List.length argv)%nat
                       then set_MODEL_NAME (nth 1 argv "") initial_globals
                       else initial_globals))
    with (effective_model_name argv) in Hsetup
    by (unfold effective_model_name; destruct (1 <? List.length argv)%nat; reflexivity).
  rewrite Hinit in Hsetup. destruct Hsetup as (g' & Hsetup).
  exists loads. split; [exact Hinv |]. split; [exact Hcomp |].
  unfold bind, modify, ret.
  destruct (1 <? List.length argv)%nat; cbv beta iota;
    rewrite Hsetup; reflexivity.
Qed.

(** What a ready worker writes: the ready message, then the answers. *)
Lemma run_ready_stdout (argv lines : list string) (tok : Tokenizer) (mdl : Model) :
  initialize (effective_model_name argv) = Val (tok, mdl) ->
  stdout (fst (run argv lines))
  = ready_message
    :: stdout_of (main_loop lines (ready_globals (effective_model_name argv) tok mdl)).
Proof.
  intros Hinit. destruct (run_ready argv lines Hinit) as (loads & Hinv & _ & Hrun).
  rewrite Hrun. cbn [fst].
  rewrite stdout_app, (stdout_invokes _ Hinv). reflexivity.
Qed.

(** C1. Per-request isolation in the streaming worker.  Whatever the lines,
    the loop ends normally with the globals it started from.  A malformed
    or failing line prints exactly one error-typed result and changes no
    global, and the lines around it are answered as by a loop that never
    saw it.  In scenario 3 the three lines are answered by success(id=1),
    error(id=null), success(id=2), and a fourth line is answered as by a
    loop that starts on it.  For the whole process: after a failing line
    the worker writes for the remaining lines what a fresh process writes
    for them after its ready message. *)
Theorem C1_request_isolation :
  (forall g lines,
      globals_of (main_loop lines g) = g
      /\ outcome_of (main_loop lines g) = Ret tt)
  /\ (forall g before line after id msg,
        failing g line id msg ->
        stdout_of (loop_body line g) = [error_response id msg]
        /\ is_error_result (error_response id msg) = true
        /\ globals_of (loop_body line g) = g
        /\ stdout_of (main_loop (before ++ line :: after) g)
           = (stdout_of (main_loop before g)
              ++ error_response id msg :: stdout_of (main_loop after g))%list)
  /\ (forall g e ea eb,
        json_loads scenario_line1 = Val (JObj [("id", JInt 1); ("text", JStr "a")]) ->
        json_loads scenario_line2 = Exn e ->
        is_JSONDecodeError e = true ->
        json_loads scenario_line3 = Val (JObj [("id", JInt 2); ("text", JStr "b")]) ->
        embed_result g (JStr "a") = Val ea ->
        embed_result g (JStr "b") = Val eb ->
        let three := [scenario_line1 ++ nl; scenario_line2 ++ nl; scenario_line3 ++ nl] in
        stdout_of (main_loop three g)
        = [success_response (JInt 1) ea (MODEL_NAME g);
           error_response JNull ("Invalid JSON: " ++ exc_msg e);
           success_response (JInt 2) eb (MODEL_NAME g)]
        /\ forall fourth,
            stdout_of (main_loop (three ++ [fourth]) g)
            = (stdout_of (main_loop three g) ++ stdout_of (loop_body fourth g))%list)
  /\ (forall argv tok mdl before line after id msg,
        initialize (effective_model_name argv) = Val (tok, mdl) ->
        failing (ready_globals (effective_model_name argv) tok mdl) line id msg ->
        exists answers,
          stdout (fst (run argv after)) = ready_message :: answers
          /\ stdout (fst (run argv (before ++ line :: after)))
             = (stdout (fst (run argv before))
                ++ error_response id msg :: answers)%list).
Proof.
  split; [| split; [| split]].
  - intros g lines. destruct (main_loop_run lines g) as (tr & Hrun & _).
    unfold globals_of, outcome_of. rewrite Hrun. split; reflexivity.
  - intros g before line after id msg Hfail.
    pose proof (failing_process Hfail) as Hp.
    split; [| split; [| split]].
    + rewrite loop_body_stdout, Hp. reflexivity.
    + reflexivity.
    + destruct (loop_body_run line g) as (tr & Hrun & _).
      unfold globals_of. rewrite Hrun. reflexivity.
    + rewrite main_loop_app_stdout. f_equal.
      rewrite !main_loop_stdout. simpl. rewrite Hp. reflexivity.
  - intros g e ea eb H1 H2 He H3 Ha Hb three.
    assert (Hthree : stdout_of (main_loop three g)
                     = [success_response (JInt 1) ea (MODEL_NAME g);
                        error_response JNull ("Invalid JSON: " ++ exc_msg e);
                        success_response (JInt 2) eb (MODEL_NAME g)]).
    { assert (P1 : process g (scenario_line1 ++ nl)
                   = Some (success_response (JInt 1) ea (MODEL_NAME g))).
      { apply (@process_success g (scenario_line1 ++ nl)
                 [("id", JInt 1); ("text", JStr "a")]);
          [intro Hc; vm_compute in Hc; discriminate | exact H1 | reflexivity | exact Ha]. }
      assert (P2 : process g (scenario_line2 ++ nl)
                   = Some (error_response JNull ("Invalid JSON: " ++ exc_msg e))).
      { apply failing_process. apply Malformed;
          [intro Hc; vm_compute in Hc; discriminate | exact H2 | exact He]. }
      assert (P3 : process g (scenario_line3 ++ nl)
                   = Some (success_response (JInt 2) eb (MODEL_NAME g))).
      { apply (@process_success g (scenario_line3 ++ nl)
                 [("id", JInt 2); ("text", JStr "b")]);
          [intro Hc; vm_compute in Hc; discriminate | exact H3 | reflexivity | exact Hb]. }
      rewrite main_loop_stdout. unfold three. cbn [flat_map].
      rewrite P1, P2, P3. reflexivity. }
    split; [exact Hthree |].
    intros fourth. rewrite main_loop_app_stdout. f_equal.
    rewrite main_loop_stdout, loop_body_stdout. simpl. apply app_nil_r.
  - intros argv tok mdl before line after id msg Hinit Hfail.
    set (g1 := ready_globals (effective_model_name argv) tok mdl) in *.
    exists (stdout_of (main_loop after g1)).
    rewrite !(run_ready_stdout argv _ Hinit). fold g1.
    split; [reflexivity |].
    rewrite main_loop_app_stdout. cbn [app]. f_equal. f_equal.
    rewrite !main_loop_stdout. simpl.
    rewrite (failing_process Hfail). reflexivity.
Qed.

(** C2, as amended.  A line that is not blank and on which [json.loads]
    raises is answered by an error result with a null id, whatever lines
    came before it.  When the
    exception is a JSONDecodeError the message is "Invalid JSON: " followed
    by the message of the exception; when it is any other exception (a
    RecursionError on a deeply nested document, say) the message is
    "Request processing error: " followed by the message of the
    exception. *)
Theorem C2_decoder_failure (g : globals) (before : list string) (line : string)
    (e : exc) :
  strip line <> "" ->
  json_loads (strip line) = Exn e ->
  exists r msg,
    stdout_of (main_loop (before ++ [line]) g)
    = (stdout_of (main_loop before g) ++ [r])%list
    /\ is_error_result r = true
    /\ field "id" r = Some JNull
    /\ field "error" r = Some (JStr msg)
    /\ (is_JSONDecodeError e = true ->
        msg = "Invalid JSON: " ++ exc_msg e
        /\ starts_with "Invalid JSON: " msg = true)
    /\ (is_JSONDecodeError e = false ->
        msg = "Request processing error: " ++ exc_msg e
        /\ starts_with "Request processing error: " msg = true
        /\ starts_with "Invalid JSON: " msg = false).
Proof.
  intros Hb Hl.
  destruct (is_JSONDecodeError e) eqn:He.
  - exists (error_response JNull ("Invalid JSON: " ++ exc_msg e)).
    exists ("Invalid JSON: " ++ exc_msg e).
    split.
    + rewrite main_loop_app_stdout. f_equal.
      rewrite main_loop_stdout. simpl.
      rewrite (failing_process (@Malformed _ _ g line e Hb Hl He)). reflexivity.
    + repeat split; try reflexivity; try discriminate. apply starts_with_app.
  - exists (error_response JNull ("Request processing error: " ++ exc_msg e)).
    exists ("Request processing error: " ++ exc_msg e).
    split.
    + rewrite main_loop_app_stdout. f_equal.
      rewrite main_loop_stdout. simpl.
      rewrite (failing_process (@DecoderFault _ _ g line e Hb Hl He)). reflexivity.
    + repeat split; try reflexivity; try discriminate. apply starts_with_app.
Qed.

(** C4. A line that is blank after trimming produces nothing at all; every
    other line produces exactly one response, a result; so a run of the
    loop prints as many lines as it reads non-blank ones. *)
Theorem C4_one_response_per_line (g : globals) :
  (forall line,
      if strip line =? "" then trace_of (loop_body line g) = []
      else exists r, stdout_of (loop_body line g) = [r] /\ is_result r = true)
  /\ (forall lines,
        List.length (stdout_of (main_loop lines g))
        = List.length (filter (fun l => negb (strip l =? "")) lines)).
Proof.
  split.
  - intros line. destruct (strip line =? "") eqn:Hb.
    + unfold loop_body. rewrite Hb. reflexivity.
    + rewrite loop_body_stdout. unfold process. rewrite Hb.
      eexists; split; [reflexivity |].
      destruct (json_loads (strip line)) as [v | e].
      * destruct v; try reflexivity.
        destruct (truthy _); [| reflexivity].
        destruct (embed_result _ _); reflexivity.
      * destruct (is_JSONDecodeError e); reflexivity.
  - intros lines. rewrite main_loop_stdout.
    induction lines as [| l rest IH]; simpl; [reflexivity |].
    rewrite length_app, IH. unfold process.
    destruct (strip l =? ""); reflexivity.
Qed.

(** C10. A line that is valid JSON but not an object: inside
    [process_request] the handler raises again when it reads the id, and the
    loop answers with one error result, id null, message
    "Request processing error: '<type>' object has no attribute 'get'", and
    goes on to the next line. *)
Theorem C10_non_object_request (g : globals) (line : string) (v : json)
    (rest : list string) :
  strip line <> "" ->
  json_loads (strip line) = Val v ->
  is_dict v = false ->
  process_request v g = ([], g, Raise (Exc (no_attribute v "get")))
  /\ exists r msg,
      stdout_of (loop_body line g) = [r]
      /\ is_error_result r = true
      /\ field "id" r = Some JNull
      /\ field "error" r = Some (JStr msg)
      /\ msg = "Request processing error: '" ++ type_name v
               ++ "' object has no attribute 'get'"
      /\ starts_with "Request processing error: " msg = true
      /\ outcome_of (loop_body line g) = Ret tt
      /\ globals_of (loop_body line g) = g
      /\ stdout_of (main_loop (line :: rest) g) = r :: stdout_of (main_loop rest g).
Proof.
  intros Hb Hl Hd.
  split; [exact (process_request_not_dict v g Hd) |].
  pose proof (failing_process (@NotAnObject _ _ g line v Hb Hl Hd)) as Hp.
  exists (error_response JNull
            ("Request processing error: " ++ exc_msg (no_attribute v "get"))).
  exists ("Request processing error: " ++ exc_msg (no_attribute v "get")).
  destruct (loop_body_run line g) as (tr & Hrun & _).
  split; [rewrite loop_body_stdout, Hp; reflexivity |].
  split; [reflexivity |].
  split; [reflexivity |].
  split; [reflexivity |].
  split; [reflexivity |].
  split; [apply starts_with_app |].
  split; [unfold outcome_of; rewrite Hrun; reflexivity |].
  split; [unfold globals_of; rewrite Hrun; reflexivity |].
  rewrite !main_loop_stdout. simpl. rewrite Hp. reflexivity.
Qed.

(** C7. Lifecycle ordering of the streaming worker.  When the loading calls
    succeed, the trace is: loading calls only, then the ready message, then
    the trace of the loop, in which every printed line is a result and none
    is the ready message; the process ends with status 0.  When a loading
    call raises, stdout holds the one error-typed message, no compute call
    was made, no result was printed and the status is 1. *)
Theorem C7_lifecycle (argv lines : list string) :
  match initialize (effective_model_name argv) with
  | Val (tok, mdl) =>
      exists loads results,
        fst (run argv lines) = (loads ++ Print ready_message :: results)%list
        /\ forallb is_invoke loads = true
        /\ existsb is_compute loads = false
        /\ results
           = trace_of (main_loop lines
                         (ready_globals (effective_model_name argv) tok mdl))
        /\ forallb is_result (stdout results) = true
        /\ ~ In ready_message (stdout results)
        /\ stdout (fst (run argv lines)) = ready_message :: stdout results
        /\ snd (run argv lines) = 0%Z
  | Exn e =>
      stdout (fst (run argv lines))
      = [init_error_message ("Failed to load model: " ++ exc_msg e)]
      /\ field "type" (init_error_message ("Failed to load model: " ++ exc_msg e))
         = Some (JStr "error")
      /\ existsb is_result (stdout (fst (run argv lines))) = false
      /\ existsb is_compute (fst (run argv lines)) = false
      /\ snd (run argv lines) = 1%Z
  end.
Proof.
  destruct (initialize (effective_model_name argv)) as [[tok mdl] | e] eqn:Hinit.
  - destruct (run_ready argv lines Hinit) as (loads & Hinv & Hcomp & Hrun).
    set (g1 := ready_globals (effective_model_name argv) tok mdl) in *.
    pose proof (main_loop_results lines g1) as Hres.
    exists loads, (trace_of (main_loop lines g1)).
    rewrite Hrun. cbn [fst snd].
    split; [reflexivity |].
    split; [exact Hinv |].
    split; [exact Hcomp |].
    split; [reflexivity |].
    split; [exact Hres |].
    split.
    + intros Hin. unfold stdout_of in Hres. rewrite forallb_forall in Hres.
      specialize (Hres _ Hin). discriminate.
    + split; [| reflexivity].
      rewrite stdout_app, (stdout_invokes _ Hinv). reflexivity.
  - destruct (run_broken argv lines Hinit) as (loads & Hinv & Hcomp & Hrun).
    rewrite Hrun. cbn [fst snd].
    rewrite stdout_app, (stdout_invokes _ Hinv). simpl.
    split; [reflexivity |].
    split; [reflexivity |].
    split; [reflexivity |].
    split; [| reflexivity].
    rewrite existsb_app, Hcomp. reflexivity.
Qed.

End StreamingFacts.

(** ** Computations that leave stdout alone *)

Section Quiet.
Context {S : Type}.

Lemma quiet_ret {A} (a : A) : quiet (ret a : M S A).
Proof. intros s. split; [reflexivity | discriminate]. Qed.

Lemma quiet_gets {A} (f : S -> A) : quiet (gets f).
Proof. intros s. split; [reflexivity | discriminate]. Qed.

Lemma quiet_modify (f : S -> S) : quiet (modify f).
Proof. intros s. split; [reflexivity | discriminate]. Qed.

Lemma quiet_raise_exc {A} (c : exc_class) (msg : string) :
  quiet (raise_exc c msg : M S A).
Proof. intros s. split; [reflexivity | discriminate]. Qed.

Lemma quiet_raise {A} (e : exc) : quiet (raise (Exc e) : M S A).
Proof. intros s. split; [reflexivity | discriminate]. Qed.

Lemma quiet_print_err (v : json) : quiet (print_err v : M S unit).
Proof. intros s. split; [reflexivity | discriminate]. Qed.

Lemma quiet_lift {A} (r : res A) : quiet (lift r : M S A).
Proof. intros s. destruct r; (split; [reflexivity | discriminate]). Qed.

Lemma quiet_invoke {A} (c : call) (r : res A) : quiet (invoke c r : M S A).
Proof. intros s. destruct r; (split; [reflexivity | discriminate]). Qed.

Lemma quiet_py_get (v : json) (k : string) (d : json) : quiet (py_get v k d : M S json).
Proof. intros s. destruct v; (split; [reflexivity | discriminate]). Qed.

Lemma quiet_bind {A C} (m : M S A) (k : A -> M S C) :
  quiet m -> (forall a, quiet (k a)) -> quiet (bind m k).
Proof.
  intros Hm Hk s.
  unfold quiet, stdout_of, trace_of, outcome_of, bind in *.
  specialize (Hm s).
  destruct (m s) as [[tr s'] [a | r]]; simpl in *.
  - specialize (Hk a s'). destruct (k a s') as [[tr' s''] o]; simpl in *.
    destruct Hm as [Hm _], Hk as [Hk1 Hk2].
    split; [rewrite stdout_app, Hm, Hk1; reflexivity | exact Hk2].
  - destruct Hm as [Hm1 Hm2]. split; [exact Hm1 |].
    intros code Heq. injection Heq as ->. exact (Hm2 code eq_refl).
Qed.

Lemma quiet_try_except_when {A} (c : exc -> bool) (m : M S A) (h : exc -> M S A) :
  quiet m -> (forall e, quiet (h e)) -> quiet (try_except_when c m h).
Proof.
  intros Hm Hh s.
  unfold quiet, stdout_of, trace_of, outcome_of, try_except_when in *.
  specialize (Hm s).
  destruct (m s) as [[tr s'] [a | [e | code]]]; simpl in *; try exact Hm.
  destruct (c e); simpl; [| exact Hm].
  specialize (Hh e s'). destruct (h e s') as [[tr' s''] o]; simpl in *.
  destruct Hm as [Hm _], Hh as [Hh1 Hh2].
  split; [rewrite stdout_app, Hm, Hh1; reflexivity | exact Hh2].
Qed.

Lemma quiet_try_except {A} (m : M S A) (h : exc -> M S A) :
  quiet m -> (forall e, quiet (h e)) -> quiet (try_except m h).
Proof. apply quiet_try_except_when. Qed.

(** After a handler that returns, [try_except] returns. *)
Lemma try_except_returns {A} (m : M S A) (h : exc -> M S A) (s : S) :
  quiet m ->
  (forall e s', exists tr s'' a, h e s' = (tr, s'', Ret a)) ->
  exists tr s' a, try_except m h s = (tr, s', Ret a).
Proof.
  intros Hm Hh. specialize (Hm s).
  unfold try_except, try_except_when, outcome_of in *.
  destruct (m s) as [[tr s'] [a | [e | code]]]; simpl in *.
  - eauto.
  - destruct (Hh e s') as (tr' & s'' & a & Heq). rewrite Heq. eauto.
  - destruct Hm as [_ Hm]. exfalso. exact (Hm code eq_refl).
Qed.

End Quiet.

Create HintDb quiet.
#[export] Hint Resolve quiet_ret quiet_gets quiet_modify quiet_raise_exc quiet_raise
  quiet_print_err quiet_lift quiet_invoke quiet_py_get : quiet.

(** Splits a goal [quiet m] along the structure of [m]. *)
Ltac quiet_step :=
  match goal with
  | |- quiet (bind _ _) => apply quiet_bind; [| intros]
  | |- quiet (try_except _ _) => apply quiet_try_except; [| intros]
  | |- quiet (try_except_when _ _ _) => apply quiet_try_except_when; [| intros]
  | |- quiet (match ?x with _ => _ end) => destruct x
  | |- quiet _ => solve [auto with quiet]
  end.

(** ** The RAG script *)

Section RagFacts.
Context {B : Builtins} {G : GenerationBackend}.
Import LlmRag.

Lemma quiet_load_model : quiet load_model.
Proof. unfold load_model. repeat quiet_step. Qed.

Lemma quiet_generate_explanation (query search_results : json) :
  quiet (generate_explanation query search_results).
Proof.
  unfold generate_explanation.
  repeat first [quiet_step | apply quiet_load_model].
Qed.

Lemma quiet_on_service {A} (meth : string) (m : M CodeRAGService A) :
  quiet m -> quiet (on_service meth m).
Proof.
  intros Hm g. unfold on_service, stdout_of, trace_of, outcome_of.
  destruct (rag_service g) as [svc |]; simpl; [| split; [reflexivity | discriminate]].
  specialize (Hm svc). unfold stdout_of, trace_of, outcome_of in Hm.
  destruct (m svc) as [[tr svc'] o]; simpl in *. exact Hm.
Qed.

Lemma quiet_model_or_unknown : quiet model_or_unknown.
Proof. unfold model_or_unknown. repeat quiet_step. Qed.

(** [process_request] always returns a dict and prints nothing on stdout. *)
Lemma process_request_returns (request_data : json) (g : globals) :
  exists tr g' result,
    process_request request_data g = (tr, g', Ret result) /\ stdout tr = [].
Proof.
  assert (Hq : quiet (process_request request_data)).
  { unfold process_request.
    repeat first [quiet_step
                 | apply quiet_on_service
                 | apply quiet_load_model
                 | apply quiet_generate_explanation
                 | apply quiet_model_or_unknown]. }
  assert (Hr : exists tr g' result,
             process_request request_data g = (tr, g', Ret result)).
  { unfold process_request. apply try_except_returns.
    - repeat first [quiet_step
                   | apply quiet_on_service
                   | apply quiet_load_model
                   | apply quiet_generate_explanation
                   | apply quiet_model_or_unknown].
    - intros e s'. unfold model_or_unknown, bind, gets, ret. simpl.
      eauto. }
  destruct Hr as (tr & g' & result & Heq).
  exists tr, g', result. split; [exact Heq |].
  specialize (Hq g). unfold stdout_of, trace_of in Hq. rewrite Heq in Hq.
  exact (proj1 Hq).
Qed.

End RagFacts.

(** ** Dict lookups *)

Lemma dict_lookup_set_other (items : list (string * json)) (k k' : string) (v : json) :
  k <> k' -> dict_lookup (dict_set items k v) k' = dict_lookup items k'.
Proof.
  intros Hne. induction items as [| [k0 v0] rest IH]; simpl.
  - destruct (String.eqb_spec k k'); [contradiction | reflexivity].
  - destruct (String.eqb_spec k0 k) as [-> | Hk0]; simpl.
    + destruct (String.eqb_spec k k'); [contradiction | reflexivity].
    + rewrite IH. reflexivity.
Qed.

Lemma dict_lookup_remove_other (items : list (string * json)) (k k' : string) :
  k <> k' -> dict_lookup (dict_remove items k) k' = dict_lookup items k'.
Proof.
  intros Hne. induction items as [| [k0 v0] rest IH]; simpl; [reflexivity |].
  destruct (String.eqb_spec k0 k) as [-> | Hk0]; simpl.
  - rewrite IH. destruct (String.eqb_spec k k'); [contradiction | reflexivity].
  - rewrite IH. reflexivity.
Qed.

Lemma dict_get_set_other (items : list (string * json)) (k k' : string) (v d : json) :
  k <> k' -> dict_get (dict_set items k v) k' d = dict_get items k' d.
Proof. intros H. unfold dict_get. rewrite dict_lookup_set_other by exact H. reflexivity. Qed.

Lemma dict_get_remove_other (items : list (string * json)) (k k' : string) (d : json) :
  k <> k' -> dict_get (dict_remove items k) k' d = dict_get items k' d.
Proof. intros H. unfold dict_get. rewrite dict_lookup_remove_other by exact H. reflexivity. Qed.

(** A field that is missing or the empty string reads as a falsy value. *)
Lemma missing_or_empty_falsy (items : list (string * json)) (k : string) :
  dict_lookup items k = None \/ dict_lookup items k = Some (JStr "") ->
  truthy (dict_get items k (JStr "")) = false.
Proof. unfold dict_get. intros [-> | ->]; reflexivity. Qed.

(** ** Validation and noninterference *)

Section ValidationFacts.
Context {B : Builtins} {K : EmbeddingBackend} {G : GenerationBackend}.

Ltac run_monad :=
  cbv [try_except try_except_when bind ret gets raise raise_exc invoke lift
       emit print py_get modify sys_exit].

(** C3, as amended.  A request whose required content field is missing or
    empty is answered by the worker's own message, "No text provided" for an
    embedding request and "Query is required" for a RAG request, and the
    trace of the request holds no library call. *)
Theorem C3_required_field :
  (forall (items : list (string * json)) (g : EmbedServer.globals),
      dict_lookup items "text" = None \/ dict_lookup items "text" = Some (JStr "") ->
      EmbedServer.process_request (JObj items) g
      = ([Print (EmbedServer.error_response (dict_get items "id" JNull)
                   "No text provided")], g, Ret tt)
      /\ existsb is_invoke (trace_of (EmbedServer.process_request (JObj items) g))
         = false)
  /\ (forall (items : list (string * json)) (g : LlmRag.globals),
        dict_lookup items "query" = None \/ dict_lookup items "query" = Some (JStr "") ->
        LlmRag.process_request (JObj items) g
        = ([], g,
           Ret (LlmRag.failure "Query is required"
                  (match LlmRag.rag_service g with
                   | Some svc => LlmRag.model_name svc
                   | None => JStr "unknown"
                   end)))
        /\ existsb is_invoke (trace_of (LlmRag.process_request (JObj items) g))
           = false).
Proof.
  split; intros items g H; apply missing_or_empty_falsy in H.
  - assert (Heq : EmbedServer.process_request (JObj items) g
                  = ([Print (EmbedServer.error_response (dict_get items "id" JNull)
                               "No text provided")], g, Ret tt)).
    { unfold EmbedServer.process_request. run_monad. rewrite H. reflexivity. }
    rewrite Heq. split; reflexivity.
  - assert (Heq : LlmRag.process_request (JObj items) g
                  = ([], g,
                     Ret (LlmRag.failure "Query is required"
                            (match LlmRag.rag_service g with
                             | Some svc => LlmRag.model_name svc
                             | None => JStr "unknown"
                             end)))).
    { unfold LlmRag.process_request, LlmRag.model_or_unknown. run_monad.
      rewrite H. reflexivity. }
    rewrite Heq. split; reflexivity.
Qed.

(** C8. A RAG request with a query and with [search_results] missing or
    empty is answered by "No search results provided"; the trace of the
    request is empty, so no library was called, and the global is kept. *)
Theorem C8_no_search_results (items : list (string * json)) (g : LlmRag.globals) :
  truthy (dict_get items "query" (JStr "")) = true ->
  dict_lookup items "search_results" = None
  \/ dict_lookup items "search_results" = Some (JArr []) ->
  LlmRag.process_request (JObj items) g
  = ([], g,
     Ret (LlmRag.failure "No search results provided"
            (match LlmRag.rag_service g with
             | Some svc => LlmRag.model_name svc
             | None => JStr "unknown"
             end)))
  /\ existsb is_invoke (trace_of (LlmRag.process_request (JObj items) g)) = false.
Proof.
  intros Hq Hs.
  assert (Hfalsy : truthy (dict_get items "search_results" (JArr [])) = false).
  { unfold dict_get. destruct Hs as [-> | ->]; reflexivity. }
  assert (Heq : LlmRag.process_request (JObj items) g
                = ([], g,
                   Ret (LlmRag.failure "No search results provided"
                          (match LlmRag.rag_service g with
                           | Some svc => LlmRag.model_name svc
                           | None => JStr "unknown"
                           end)))).
  { unfold LlmRag.process_request, LlmRag.model_or_unknown. run_monad.
    rewrite Hq, Hfalsy. reflexivity. }
  rewrite Heq. split; reflexivity.
Qed.

(** C9. Noninterference of [is_query].  In the streaming worker a request
    is answered in the same way, trace included, whether [is_query] is set
    to any value or absent; [get_embedding] does not depend on its second
    argument in either script; and the one-shot script behaves in the same
    way on two inputs that differ in [is_query] only. *)
Theorem C9_is_query_noninterference :
  (forall items v g,
      EmbedServer.process_request (JObj (dict_set items "is_query" v)) g
      = EmbedServer.process_request (JObj (dict_remove items "is_query")) g)
  /\ (forall items g,
        EmbedServer.process_request (JObj items) g
        = EmbedServer.process_request (JObj (dict_remove items "is_query")) g)
  /\ (forall text q1 q2 g,
        EmbedServer.get_embedding text q1 g = EmbedServer.get_embedding text q2 g)
  /\ (forall text q1 q2 g,
        Embed.get_embedding text q1 g = Embed.get_embedding text q2 g)
  /\ (forall s1 s2 items v g,
        json_loads (strip s1) = Val (JObj items) ->
        json_loads (strip s2) = Val (JObj (dict_set items "is_query" v)) ->
        Embed.main_block (Val s1) g = Embed.main_block (Val s2) g).
Proof.
  assert (Hne1 : "is_query" <> "id") by discriminate.
  assert (Hne2 : "is_query" <> "text") by discriminate.
  split; [| split; [| split; [| split]]].
  - intros items v g.
    unfold EmbedServer.process_request, EmbedServer.get_embedding. run_monad.
    rewrite !dict_get_set_other, !dict_get_remove_other by assumption.
    reflexivity.
  - intros items g.
    unfold EmbedServer.process_request, EmbedServer.get_embedding. run_monad.
    rewrite !dict_get_remove_other by assumption.
    reflexivity.
  - reflexivity.
  - reflexivity.
  - intros s1 s2 items v g H1 H2.
    unfold Embed.main_block, Embed.embed_text, Embed.get_embedding. run_monad.
    rewrite H1, H2. simpl.
    rewrite !dict_get_set_other by assumption.
    reflexivity.
Qed.

End ValidationFacts.

(** ** The one-shot scripts *)

Section OneShotFacts.
Context {B : Builtins} {K : EmbeddingBackend} {G : GenerationBackend}.

Ltac run_monad :=
  cbv [try_except try_except_when bind ret gets raise raise_exc invoke lift
       emit print py_get modify sys_exit].

(** [embed.py]: the text is embedded and printed, or an exception leaves
    with nothing printed. *)
Lemma embed_text_run (text is_query : json) (g : Embed.globals) :
  exists tr,
    forallb is_invoke tr = true
    /\ ((exists embedding,
           Embed.embed_text text is_query g
           = ((tr ++ [Print (Embed.success_result embedding)])%list, g, Ret tt))
        \/ (exists e, Embed.embed_text text is_query g = (tr, g, Raise (Exc e)))).
Proof.
  unfold Embed.embed_text, Embed.get_embedding. run_monad.
  destruct (truthy text); simpl;
    [| exists []; split; [reflexivity | right; eexists; reflexivity]].
  destruct (Embed.tokenizer g) as [tok |]; simpl;
    [| exists []; split; [reflexivity | right; eexists; reflexivity]].
  destruct (tokenize tok text) as [i | e]; simpl;
    [| exists [Invoke (Tokenize text)];
       split; [reflexivity | right; eexists; reflexivity]].
  destruct (Embed.model g) as [mdl |]; simpl;
    [| exists [Invoke (Tokenize text)];
       split; [reflexivity | right; eexists; reflexivity]].
  destruct (mean_pooled mdl i) as [v | e]; simpl;
    exists [Invoke (Tokenize text); Invoke Forward];
    (split; [reflexivity |]).
  - left. exists v. reflexivity.
  - right. eexists. reflexivity.
Qed.

(** The [__main__] block of [embed.py] prints one line: the embedding, or
    the error, and then it calls [sys.exit(1)]. *)
Lemma main_block_run (stdin : res string) (g : Embed.globals) :
  exists tr,
    forallb is_invoke tr = true
    /\ ((exists embedding,
           Embed.main_block stdin g
           = ((tr ++ [Print (Embed.success_result embedding)])%list, g, Ret tt))
        \/ (exists e,
              Embed.main_block stdin g
              = ((tr ++ [Print (Embed.error_result (exc_msg e))])%list, g,
                 Raise (SystemExit 1)))).
Proof.
  unfold Embed.main_block.
  destruct stdin as [raw | e0].
  2: { exists []. split; [reflexivity |]. right. exists e0. reflexivity. }
  destruct (json_loads (strip raw)) as [v | e] eqn:Hl.
  - destruct (is_dict v) eqn:Hd.
    + destruct v; try discriminate.
      destruct (embed_text_run (dict_get items "text" (JStr ""))
                  (dict_get items "is_query" (JBool false)) g)
        as (tr & Hinv & [(emb & Heq) | (e & Heq)]);
        exists tr; (split; [exact Hinv |]); [left; exists emb | right; exists e];
        run_monad; rewrite Hl; simpl; rewrite Heq; reflexivity.
    + exists []. split; [reflexivity |]. right.
      exists (no_attribute v "get").
      run_monad. rewrite Hl. destruct v; try discriminate; reflexivity.
  - destruct (is_JSONDecodeError e) eqn:He.
    + destruct (embed_text_run (JStr (strip raw)) (JBool false) g)
        as (tr & Hinv & [(emb & Heq) | (e' & Heq)]);
        exists tr; (split; [exact Hinv |]); [left; exists emb | right; exists e'];
        run_monad; rewrite Hl; simpl; rewrite He; simpl; rewrite Heq; reflexivity.
    + exists []. split; [reflexivity |]. right. exists e.
      run_monad. rewrite Hl. simpl. rewrite He. reflexivity.
Qed.

Lemma quiet_module_init : quiet Embed.module_init.
Proof. unfold Embed.module_init. repeat quiet_step. Qed.

(** C6, as amended.  [llm_rag.py] always writes exactly one response; it
    ends with status 0 whenever stdin was read and [json.loads] returned,
    whether [process_request] returned a success or an error response, and
    with status 1 when reading stdin or [json.loads] raised.  [embed.py],
    once the loads at module level have returned, writes exactly one
    response and ends with status 0 after a success response and with
    status 1 after an error response; when a load at module level raises,
    nothing is written and the status is 1.  In [embed.py] a JSONDecodeError
    on stdin is not by itself a failure: the trimmed stdin is then the text,
    which gives a success response and status 0 when it is not empty and
    the embedding is computed, the error "No text provided" and status 1
    when it is empty, and an error response and status 1 when computing
    the embedding raises.  Any other exception of [json.loads], and a
    failure to read stdin, gives an error response with the message of the
    exception and status 1. *)
Theorem C6_one_shot_exit_codes :
  (forall stdin : res string,
      exists r,
        stdout (fst (LlmRag.run stdin)) = [r]
        /\ match res_bind stdin json_loads with
           | Val request =>
               snd (LlmRag.run stdin) = 0%Z
               /\ outcome_of (LlmRag.process_request request LlmRag.initial_globals)
                  = Ret r
           | Exn e =>
               snd (LlmRag.run stdin) = 1%Z
               /\ r = LlmRag.failure
                        ((if is_JSONDecodeError e then "Invalid JSON input: "
                          else "Unexpected error: ") ++ exc_msg e)
                        (JStr "unknown")
           end)
  /\ (forall (stdin : res string) (g : Embed.globals),
        exists r,
          stdout_of (Embed.main_block stdin g) = [r]
          /\ ((exit_code (outcome_of (Embed.main_block stdin g)) = 0%Z
               /\ exists embedding, r = Embed.success_result embedding)
              \/ (exit_code (outcome_of (Embed.main_block stdin g)) = 1%Z
                  /\ exists msg, r = Embed.error_result msg)))
  /\ (forall (raw : string) (e : exc) (g : Embed.globals) (embedding : list float),
        json_loads (strip raw) = Exn e ->
        is_JSONDecodeError e = true ->
        strip raw <> "" ->
        outcome_of (Embed.get_embedding (JStr (strip raw)) (JBool false) g)
        = Ret embedding ->
        stdout_of (Embed.main_block (Val raw) g) = [Embed.success_result embedding]
        /\ exit_code (outcome_of (Embed.main_block (Val raw) g)) = 0%Z)
  /\ (forall stdin : res string,
        match outcome_of (Embed.module_init Embed.initial_globals) with
        | Ret _ =>
            let g := globals_of (Embed.module_init Embed.initial_globals) in
            stdout (fst (Embed.run stdin)) = stdout_of (Embed.main_block stdin g)
            /\ snd (Embed.run stdin) = exit_code (outcome_of (Embed.main_block stdin g))
        | Raise _ =>
            stdout (fst (Embed.run stdin)) = [] /\ snd (Embed.run stdin) = 1%Z
        end)
  /\ (forall (raw : string) (e : exc) (g : Embed.globals),
        json_loads (strip raw) = Exn e ->
        is_JSONDecodeError e = true ->
        strip raw = "" ->
        Embed.main_block (Val raw) g
        = ([Print (Embed.error_result "No text provided")], g, Raise (SystemExit 1)))
  /\ (forall (raw : string) (e failure : exc) (g : Embed.globals),
        json_loads (strip raw) = Exn e ->
        is_JSONDecodeError e = true ->
        strip raw <> "" ->
        outcome_of (Embed.get_embedding (JStr (strip raw)) (JBool false) g)
        = Raise (Exc failure) ->
        stdout_of (Embed.main_block (Val raw) g)
        = [Embed.error_result (exc_msg failure)]
        /\ exit_code (outcome_of (Embed.main_block (Val raw) g)) = 1%Z)
  /\ (forall (raw : string) (e : exc) (g : Embed.globals),
        json_loads (strip raw) = Exn e ->
        is_JSONDecodeError e = false ->
        Embed.main_block (Val raw) g
        = ([Print (Embed.error_result (exc_msg e))], g, Raise (SystemExit 1)))
  /\ (forall (e : exc) (g : Embed.globals),
        Embed.main_block (Exn e) g
        = ([Print (Embed.error_result (exc_msg e))], g, Raise (SystemExit 1)))
  /\ (forall stdin : res string,
        outcome_of (Embed.module_init Embed.initial_globals) = Ret tt ->
        exists r,
          stdout (fst (Embed.run stdin)) = [r]
          /\ ((snd (Embed.run stdin) = 0%Z
               /\ exists embedding, r = Embed.success_result embedding)
              \/ (snd (Embed.run stdin) = 1%Z
                  /\ exists msg, r = Embed.error_result msg))).
Proof.
  split; [| split; [| split; [| split; [| split; [| split; [| split; [| split]]]]]]].
  - intros stdin. unfold LlmRag.run, LlmRag.main.
    destruct stdin as [raw | e]; simpl res_bind.
    + destruct (json_loads raw) as [v | e] eqn:Hl.
      * destruct (process_request_returns v LlmRag.initial_globals)
          as (tr & g' & result & Heq & Hout).
        exists result. run_monad. rewrite Hl. cbv beta iota. rewrite Heq.
        unfold outcome_of. simpl.
        rewrite stdout_app, Hout. repeat split; reflexivity.
      * run_monad. rewrite Hl. simpl.
        destruct (is_JSONDecodeError e); simpl; eexists; repeat split; reflexivity.
    + run_monad. simpl.
      destruct (is_JSONDecodeError e); simpl; eexists; repeat split; reflexivity.
  - intros stdin g.
    destruct (main_block_run stdin g) as (tr & Hinv & [(emb & Heq) | (e & Heq)]);
      unfold stdout_of, trace_of, outcome_of; rewrite Heq; simpl;
      rewrite stdout_app, (stdout_invokes _ Hinv); simpl.
    + eexists. split; [reflexivity |]. left. split; [reflexivity |]. eauto.
    + eexists. split; [reflexivity |]. right. split; [reflexivity |]. eauto.
  - intros raw e g embedding Hl He Hb Hemb.
    apply String.eqb_neq in Hb.
    unfold stdout_of, trace_of, outcome_of in *.
    unfold Embed.main_block, Embed.embed_text. run_monad.
    rewrite Hl. simpl. rewrite He. simpl. rewrite Hb. simpl.
    destruct (Embed.get_embedding (JStr (strip raw)) (JBool false) g)
      as [[tr s'] o] eqn:Hg.
    simpl in Hemb. subst o. simpl.
    assert (Hq : quiet (Embed.get_embedding (JStr (strip raw)) (JBool false))).
    { unfold Embed.get_embedding. repeat quiet_step. }
    specialize (Hq g). unfold stdout_of, trace_of in Hq. rewrite Hg in Hq.
    simpl in Hq. destruct Hq as [Hq _].
    rewrite stdout_app, Hq. split; reflexivity.
  - intros stdin. unfold Embed.run, Embed.script.
    pose proof (quiet_module_init Embed.initial_globals) as Hq.
    unfold stdout_of, trace_of, outcome_of, globals_of in *.
    unfold bind.
    destruct (Embed.module_init Embed.initial_globals) as [[tr g] [[] | r]];
      simpl in *; destruct Hq as [Hq1 Hq2].
    + destruct (Embed.main_block stdin g) as [[tr' g'] o]. simpl.
      rewrite stdout_app, Hq1. split; reflexivity.
    + split; [exact Hq1 |].
      destruct r as [e | code]; [reflexivity |].
      exfalso. exact (Hq2 code eq_refl).
  - intros raw e g Hl He Hb.
    unfold Embed.main_block, Embed.embed_text. run_monad.
    rewrite Hl. cbv beta iota. rewrite He. cbv beta iota. cbn [fst snd].
    rewrite Hb. reflexivity.
  - intros raw e failure g Hl He Hb Hemb.
    apply String.eqb_neq in Hb.
    unfold stdout_of, trace_of, outcome_of in *.
    unfold Embed.main_block, Embed.embed_text. run_monad.
    rewrite Hl. simpl. rewrite He. simpl. rewrite Hb. simpl.
    destruct (Embed.get_embedding (JStr (strip raw)) (JBool false) g)
      as [[tr s'] o] eqn:Hg.
    simpl in Hemb. subst o. simpl.
    assert (Hq : quiet (Embed.get_embedding (JStr (strip raw)) (JBool false))).
    { unfold Embed.get_embedding. repeat quiet_step. }
    specialize (Hq g). unfold stdout_of, trace_of in Hq. rewrite Hg in Hq.
    simpl in Hq. destruct Hq as [Hq _].
    rewrite stdout_app, Hq. split; reflexivity.
  - intros raw e g Hl He.
    unfold Embed.main_block. run_monad.
    rewrite Hl. cbv beta iota. rewrite He. reflexivity.
  - intros e g. reflexivity.
  - intros stdin Hinit. unfold Embed.run, Embed.script.
    pose proof (quiet_module_init Embed.initial_globals) as Hq.
    unfold stdout_of, trace_of, outcome_of in *.
    unfold bind.
    destruct (Embed.module_init Embed.initial_globals) as [[tr g] o].
    simpl in Hinit, Hq. subst o. destruct Hq as [Hq _].
    destruct (main_block_run stdin g) as (tr' & Hinv & [(emb & Heq) | (e & Heq)]);
      rewrite Heq; simpl;
      rewrite !stdout_app, Hq, (stdout_invokes _ Hinv); simpl.
    + eexists. split; [reflexivity |]. left. split; [reflexivity |]. eauto.
    + eexists. split; [reflexivity |]. right. split; [reflexivity |]. eauto.
Qed.

End OneShotFacts.

(** ** Context formatting *)

Lemma length_string_app (a b : string) :
  String.length (a ++ b) = String.length a + String.length b.
Proof. induction a as [| c a IH]; simpl; [reflexivity | rewrite IH; reflexivity]. Qed.

Lemma length_substring_0 (n : nat) (s : string) :
  n <= String.length s -> String.length (substring 0 n s) = n.
Proof.
  revert s. induction n as [| n IH]; intros s Hn.
  - destruct s; reflexivity.
  - destruct s as [| c s]; simpl in *; [lia |].
    rewrite IH by lia. reflexivity.
Qed.

Lemma slice_to_nat {A} (k : nat) (l : list A) :
  LlmRag.slice_to (Z.of_nat k) l = firstn k l.
Proof.
  unfold LlmRag.slice_to.
  destruct (Z.ltb_spec (Z.of_nat k) 0); [lia |].
  rewrite Nat2Z.id. reflexivity.
Qed.

Section ContextFacts.
Context {B : Builtins}.
Import ContextSpec.

Lemma truncate_source_str (s : string) :
  LlmRag.truncate_source (JStr s) = Val (JStr (truncated s)).
Proof.
  unfold LlmRag.truncate_source, truncated. simpl res_bind.
  rewrite Nat.ltb_antisym.
  destruct (String.length s <=? 600)%nat; reflexivity.
Qed.

Lemma to_json_file_path (r : SearchResult) (d : json) :
  match to_json r with
  | JObj items => dict_get items "file_path" d = JStr (file_path r)
  | _ => False
  end.
Proof. reflexivity. Qed.

Lemma to_json_similarity (r : SearchResult) (d : json) :
  match to_json r with
  | JObj items => dict_get items "similarity" d = JFloat (similarity r)
  | _ => False
  end.
Proof. reflexivity. Qed.

Lemma to_json_source_text (r : SearchResult) (d : json) :
  match to_json r with
  | JObj items => dict_get items "source_text" d = JStr (source_text r)
  | _ => False
  end.
Proof. reflexivity. Qed.

(** One turn of the loop on a typed result appends its block. *)
Lemma render_result_typed (i : nat) (r : SearchResult) :
  LlmRag.render_result i (to_json r) = Val (block i r).
Proof.
  pose proof (to_json_file_path r (JStr "Unknown file")) as Hf.
  pose proof (to_json_similarity r (JInt 0)) as Hs.
  pose proof (to_json_source_text r (JStr "No source available")) as Ht.
  unfold LlmRag.render_result, block.
  destruct (to_json r) as [| | | | | | items]; try contradiction.
  rewrite Hf, Hs, Ht, truncate_source_str. reflexivity.
Qed.

(** The loop appends the blocks of its results, numbered from [i], in the
    order of the list. *)
Lemma render_loop_typed (rs : list SearchResult) (i : nat) (acc : list string) :
  LlmRag.render_loop i (map to_json rs) acc
  = Val (acc ++ map (fun p => block (fst p) (snd p))
                  (combine (seq i (List.length rs)) rs))%list.
Proof.
  revert i acc. induction rs as [| r rs IH]; intros i acc.
  - simpl. rewrite app_nil_r. reflexivity.
  - cbn [map LlmRag.render_loop]. rewrite render_result_typed.
    cbn [res_bind]. rewrite IH.
    cbn [List.length seq combine map fst snd].
    rewrite <- app_assoc. reflexivity.
Qed.

Lemma format_search_context_typed (k : nat) (rs : list SearchResult) :
  LlmRag.format_search_context (JArr (map to_json rs)) (Z.of_nat k)
  = Val (context k rs).
Proof.
  unfold LlmRag.format_search_context, context, numbered.
  destruct rs as [| r rs]; [reflexivity |].
  cbn [truthy map negb res_bind].
  rewrite slice_to_nat.
  change (to_json r :: map to_json rs) with (map to_json (r :: rs)).
  rewrite firstn_map, render_loop_typed. reflexivity.
Qed.

Lemma nth_error_numbered_from {A} (l : list A) (start i : nat) (a : A) :
  nth_error l i = Some a ->
  nth_error (combine (seq start (List.length l)) l) i = Some (start + i, a).
Proof.
  revert start i. induction l as [| x l IH]; intros start i H.
  - destruct i; discriminate.
  - destruct i as [| i]; simpl in *.
    + injection H as ->. rewrite Nat.add_0_r. reflexivity.
    + rewrite (IH (S start) i H). f_equal. f_equal. lia.
Qed.

(** C5. Context formatting.  On a sequence of search results the function
    returns the sentinel when the sequence is empty and otherwise the
    blocks of the first 8 results, numbered from 1 in input order; results
    after the eighth do not matter; a source text longer than 600
    characters appears as its first 600 characters followed by "...", and a
    source text of at most 600 characters appears as it is. *)
Theorem C5_context_formatting :
  (forall rs : list SearchResult,
      LlmRag.format_search_context (JArr (map to_json rs)) 8
      = Val (match rs with
             | [] => "No search results provided."
             | _ => join nl (map (fun p => block (fst p) (snd p))
                               (combine (seq 1 (List.length (firstn 8 rs)))
                                  (firstn 8 rs)))
             end))
  /\ (forall rs : list SearchResult,
        LlmRag.format_search_context (JArr (map to_json rs)) 8
        = LlmRag.format_search_context (JArr (map to_json (firstn 8 rs))) 8)
  /\ (forall (rs : list SearchResult) (i : nat) (r : SearchResult),
        nth_error (firstn 8 rs) i = Some r ->
        nth_error (numbered (firstn 8 rs)) i = Some (S i, r))
  /\ (forall s : string,
        600 < String.length s ->
        LlmRag.truncate_source (JStr s) = Val (JStr (substring 0 600 s ++ "..."))
        /\ String.length (substring 0 600 s ++ "...") = 603)
  /\ (forall s : string,
        String.length s <= 600 ->
        LlmRag.truncate_source (JStr s) = Val (JStr s))
  /\ LlmRag.format_search_context (JArr []) 8 = Val "No search results provided.".
Proof.
  split; [| split; [| split; [| split; [| split]]]].
  - intros rs. exact (format_search_context_typed 8 rs).
  - intros rs. change 8%Z with (Z.of_nat 8).
    rewrite (format_search_context_typed 8 rs).
    rewrite (format_search_context_typed 8 (firstn 8 rs)).
    unfold context. rewrite firstn_firstn.
    destruct rs as [| r rs]; reflexivity.
  - intros rs i r H. unfold numbered.
    exact (nth_error_numbered_from (firstn 8 rs) 1 i H).
  - intros s Hs. rewrite truncate_source_str. unfold truncated.
    destruct (Nat.leb_spec (String.length s) 600); [lia |].
    split; [reflexivity |].
    rewrite length_string_app, length_substring_0 by lia. reflexivity.
  - intros s Hs. rewrite truncate_source_str. unfold truncated.
    destruct (Nat.leb_spec (String.length s) 600); [reflexivity | lia].
  - reflexivity.
Qed.

End ContextFacts.

(** ** The statements at concrete inputs *)

(** Scenario 3 on the library doubles, and its malformed line. *)
Lemma C1_witness :
  Streaming.failing (B := Mock.builtins) Mock.ready (scenario_line2 ++ nl) JNull
    ("Invalid JSON: " ++ exc_msg Mock.bad_json)
  /\ stdout_of (EmbedServer.loop_body (B := Mock.builtins) (scenario_line2 ++ nl) Mock.ready)
     = [EmbedServer.error_response JNull ("Invalid JSON: " ++ exc_msg Mock.bad_json)]
  /\ stdout_of
       (EmbedServer.main_loop (B := Mock.builtins)
          [scenario_line1 ++ nl; scenario_line2 ++ nl; scenario_line3 ++ nl]
          Mock.ready)
     = [EmbedServer.success_response (JInt 1) Mock.vector "m";
        EmbedServer.error_response JNull ("Invalid JSON: " ++ exc_msg Mock.bad_json);
        EmbedServer.success_response (JInt 2) Mock.vector "m"]
  /\ exists answers,
      stdout (fst (EmbedServer.run (B := Mock.builtins) (K := Mock.backend)
                     ["embed_server.py"; "m"] [(scenario_line3 ++ nl)%string]))
      = EmbedServer.ready_message :: answers
      /\ stdout (fst (EmbedServer.run (B := Mock.builtins) (K := Mock.backend)
                        ["embed_server.py"; "m"]
                        ([(scenario_line1 ++ nl)%string]
                         ++ (scenario_line2 ++ nl)%string
                            :: [(scenario_line3 ++ nl)%string])%list))
         = (stdout (fst (EmbedServer.run (B := Mock.builtins) (K := Mock.backend)
                           ["embed_server.py"; "m"] [(scenario_line1 ++ nl)%string]))
            ++ EmbedServer.error_response JNull
                 ("Invalid JSON: " ++ exc_msg Mock.bad_json) :: answers)%list.
Proof.
  assert (Hfail : Streaming.failing (B := Mock.builtins) Mock.ready
                    (scenario_line2 ++ nl) JNull
                    ("Invalid JSON: " ++ exc_msg Mock.bad_json)).
  { apply (@Streaming.Malformed Mock.builtins Mock.backend Mock.ready
             (scenario_line2 ++ nl) Mock.bad_json).
    - vm_compute. discriminate.
    - vm_compute. reflexivity.
    - reflexivity. }
  destruct (@C1_request_isolation Mock.builtins Mock.backend)
    as (_ & Hline & Hscenario & Hprocess).
  split; [exact Hfail |].
  split; [| split].
  - exact (proj1 (Hline Mock.ready [] (scenario_line2 ++ nl) [] JNull _ Hfail)).
  - refine (proj1 (Hscenario Mock.ready Mock.bad_json Mock.vector Mock.vector
                     _ _ _ _ _ _));
      vm_compute; reflexivity.
  - exact (Hprocess ["embed_server.py"; "m"] tt tt [(scenario_line1 ++ nl)%string]
             (scenario_line2 ++ nl) [(scenario_line3 ++ nl)%string] JNull _
             eq_refl Hfail).
Defined.

Lemma C2_witness :
  exists r msg,
    stdout_of
      (EmbedServer.main_loop (B := Mock.builtins)
         ([(scenario_line1 ++ nl)%string] ++ [(scenario_line2 ++ nl)%string])%list
         Mock.ready)
    = (stdout_of (EmbedServer.main_loop (B := Mock.builtins)
                    [(scenario_line1 ++ nl)%string] Mock.ready) ++ [r])%list
    /\ is_error_result r = true
    /\ field "id" r = Some JNull
    /\ field "error" r = Some (JStr msg)
    /\ msg = "Invalid JSON: " ++ exc_msg Mock.bad_json
    /\ starts_with "Invalid JSON: " msg = true.
Proof.
  destruct (@C2_decoder_failure Mock.builtins Mock.backend Mock.ready
              [(scenario_line1 ++ nl)%string] (scenario_line2 ++ nl) Mock.bad_json)
    as (r & msg & Hout & Herr & Hid & Hmsg & Hdecode & _).
  - vm_compute. discriminate.
  - vm_compute. reflexivity.
  - exists r, msg.
    destruct (Hdecode eq_refl) as (Heq & Hprefix).
    repeat split; assumption.
Defined.

(** A document nested beyond the recursion limit does not parse, and the
    answer to it does not start with "Invalid JSON: ": [json.loads]
    raises RecursionError, which the loop reports as a request processing
    error. *)
Lemma C2_counterexample :
  json_loads (Builtins := Fixture.limited_builtins)
    (strip (Fixture.deep_line ++ nl))
  = Exn Fixture.too_deep
  /\ stdout_of (EmbedServer.loop_body (B := Fixture.limited_builtins)
                  (Fixture.deep_line ++ nl) Mock.ready)
     = [EmbedServer.error_response JNull
          "Request processing error: maximum recursion depth exceeded while decoding a JSON array from a unicode string"]
  /\ ~ (exists msg,
          stdout_of (EmbedServer.loop_body (B := Fixture.limited_builtins)
                       (Fixture.deep_line ++ nl) Mock.ready)
          = [EmbedServer.error_response JNull msg]
          /\ starts_with "Invalid JSON: " msg = true).
Proof.
  assert (Hout : stdout_of (EmbedServer.loop_body (B := Fixture.limited_builtins)
                              (Fixture.deep_line ++ nl) Mock.ready)
                 = [EmbedServer.error_response JNull
                      "Request processing error: maximum recursion depth exceeded while decoding a JSON array from a unicode string"])
    by (vm_compute; reflexivity).
  split; [vm_compute; reflexivity |].
  split; [exact Hout |].
  intros (msg & Hmsg & Hprefix). rewrite Hout in Hmsg.
  injection Hmsg as <-. vm_compute in Hprefix. discriminate.
Qed.

(** A request without text and a request without query. *)
Lemma C3_witness :
  EmbedServer.process_request (JObj [("id", JInt 7)]) Mock.ready
  = ([Print (EmbedServer.error_response (JInt 7) "No text provided")], Mock.ready, Ret tt)
  /\ LlmRag.process_request (B := Mock.builtins) (G := Mock.generator)
       (JObj [("query", JStr "")]) LlmRag.initial_globals
     = ([], LlmRag.initial_globals,
        Ret (LlmRag.failure "Query is required" (JStr "unknown"))).
Proof.
  destruct (@C3_required_field Mock.builtins Mock.backend Mock.generator)
    as (Hembed & Hrag).
  split.
  - refine (proj1 (Hembed [("id", JInt 7)] Mock.ready _)). left. reflexivity.
  - refine (proj1 (Hrag [("query", JStr "")] LlmRag.initial_globals _)).
    right. reflexivity.
Defined.

(** The claimed message "text is required" is not the one the worker
    sends: an empty text is answered by "No text provided". *)
Lemma C3_counterexample :
  stdout_of (EmbedServer.process_request
               (JObj [("text", JStr "")]) Mock.ready)
  = [EmbedServer.error_response JNull "No text provided"]
  /\ ~ (exists id,
           stdout_of (EmbedServer.process_request
                        (JObj [("text", JStr "")]) Mock.ready)
           = [EmbedServer.error_response id "text is required"]).
Proof.
  split; [reflexivity |].
  intros [id H]. vm_compute in H. discriminate.
Qed.

Lemma C5_witness :
  (LlmRag.truncate_source (JStr (Mock.replicate 700 "x"))
   = Val (JStr (substring 0 600 (Mock.replicate 700 "x") ++ "..."))
   /\ String.length (substring 0 600 (Mock.replicate 700 "x") ++ "...") = 603)
  /\ LlmRag.truncate_source (JStr (Mock.replicate 500 "x"))
     = Val (JStr (Mock.replicate 500 "x"))
  /\ nth_error (ContextSpec.numbered (firstn 8 [Mock.hit "src/a.py" "def a(): pass"])) 0
     = Some (1, Mock.hit "src/a.py" "def a(): pass").
Proof.
  destruct (@C5_context_formatting Mock.builtins)
    as (_ & _ & Horder & Hlong & Hshort & _).
  split; [| split].
  - apply Hlong. vm_compute. lia.
  - apply Hshort. vm_compute. lia.
  - apply Horder. reflexivity.
Defined.

(** A one-shot input that is not JSON is embedded as text; blank input,
    a backend that raises, a document nested beyond the recursion limit and
    a working module level each end as stated. *)
Lemma C6_witness :
  (stdout_of (Embed.main_block (B := Mock.builtins) (Val "plain text") Mock.ready_embed)
   = [Embed.success_result Mock.vector]
   /\ exit_code (outcome_of (Embed.main_block (B := Mock.builtins)
                               (Val "plain text") Mock.ready_embed)) = 0%Z)
  /\ Embed.main_block (B := Mock.builtins) (Val "  ") Mock.ready_embed
     = ([Print (Embed.error_result "No text provided")], Mock.ready_embed,
        Raise (SystemExit 1))
  /\ (stdout_of (Embed.main_block (B := Mock.builtins) (Val "plain text")
                   (@Embed.mkGlobals Mock.broken_backend (Some tt) (Some tt) (Some tt)))
      = [Embed.error_result "no model"]
      /\ exit_code (outcome_of
                      (Embed.main_block (B := Mock.builtins) (Val "plain text")
                         (@Embed.mkGlobals Mock.broken_backend
                            (Some tt) (Some tt) (Some tt)))) = 1%Z)
  /\ Embed.main_block (B := Fixture.limited_builtins) (Val Fixture.deep_line)
       Mock.ready_embed
     = ([Print (Embed.error_result
                  "maximum recursion depth exceeded while decoding a JSON array from a unicode string")],
        Mock.ready_embed, Raise (SystemExit 1))
  /\ (exists r,
        stdout (fst (Embed.run (B := Mock.builtins) (K := Mock.backend)
                       (Val "plain text"))) = [r]
        /\ ((snd (Embed.run (B := Mock.builtins) (K := Mock.backend)
                    (Val "plain text")) = 0%Z
             /\ exists embedding, r = Embed.success_result embedding)
            \/ (snd (Embed.run (B := Mock.builtins) (K := Mock.backend)
                       (Val "plain text")) = 1%Z
                /\ exists msg, r = Embed.error_result msg))).
Proof.
  destruct (@C6_one_shot_exit_codes Mock.builtins Mock.backend Mock.generator)
    as (_ & _ & Hfallback & _ & Hblank & _ & _ & _ & Hrun).
  destruct (@C6_one_shot_exit_codes Mock.builtins Mock.broken_backend Mock.generator)
    as (_ & _ & _ & _ & _ & Hfailure & _ & _ & _).
  destruct (@C6_one_shot_exit_codes Fixture.limited_builtins Mock.backend Mock.generator)
    as (_ & _ & _ & _ & _ & _ & Hother & _ & _).
  split; [| split; [| split; [| split]]].
  - apply (Hfallback "plain text" Mock.not_json Mock.ready_embed Mock.vector).
    + vm_compute. reflexivity.
    + reflexivity.
    + vm_compute. discriminate.
    + reflexivity.
  - apply (Hblank "  " Mock.not_json Mock.ready_embed).
    + vm_compute. reflexivity.
    + reflexivity.
    + vm_compute. reflexivity.
  - apply (Hfailure "plain text" Mock.not_json (mkExc ClsRuntimeError "no model")
             (@Embed.mkGlobals Mock.broken_backend (Some tt) (Some tt) (Some tt))).
    + vm_compute. reflexivity.
    + reflexivity.
    + vm_compute. discriminate.
    + reflexivity.
  - apply (Hother Fixture.deep_line Fixture.too_deep Mock.ready_embed).
    + vm_compute. reflexivity.
    + reflexivity.
  - apply (Hrun (Val "plain text")). reflexivity.
Defined.

(** The claimed status 1 fails twice: the RAG script ends with status 0
    after the error response to an empty query, and [embed.py] ends with
    status 0 on stdin that is not JSON. *)
Lemma C6_counterexample :
  (LlmRag.run (B := Mock.builtins) (G := Mock.generator) (Val (dq "{'query':''}"))
   = ([Print (LlmRag.failure "Query is required" (JStr "unknown"))], 0%Z)
   /\ snd (LlmRag.run (B := Mock.builtins) (G := Mock.generator)
             (Val (dq "{'query':''}"))) <> 1%Z)
  /\ (json_loads (Builtins := Mock.builtins) (strip "plain text") = Exn Mock.not_json
      /\ snd (Embed.run (B := Mock.builtins) (K := Mock.backend) (Val "plain text"))
         <> 1%Z).
Proof.
  split; split.
  - vm_compute. reflexivity.
  - vm_compute. discriminate.
  - vm_compute. reflexivity.
  - vm_compute. discriminate.
Qed.

Lemma C8_witness :
  LlmRag.process_request (B := Mock.builtins) (G := Mock.generator)
    (JObj [("query", JStr "how does it work?")]) LlmRag.initial_globals
  = ([], LlmRag.initial_globals,
     Ret (LlmRag.failure "No search results provided" (JStr "unknown")))
  /\ existsb is_invoke
       (trace_of (LlmRag.process_request (B := Mock.builtins) (G := Mock.generator)
                    (JObj [("query", JStr "how does it work?")])
                    LlmRag.initial_globals))
     = false.
Proof.
  apply (@C8_no_search_results Mock.builtins Mock.generator
           [("query", JStr "how does it work?")] LlmRag.initial_globals).
  - reflexivity.
  - left. reflexivity.
Defined.

Lemma C9_witness :
  Embed.main_block (B := Mock.builtins) (Val (dq "{'text':'a'}")) Mock.ready_embed
  = Embed.main_block (B := Mock.builtins)
      (Val (dq "{'text':'a','is_query':true}")) Mock.ready_embed.
Proof.
  destruct (@C9_is_query_noninterference Mock.builtins Mock.backend)
    as (_ & _ & _ & _ & Hmain).
  apply (Hmain (dq "{'text':'a'}") (dq "{'text':'a','is_query':true}")
           [("text", JStr "a")] (JBool true) Mock.ready_embed).
  - vm_compute. reflexivity.
  - vm_compute. reflexivity.
Defined.

Lemma C10_witness :
  EmbedServer.process_request (JArr [JInt 1; JInt 2]) Mock.ready
  = ([], Mock.ready, Raise (Exc (no_attribute (JArr [JInt 1; JInt 2]) "get")))
  /\ exists r msg,
      stdout_of (EmbedServer.loop_body (B := Mock.builtins) ("[1, 2]" ++ nl) Mock.ready)
      = [r]
      /\ is_error_result r = true
      /\ field "id" r = Some JNull
      /\ field "error" r = Some (JStr msg)
      /\ msg = "Request processing error: '" ++ type_name (JArr [JInt 1; JInt 2])
               ++ "' object has no attribute 'get'"
      /\ starts_with "Request processing error: " msg = true
      /\ outcome_of (EmbedServer.loop_body (B := Mock.builtins) ("[1, 2]" ++ nl) Mock.ready)
         = Ret tt
      /\ globals_of (EmbedServer.loop_body (B := Mock.builtins) ("[1, 2]" ++ nl) Mock.ready)
         = Mock.ready
      /\ stdout_of (EmbedServer.main_loop (B := Mock.builtins)
                      (("[1, 2]" ++ nl)%string :: [(scenario_line1 ++ nl)%string])
                      Mock.ready)
         = r :: stdout_of (EmbedServer.main_loop (B := Mock.builtins)
                             [(scenario_line1 ++ nl)%string] Mock.ready).
Proof.
  apply (@C10_non_object_request Mock.builtins Mock.backend Mock.ready
           ("[1, 2]" ++ nl) (JArr [JInt 1; JInt 2]) [(scenario_line1 ++ nl)%string]).
  - vm_compute. discriminate.
  - vm_compute. reflexivity.
  - reflexivity.
Defined.

(** Both branches of the lifecycle on the library doubles: a worker that
    becomes ready and answers a line, and one whose model does not load. *)
Example lifecycle_ready :
  EmbedServer.run (B := Mock.builtins) (K := Mock.backend) ["embed_server.py"; "m"]
    [(scenario_line1 ++ nl)%string]
  = ([Invoke (LoadTokenizer (JStr "m")); Invoke (LoadModel (JStr "m"));
      Invoke MoveModel; Invoke EvalModel;
      Print EmbedServer.ready_message;
      Invoke (Tokenize (JStr "a")); Invoke MoveInputs; Invoke Forward;
      Print (EmbedServer.success_response (JInt 1) Mock.vector "m")], 0%Z).
Proof. vm_compute. reflexivity. Qed.

Example lifecycle_broken :
  EmbedServer.run (B := Mock.builtins) (K := Mock.broken_backend) ["embed_server.py"]
    [(scenario_line1 ++ nl)%string]
  = ([Invoke (LoadTokenizer (JStr "mixedbread-ai/mxbai-embed-large-v1"));
      Invoke (LoadModel (JStr "mixedbread-ai/mxbai-embed-large-v1"));
      Print (EmbedServer.init_error_message "Failed to load model: model not found")],
     1%Z).
Proof. vm_compute. reflexivity. Qed.

(** A blank line between two requests leaves no trace. *)
Example blank_line_skipped :
  stdout_of (EmbedServer.main_loop (B := Mock.builtins)
               [(scenario_line1 ++ nl)%string; ("   " ++ nl)%string;
                (scenario_line3 ++ nl)%string] Mock.ready)
  = [EmbedServer.success_response (JInt 1) Mock.vector "m";
     EmbedServer.success_response (JInt 2) Mock.vector "m"].
Proof. vm_compute. reflexivity. Qed.

(** A RAG request that reaches the model, and the context it is given. *)
Example context_of_two_hits :
  LlmRag.format_search_context (B := Mock.builtins)
    (JArr [ContextSpec.to_json (Mock.hit "src/a.py" "def a(): pass");
           ContextSpec.to_json (Mock.hit "b.py" "def b(): pass")]) 8
  = Val (nl ++ "Code Snippet 1 (Relevance: 100.0%) from a.py:" ++ nl
         ++ "def a(): pass" ++ nl ++ nl ++ nl
         ++ "Code Snippet 2 (Relevance: 100.0%) from b.py:" ++ nl
         ++ "def b(): pass" ++ nl).
Proof. vm_compute. reflexivity. Qed.

(** * Further properties *)

(** ** Trimming *)

Lemma lstrip_head (s : string) :
  lstrip s = EmptyString
  \/ exists c r, lstrip s = String c r /\ isspace c = false.
Proof.
  induction s as [| c r IH]; simpl; [left; reflexivity |].
  destruct (isspace c) eqn:Hc; [exact IH |].
  right. exists c, r. split; [reflexivity | exact Hc].
Qed.

Lemma rstrip_cons_nonspace (c : ascii) (r : string) :
  isspace c = false -> rstrip (String c r) = String c (rstrip r).
Proof.
  intros Hc. simpl. destruct (rstrip r); [rewrite Hc |]; reflexivity.
Qed.

Lemma rstrip_cons (c : ascii) (r : string) :
  rstrip (String c r)
  = match rstrip r with
    | EmptyString => if isspace c then EmptyString else String c EmptyString
    | String c' r' => String c (String c' r')
    end.
Proof. reflexivity. Qed.

Lemma rstrip_idempotent (s : string) : rstrip (rstrip s) = rstrip s.
Proof.
  induction s as [| c r IH]; [reflexivity |].
  rewrite (rstrip_cons c r).
  destruct (rstrip r) as [| c' r'] eqn:Hr.
  - destruct (isspace c) eqn:Hc; [reflexivity |].
    rewrite rstrip_cons. simpl. rewrite Hc. reflexivity.
  - rewrite rstrip_cons, IH. reflexivity.
Qed.

(** [s.strip().strip() == s.strip()] *)
Lemma strip_idempotent (s : string) : strip (strip s) = strip s.
Proof.
  unfold strip.
  destruct (lstrip_head s) as [-> | (c & r & -> & Hc)]; [reflexivity |].
  rewrite (@rstrip_cons_nonspace c r Hc).
  cbn [lstrip]. rewrite Hc.
  rewrite <- (@rstrip_cons_nonspace c r Hc). apply rstrip_idempotent.
Qed.

Lemma stderr_app (a b : list event) : stderr (a ++ b) = (stderr a ++ stderr b)%list.
Proof.
  induction a as [| e a IH]; simpl; [reflexivity |].
  destruct e; simpl; rewrite IH; reflexivity.
Qed.

(** ** The streaming worker: traces, ids and model name *)

Section StreamingExtras.
Context {B : Builtins} {K : EmbeddingBackend}.
Import EmbedServer Streaming.

Ltac run_monad :=
  cbv [try_except try_except_when bind ret gets raise raise_exc invoke lift
       emit print py_get modify sys_exit].

(** The calls of [get_embedding]: a prefix of tokenize, move, forward, and
    the whole of it when the embedding is returned. *)
Lemma get_embedding_calls (text is_query : json) (g : globals) :
  exists calls rest,
    get_embedding text is_query g
    = (calls, g,
       match embed_result g text with
       | Val v => Ret v
       | Exn e =>
           Raise (Exc (mkExc ClsException ("Embedding generation failed: " ++ exc_msg e)))
       end)
    /\ (calls ++ rest)%list
       = [Invoke (Tokenize text); Invoke MoveInputs; Invoke Forward]
    /\ (forall v, embed_result g text = Val v -> rest = []).
Proof.
  unfold get_embedding, embed_result. run_monad.
  destruct (tokenizer g) as [tok |]; simpl.
  2: { exists [], [Invoke (Tokenize text); Invoke MoveInputs; Invoke Forward].
       repeat split. discriminate. }
  destruct (tokenize tok text) as [i | e]; simpl.
  2: { exists [Invoke (Tokenize text)], [Invoke MoveInputs; Invoke Forward].
       repeat split. discriminate. }
  destruct (inputs_to i (device g)) as [i' | e]; simpl.
  2: { exists [Invoke (Tokenize text); Invoke MoveInputs], [Invoke Forward].
       repeat split. discriminate. }
  destruct (model g) as [mdl |]; simpl.
  2: { exists [Invoke (Tokenize text); Invoke MoveInputs], [Invoke Forward].
       repeat split. discriminate. }
  destruct (mean_pooled mdl i') as [v | e]; simpl;
    exists [Invoke (Tokenize text); Invoke MoveInputs; Invoke Forward], [];
    repeat split; discriminate.
Qed.

(** A request that is a dict: some of the three calls, then one line. *)
Lemma process_request_dict_trace (items : list (string * json)) (g : globals) :
  exists calls rest,
    process_request (JObj items) g
    = ((calls
        ++ [Print
              (let id := dict_get items "id" JNull in
               let text := dict_get items "text" (JStr "") in
               if truthy text then
                 match embed_result g text with
                 | Val embedding => success_response id embedding (MODEL_NAME g)
                 | Exn e =>
                     error_response id ("Embedding generation failed: " ++ exc_msg e)
                 end
               else error_response id "No text provided")])%list, g, Ret tt)
    /\ (calls ++ rest)%list
       = [Invoke (Tokenize (dict_get items "text" (JStr "")));
          Invoke MoveInputs; Invoke Forward]
    /\ (truthy (dict_get items "text" (JStr "")) = false -> calls = [])
    /\ (forall v, embed_result g (dict_get items "text" (JStr "")) = Val v ->
        truthy (dict_get items "text" (JStr "")) = true -> rest = []).
Proof.
  unfold process_request. run_monad.
  destruct (truthy (dict_get items "text" (JStr ""))) eqn:Ht; simpl.
  - destruct (get_embedding_calls (dict_get items "text" (JStr ""))
                (dict_get items "is_query" (JBool false)) g)
      as (calls & rest & Hrun & Hpre & Hfull).
    rewrite Hrun. exists calls, rest.
    destruct (embed_result g (dict_get items "text" (JStr ""))) as [v | e]; simpl.
    + split; [reflexivity |]. split; [exact Hpre |].
      split; [discriminate |]. intros v' Hv _. exact (Hfull v' Hv).
    + split; [reflexivity |]. split; [exact Hpre |].
      split; discriminate.
  - exists [], [Invoke (Tokenize (dict_get items "text" (JStr "")));
                Invoke MoveInputs; Invoke Forward].
    repeat split. discriminate.
Qed.

(** One turn of the loop: calls, then what [process] says. *)
Lemma loop_body_trace (line : string) (g : globals) :
  exists calls,
    loop_body line g
    = ((calls ++ map Print (option_list (process g line)))%list, g, Ret tt)
    /\ exists text rest,
        (calls ++ rest)%list
        = [Invoke (Tokenize text); Invoke MoveInputs; Invoke Forward].
Proof.
  unfold loop_body, process.
  destruct (strip line =? "") eqn:Hblank.
  { exists []. split; [reflexivity |].
    exists JNull, [Invoke (Tokenize JNull); Invoke MoveInputs; Invoke Forward].
    reflexivity. }
  run_monad.
  destruct (json_loads (strip line)) as [v | e]; simpl.
  - destruct (is_dict v) eqn:Hd.
    + destruct v; try discriminate.
      destruct (process_request_dict_trace items g)
        as (calls & rest & Hrun & Hpre & _).
      rewrite Hrun. exists calls. split; [reflexivity |].
      exists (dict_get items "text" (JStr "")), rest. exact Hpre.
    + rewrite (process_request_not_dict v g Hd).
      unfold no_attribute at 1, is_JSONDecodeError; simpl.
      exists []. split.
      * destruct v; try discriminate; reflexivity.
      * exists JNull, [Invoke (Tokenize JNull); Invoke MoveInputs; Invoke Forward].
        reflexivity.
  - exists []. split; [destruct (is_JSONDecodeError e); reflexivity |].
    exists JNull, [Invoke (Tokenize JNull); Invoke MoveInputs; Invoke Forward].
    reflexivity.
Qed.

Lemma response_id (id : json) (g : globals) (text : json) :
  field "id"
    (if truthy text then
       match embed_result g text with
       | Val embedding => success_response id embedding (MODEL_NAME g)
       | Exn e => error_response id ("Embedding generation failed: " ++ exc_msg e)
       end
     else error_response id "No text provided")
  = Some id.
Proof.
  destruct (truthy text); [| reflexivity].
  destruct (embed_result g text); reflexivity.
Qed.

(** X1. Requests that are JSON objects are answered one for one, in the
    order read, and each response carries the id of its request, null
    when the request has none; this holds for success and error responses
    alike. *)
Theorem X1_ids_echoed_in_order (g : globals) (lines : list string)
    (requests : list (list (string * json))) :
  Forall2 (fun line items =>
             strip line <> "" /\ json_loads (strip line) = Val (JObj items))
          lines requests ->
  map (field "id") (stdout_of (main_loop lines g))
  = map (fun items => Some (dict_get items "id" JNull)) requests.
Proof.
  intros H. rewrite main_loop_stdout.
  induction H as [| line items lines requests [Hb Hl] _ IH]; [reflexivity |].
  cbn [flat_map map]. rewrite map_app, IH. f_equal.
  unfold process. apply String.eqb_neq in Hb. rewrite Hb, Hl.
  cbn [option_list map app]. rewrite response_id. reflexivity.
Qed.

(** X2. A request with a text that the backend embeds: the trace is the
    three compute calls on that text followed by the one response, whose
    [dimensions] is the length of its [embedding] and whose [model] is the
    global MODEL_NAME; the globals are kept. *)
Theorem X2_success_response (items : list (string * json)) (g : globals)
    (embedding : list float) :
  truthy (dict_get items "text" (JStr "")) = true ->
  embed_result g (dict_get items "text" (JStr "")) = Val embedding ->
  let r := success_response (dict_get items "id" JNull) embedding (MODEL_NAME g) in
  process_request (JObj items) g
  = ([Invoke (Tokenize (dict_get items "text" (JStr "")));
      Invoke MoveInputs; Invoke Forward; Print r], g, Ret tt)
  /\ field "embedding" r = Some (JArr (map JFloat embedding))
  /\ field "dimensions" r = Some (JInt (Z.of_nat (List.length (map JFloat embedding))))
  /\ field "model" r = Some (JStr (MODEL_NAME g))
  /\ field "error" r = None.
Proof.
  intros Ht He r.
  destruct (process_request_dict_trace items g)
    as (calls & rest & Hrun & Hpre & _ & Hfull).
  rewrite (Hfull embedding He Ht), app_nil_r in Hpre. subst calls.
  cbv zeta in Hrun. rewrite Ht, He in Hrun.
  split; [exact Hrun |].
  unfold r. rewrite length_map. repeat split.
Qed.

(** X3. The worker answers "No text provided" exactly when the text of the
    request is missing or falsy: absent, null, false, 0, 0.0, the empty
    string, the empty list or the empty object.  In that case no library
    is called. *)
Theorem X3_no_text_iff_falsy (items : list (string * json)) (g : globals) :
  (stdout_of (process_request (JObj items) g)
   = [error_response (dict_get items "id" JNull) "No text provided"]
   <-> truthy (dict_get items "text" (JStr "")) = false)
  /\ (truthy (dict_get items "text" (JStr "")) = false ->
      existsb is_invoke (trace_of (process_request (JObj items) g)) = false)
  /\ (forall v,
        In v [JNull; JBool false; JInt 0; JFloat (S754_zero false);
              JFloat (S754_zero true); JStr ""; JArr []; JObj []] ->
        dict_lookup items "text" = Some v ->
        truthy (dict_get items "text" (JStr "")) = false)
  /\ (dict_lookup items "text" = None ->
      truthy (dict_get items "text" (JStr "")) = false).
Proof.
  destruct (process_request_dict_trace items g)
    as (calls & rest & Hrun & Hpre & Hnone & _).
  cbv zeta in Hrun.
  split; [| split; [| split]].
  - unfold stdout_of, trace_of. rewrite Hrun. cbn [fst].
    assert (Hcalls : stdout calls = []).
    { apply stdout_invokes.
      assert (Hall : forallb is_invoke (calls ++ rest) = true)
        by (rewrite Hpre; reflexivity).
      rewrite forallb_app in Hall. apply andb_true_iff in Hall. tauto. }
    rewrite stdout_app, Hcalls. cbn [app stdout].
    destruct (truthy (dict_get items "text" (JStr ""))); split; intros H;
      try reflexivity; try discriminate.
    destruct (embed_result g (dict_get items "text" (JStr ""))); discriminate.
  - intros Ht. unfold trace_of. rewrite Hrun. cbn [fst].
    rewrite (Hnone Ht). reflexivity.
  - intros v Hin Hl. unfold dict_get. rewrite Hl.
    cbn [In] in Hin.
    repeat (destruct Hin as [<- | Hin]; [reflexivity |]). contradiction.
  - intros Hl. unfold dict_get. rewrite Hl. reflexivity.
Qed.

(** X5. The model name is [sys.argv[1]] when there is one, whatever
    follows it, and the default otherwise; it is the name given to the
    tokenizer loader, and every response of the process that carries an
    embedding carries that name in [model]. *)
Theorem X5_model_name_from_argv :
  (forall script name rest, effective_model_name (script :: name :: rest) = name)
  /\ (forall script,
        effective_model_name [script] = "mixedbread-ai/mxbai-embed-large-v1")
  /\ (forall argv lines,
        hd_error (fst (run argv lines))
        = Some (Invoke (LoadTokenizer (JStr (effective_model_name argv)))))
  /\ (forall argv lines tok mdl r,
        initialize (effective_model_name argv) = Val (tok, mdl) ->
        In r (stdout (fst (run argv lines))) ->
        field "embedding" r <> None ->
        field "model" r = Some (JStr (effective_model_name argv))).
Proof.
  split; [reflexivity |]. split; [reflexivity |]. split.
  - intros argv lines. unfold run, main, setup_model, effective_model_name.
    run_monad.
    destruct (1 <? List.length argv)%nat; simpl;
      destruct (AutoTokenizer_from_pretrained _); simpl;
      try destruct (AutoModel_from_pretrained _); simpl;
      try destruct (model_to _ _); simpl;
      try destruct (model_eval _); simpl;
      try destruct (main_loop lines _) as [[tr s'] o]; reflexivity.
  - intros argv lines tok mdl r Hinit Hin Hemb.
    rewrite (run_ready_stdout argv lines Hinit) in Hin.
    destruct Hin as [<- | Hin]; [exfalso; apply Hemb; reflexivity |].
    rewrite main_loop_stdout in Hin. apply in_flat_map in Hin.
    destruct Hin as (line & _ & Hin).
    unfold process in Hin. destruct (strip line =? ""); [contradiction |].
    destruct Hin as [<- | []].
    destruct (json_loads (strip line)) as [v | e].
    + destruct v; try (exfalso; apply Hemb; reflexivity).
      destruct (truthy _); [| exfalso; apply Hemb; reflexivity].
      destruct (embed_result _ _); [reflexivity |].
      exfalso; apply Hemb; reflexivity.
    + destruct (is_JSONDecodeError e); exfalso; apply Hemb; reflexivity.
Qed.

(** X6. When the tokenizer cannot be loaded the model is never requested
    and stdin is never processed: whatever the lines, the trace is the one
    loading call and the error message, and the status is 1.  When the
    tokenizer loads and the model does not, the model is neither moved to
    the device nor put in evaluation mode. *)
Theorem X6_load_failure_stops_startup (argv lines : list string) :
  (forall e,
      AutoTokenizer_from_pretrained (effective_model_name argv) = Exn e ->
      run argv lines
      = ([Invoke (LoadTokenizer (JStr (effective_model_name argv)));
          Print (init_error_message ("Failed to load model: " ++ exc_msg e))],
         1%Z))
  /\ (forall tok e,
        AutoTokenizer_from_pretrained (effective_model_name argv) = Val tok ->
        AutoModel_from_pretrained (effective_model_name argv) = Exn e ->
        run argv lines
        = ([Invoke (LoadTokenizer (JStr (effective_model_name argv)));
            Invoke (LoadModel (JStr (effective_model_name argv)));
            Print (init_error_message ("Failed to load model: " ++ exc_msg e))],
           1%Z)).
Proof.
  split.
  - intros e. unfold run, main, setup_model, effective_model_name. run_monad.
    destruct (1 <? List.length argv)%nat; simpl; intros ->; reflexivity.
  - intros tok e. unfold run, main, setup_model, effective_model_name. run_monad.
    destruct (1 <? List.length argv)%nat; simpl; intros -> ->; reflexivity.
Qed.

(** X7. Only the trimmed line matters: a line is answered as its trimmed
    form is, and two lines with the same trimmed form are answered alike,
    trace included. *)
Theorem X7_trimmed_line_decides (g : globals) :
  (forall line, loop_body (strip line) g = loop_body line g)
  /\ (forall line1 line2,
        strip line1 = strip line2 -> loop_body line1 g = loop_body line2 g)
  /\ (forall line, process g (strip line) = process g line).
Proof.
  split; [| split].
  - intros line. unfold loop_body. rewrite strip_idempotent. reflexivity.
  - intros line1 line2 H. unfold loop_body. rewrite H. reflexivity.
  - intros line. unfold process. rewrite strip_idempotent. reflexivity.
Qed.

(** X8. What a line can cost: its trace is a prefix of the three compute
    calls (tokenize, move, forward) followed by its response if it has one.
    So a line makes at most one forward pass, and the loop never loads a
    model and never writes on stderr. *)
Theorem X8_line_trace_shape (g : globals) :
  (forall line,
      exists calls text rest,
        trace_of (loop_body line g)
        = (calls ++ map Print (option_list (process g line)))%list
        /\ (calls ++ rest)%list
           = [Invoke (Tokenize text); Invoke MoveInputs; Invoke Forward])
  /\ (forall lines,
        forallb (fun e => negb (is_load e)) (trace_of (main_loop lines g)) = true
        /\ stderr (trace_of (main_loop lines g)) = []).
Proof.
  assert (Hline : forall line,
             exists calls text rest,
               trace_of (loop_body line g)
               = (calls ++ map Print (option_list (process g line)))%list
               /\ (calls ++ rest)%list
                  = [Invoke (Tokenize text); Invoke MoveInputs; Invoke Forward]).
  { intros line. destruct (loop_body_trace line g) as (calls & Hrun & text & rest & Hpre).
    exists calls, text, rest. unfold trace_of. rewrite Hrun. split; [reflexivity | exact Hpre]. }
  split; [exact Hline |].
  assert (Hone : forall line,
             forallb (fun e => negb (is_load e)) (trace_of (loop_body line g)) = true
             /\ stderr (trace_of (loop_body line g)) = []).
  { intros line. destruct (Hline line) as (calls & text & rest & -> & Hpre).
    assert (Hc : forallb (fun e => negb (is_load e)) calls = true
                 /\ stderr calls = []).
    { assert (H1 : forallb (fun e => negb (is_load e)) (calls ++ rest) = true)
        by (rewrite Hpre; reflexivity).
      assert (H2 : stderr (calls ++ rest) = []) by (rewrite Hpre; reflexivity).
      rewrite forallb_app in H1. apply andb_true_iff in H1.
      rewrite stderr_app in H2. apply app_eq_nil in H2. tauto. }
    destruct Hc as [Hc1 Hc2].
    destruct (process g line); cbn [option_list map].
    - rewrite forallb_app, stderr_app, Hc1, Hc2. split; reflexivity.
    - rewrite app_nil_r. split; assumption. }
  intros lines. unfold main_loop.
  induction lines as [| line lines IH]; [split; reflexivity |].
  cbn [for_each]. unfold bind, trace_of in *.
  destruct (loop_body_run line g) as (tr1 & H1 & _).
  specialize (Hone line). rewrite H1 in *. cbn [fst] in Hone.
  destruct (for_each lines loop_body g) as [[tr2 s2] o2]. cbn [fst] in *.
  destruct Hone as [Ha Hb], IH as [Hc Hd].
  rewrite forallb_app, stderr_app, Ha, Hb, Hc, Hd. split; reflexivity.
Qed.

End StreamingExtras.

(** ** The RAG service: loading *)

Section RagLoading.
Context {B : Builtins} {G : GenerationBackend}.
Import LlmRag.

Ltac run_monad :=
  cbv [try_except try_except_when bind ret gets raise raise_exc invoke lift
       emit print print_err py_get modify sys_exit].

(** How [load_model] can end: normally with the model bound, or with the
    RuntimeError that wraps what a loader raised; no compute call either
    way. *)
Lemma load_model_cases (s : CodeRAGService) :
  exists tr s',
    ((load_model s = (tr, s', Ret tt) /\ model s' <> None
      /\ model_name s' = model_name s /\ device s' = device s)
     \/ (exists msg,
           load_model s
           = (tr, s', Raise (Exc (mkExc ClsRuntimeError
                                    ("Failed to load model: " ++ msg))))
           /\ model_name s' = model_name s))
    /\ existsb is_compute tr = false
    /\ stdout tr = [].
Proof.
  unfold load_model. run_monad.
  destruct (model s) as [m |] eqn:Hm; simpl.
  { exists [], s.
    split; [left; rewrite Hm; repeat split; discriminate | split; reflexivity]. }
  destruct (load_tokenizer (model_name s)) as [tok | e]; simpl.
  2: { do 2 eexists.
       split; [right; eexists; split; reflexivity | split; reflexivity]. }
  destruct (load_causal_model (model_name s) _ _) as [m | e]; simpl.
  2: { do 2 eexists.
       split; [right; eexists; split; reflexivity | split; reflexivity]. }
  destruct (negb (device s =? "cuda")); simpl.
  - destruct (causal_model_to m (device s)) as [m' | e]; simpl.
    + do 2 eexists.
      split; [left; repeat split; discriminate | split; reflexivity].
    + do 2 eexists.
      split; [right; eexists; split; reflexivity | split; reflexivity].
  - do 2 eexists.
    split; [left; repeat split; discriminate | split; reflexivity].
Qed.

(** X9. Loading is idempotent: a service whose model is bound is left
    alone by [load_model], without a call or a message, and after a
    [load_model] that returns the model is bound, so that a second
    [load_model] does nothing. *)
Theorem X9_load_model_idempotent (s : CodeRAGService) :
  (model s <> None -> load_model s = ([], s, Ret tt))
  /\ (forall tr s',
        load_model s = (tr, s', Ret tt) ->
        model s' <> None /\ load_model s' = ([], s', Ret tt)).
Proof.
  assert (Hbound : forall x, model x <> None -> load_model x = ([], x, Ret tt)).
  { intros x Hx. unfold load_model. run_monad.
    destruct (model x); [reflexivity | contradiction]. }
  split; [apply Hbound |].
  intros tr s' Hrun.
  destruct (load_model_cases s) as (tr0 & s0 & [(H & Hm & _) | (msg & H & _)] & _);
    rewrite H in Hrun; [| discriminate].
  injection Hrun as <- <-. split; [exact Hm | exact (Hbound _ Hm)].
Qed.


(** A first request whose model cannot be loaded. *)
Lemma process_request_load_fails (items : list (string * json)) (g : globals)
    (tr : list event) (s' : CodeRAGService) (e : exc) :
  rag_service g = None ->
  truthy (dict_get items "query" (JStr "")) = true ->
  truthy (dict_get items "search_results" (JArr [])) = true ->
  load_model (new_service (dict_get items "model"
                          (JStr "Qwen/Qwen2.5-Coder-1.5B-Instruct")))
  = (tr, s', Raise (Exc e)) ->
  process_request (JObj items) g
  = (tr, mkGlobals (Some s'), Ret (failure (exc_msg e) (model_name s'))).
Proof.
  intros Hn Hq Hs Hl.
  unfold process_request, on_service, model_or_unknown. run_monad.
  rewrite Hq, Hs. cbn [negb]. rewrite Hn. cbn [rag_service]. rewrite Hl.
  simpl. rewrite !app_nil_r. reflexivity.
Qed.


(** A request to a service that exists. *)
Lemma process_request_existing (items : list (string * json)) (g : globals)
    (svc s2 : CodeRAGService) (tr : list event) (o : outcome string) :
  rag_service g = Some svc ->
  truthy (dict_get items "query" (JStr "")) = true ->
  truthy (dict_get items "search_results" (JArr [])) = true ->
  generate_explanation (dict_get items "query" (JStr ""))
    (dict_get items "search_results" (JArr [])) svc = (tr, s2, o) ->
  process_request (JObj items) g
  = (tr, mkGlobals (Some s2),
     match o with
     | Ret text => Ret (Rag.success text s2)
     | Raise (Exc e) => Ret (failure (exc_msg e) (model_name s2))
     | Raise (SystemExit code) => Raise (SystemExit code)
     end).
Proof.
  intros Hsvc Hq Hs Hg.
  unfold process_request, on_service, model_or_unknown. run_monad.
  rewrite Hq, Hs. cbn [negb]. rewrite Hsvc. cbn [rag_service]. rewrite Hsvc, Hg.
  destruct o as [text | [e | code]]; simpl; rewrite ?app_nil_r; reflexivity.
Qed.

(** The script around a request that returns. *)
Lemma main_prints_result (raw : string) (v result : json) (tr : list event)
    (g' : globals) :
  json_loads raw = Val v ->
  process_request v initial_globals = (tr, g', Ret result) ->
  run (Val raw) = ((tr ++ [Print result])%list, 0%Z).
Proof.
  intros Hl Hp. unfold run, main. run_monad. rewrite Hl. cbv beta iota.
  rewrite Hp. simpl. rewrite ?app_nil_r. reflexivity.
Qed.

(** X10. A model that cannot be loaded does not make the one-shot script
    fail: the script prints one failure response whose message starts with
    "Failed to load model: " and whose [model] is the model that the
    request asked for (the default when it asked for none), makes no
    compute call and ends with status 0. *)
Theorem X10_load_failure_is_a_response (raw : string) (items : list (string * json))
    (r : raised) :
  json_loads raw = Val (JObj items) ->
  truthy (dict_get items "query" (JStr "")) = true ->
  truthy (dict_get items "search_results" (JArr [])) = true ->
  outcome_of (load_model (new_service (dict_get items "model"
                          (JStr "Qwen/Qwen2.5-Coder-1.5B-Instruct"))))
  = Raise r ->
  exists msg,
    stdout (fst (run (Val raw)))
    = [failure ("Failed to load model: " ++ msg)
         (dict_get items "model" (JStr "Qwen/Qwen2.5-Coder-1.5B-Instruct"))]
    /\ existsb is_compute (fst (run (Val raw))) = false
    /\ snd (run (Val raw)) = 0%Z.
Proof.
  intros Hl Hq Hs Hload.
  destruct (load_model_cases (new_service (dict_get items "model"
                          (JStr "Qwen/Qwen2.5-Coder-1.5B-Instruct"))))
    as (tr & s' & [(H & _) | (msg & H & Hname)] & Hc & Ho);
    unfold outcome_of in Hload; rewrite H in Hload; [discriminate |].
  exists msg.
  rewrite (main_prints_result raw Hl
             (process_request_load_fails items initial_globals eq_refl Hq Hs H)).
  cbn [fst snd]. rewrite stdout_app, Ho, existsb_app, Hc, Hname.
  repeat split.
Qed.


End RagLoading.

(** ** The RAG service: generation *)

Section RagGeneration.
Context {B : Builtins} {G : GenerationBackend}.
Import LlmRag.

Ltac run_monad :=
  cbv [try_except try_except_when bind ret gets raise raise_exc invoke lift
       emit print print_err py_get modify sys_exit].

(** [generate_explanation] on a loaded service: the template call, the
    tokenizer call on the prompt, the generation; the service is kept. *)
Lemma generate_explanation_loaded (s : CodeRAGService) (t : CausalTokenizer)
    (m : CausalModel) (query search_results : json) (context : string) :
  tokenizer s = Some t ->
  model s = Some m ->
  format_search_context search_results 8 = Val context ->
  let prompt := Rag.prompt_for t query context in
  generate_explanation query search_results s
  = match tokenize_prompt t prompt (max_context s - 512) (device s) with
    | Exn e =>
        ([Invoke ChatTemplate; Invoke (Tokenize (JStr prompt))], s, Raise (Exc e))
    | Val inputs =>
        ([Invoke ChatTemplate; Invoke (Tokenize (JStr prompt)); Invoke Generate], s,
         match generate_decode t m inputs with
         | Val text => Ret (strip text)
         | Exn e =>
             Raise (Exc (mkExc ClsRuntimeError ("Generation failed: " ++ exc_msg e)))
         end)
    end.
Proof.
  intros Ht Hm Hf prompt. unfold prompt, Rag.prompt_for, Rag.fallback_prompt.
  destruct s as [name tok mdl dev ctx]. cbn [tokenizer model] in Ht, Hm.
  subst tok mdl.
  unfold generate_explanation. run_monad.
  cbn [tokenizer model device max_context]. rewrite Hf. cbv beta iota.
  cbn [tokenizer model device max_context].
  destruct (apply_chat_template t (create_messages query context)) as [p | e0];
    cbv beta iota; cbn [tokenizer model device max_context];
    destruct (tokenize_prompt t _ (ctx - 512) dev) as [i | e1];
    cbv beta iota; cbn [tokenizer model device max_context]; try reflexivity;
    destruct (generate_decode t m i); reflexivity.
Qed.

(** A search result that is not a dict, or a source text without length,
    stops the request before the model is used. *)
Lemma generate_explanation_bad_context (s : CodeRAGService) (t : CausalTokenizer)
    (m : CausalModel) (query search_results : json) (e : exc) :
  tokenizer s = Some t ->
  model s = Some m ->
  format_search_context search_results 8 = Exn e ->
  generate_explanation query search_results s = ([], s, Raise (Exc e)).
Proof.
  intros Ht Hm Hf.
  destruct s as [name tok mdl dev ctx]. cbn [tokenizer model] in Ht, Hm.
  subst tok mdl.
  unfold generate_explanation. run_monad.
  cbn [tokenizer model device max_context]. rewrite Hf. reflexivity.
Qed.

(** X17. A tokenizer without chat template does not fail the request:
    when [apply_chat_template] raises, the tokenizer is given the system
    prompt, a blank line, the user prompt, a blank line and "Assistant:",
    and the request goes on to generation; the exception of the template
    call is reported nowhere. *)
Theorem X17_chat_template_fallback (s : CodeRAGService) (t : CausalTokenizer)
    (m : CausalModel) (query search_results : json) (context : string) (e : exc) :
  tokenizer s = Some t ->
  model s = Some m ->
  format_search_context search_results 8 = Val context ->
  apply_chat_template t (create_messages query context) = Exn e ->
  let prompt :=
    system_prompt ++ nl ++ nl
    ++ snd (nth 1 (create_messages query context) ("", ""))
    ++ nl ++ nl ++ "Assistant:" in
  (exists rest,
      trace_of (generate_explanation query search_results s)
      = Invoke ChatTemplate :: Invoke (Tokenize (JStr prompt)) :: rest)
  /\ (forall inputs text,
        tokenize_prompt t prompt (max_context s - 512) (device s) = Val inputs ->
        generate_decode t m inputs = Val text ->
        generate_explanation query search_results s
        = ([Invoke ChatTemplate; Invoke (Tokenize (JStr prompt)); Invoke Generate],
           s, Ret (strip text))).
Proof.
  intros Ht Hm Hf He prompt.
  pose proof (generate_explanation_loaded s query search_results Ht Hm Hf) as Hrun.
  cbv zeta in Hrun. unfold Rag.prompt_for in Hrun. rewrite He in Hrun.
  change (Rag.fallback_prompt query context) with prompt in Hrun.
  split.
  - rewrite Hrun. unfold trace_of.
    destruct (tokenize_prompt t prompt (max_context s - 512) (device s));
      eexists; reflexivity.
  - intros inputs text Hi Hg. rewrite Hrun, Hi, Hg. reflexivity.
Qed.

(** X18. What a request to a loaded service reports when it fails.  A
    search result that cannot be formatted is reported with the message
    of the exception and without any library call; so is a tokenizer
    failure; a failure of generation is reported as
    "Generation failed: <message>".  In each case the [model] of the
    response is the name the service was made with. *)
Theorem X18_failure_messages (items : list (string * json)) (svc : CodeRAGService)
    (t : CausalTokenizer) (m : CausalModel) :
  let g := mkGlobals (Some svc) in
  let query := dict_get items "query" (JStr "") in
  let search_results := dict_get items "search_results" (JArr []) in
  tokenizer svc = Some t ->
  model svc = Some m ->
  truthy query = true ->
  truthy search_results = true ->
  (forall e,
      format_search_context search_results 8 = Exn e ->
      process_request (JObj items) g
      = ([], g, Ret (failure (exc_msg e) (model_name svc))))
  /\ (forall context e,
        format_search_context search_results 8 = Val context ->
        tokenize_prompt t (Rag.prompt_for t query context)
          (max_context svc - 512) (device svc) = Exn e ->
        outcome_of (process_request (JObj items) g)
        = Ret (failure (exc_msg e) (model_name svc)))
  /\ (forall context inputs e,
        format_search_context search_results 8 = Val context ->
        tokenize_prompt t (Rag.prompt_for t query context)
          (max_context svc - 512) (device svc) = Val inputs ->
        generate_decode t m inputs = Exn e ->
        outcome_of (process_request (JObj items) g)
        = Ret (failure ("Generation failed: " ++ exc_msg e) (model_name svc))).
Proof.
  intros g query search_results Ht Hm Hq Hs.
  split; [| split].
  - intros e Hf.
    exact (process_request_existing items g eq_refl Hq Hs
             (@generate_explanation_bad_context svc t m query search_results e
                Ht Hm Hf)).
  - intros context e Hf He.
    pose proof (generate_explanation_loaded svc query search_results Ht Hm Hf) as Hrun.
    cbv zeta in Hrun. rewrite He in Hrun.
    unfold outcome_of.
    rewrite (process_request_existing items g eq_refl Hq Hs Hrun). reflexivity.
  - intros context inputs e Hf Hi He.
    pose proof (generate_explanation_loaded svc query search_results Ht Hm Hf) as Hrun.
    cbv zeta in Hrun. rewrite Hi, He in Hrun.
    unfold outcome_of.
    rewrite (process_request_existing items g eq_refl Hq Hs Hrun). reflexivity.
Qed.

(** X19. A request that a loaded service serves: three library calls
    (template, tokenizer, generation), nothing on stdout or stderr, the
    service left as it was, and a response with the generated text trimmed
    and with the model name and device of the service. *)
Theorem X19_served_request (items : list (string * json)) (svc : CodeRAGService)
    (t : CausalTokenizer) (m : CausalModel) (context : string)
    (inputs : PromptInputs) (text : string) :
  let g := mkGlobals (Some svc) in
  let query := dict_get items "query" (JStr "") in
  let search_results := dict_get items "search_results" (JArr []) in
  tokenizer svc = Some t ->
  model svc = Some m ->
  truthy query = true ->
  truthy search_results = true ->
  format_search_context search_results 8 = Val context ->
  tokenize_prompt t (Rag.prompt_for t query context)
    (max_context svc - 512) (device svc) = Val inputs ->
  generate_decode t m inputs = Val text ->
  process_request (JObj items) g
  = ([Invoke ChatTemplate;
      Invoke (Tokenize (JStr (Rag.prompt_for t query context)));
      Invoke Generate],
     g,
     Ret (JObj [("success", JBool true);
                ("explanation", JStr (strip text));
                ("model", model_name svc);
                ("device", JStr (device svc))]))
  /\ strip (strip text) = strip text.
Proof.
  intros g query search_results Ht Hm Hq Hs Hf Hi Hg.
  pose proof (generate_explanation_loaded svc query search_results Ht Hm Hf) as Hrun.
  cbv zeta in Hrun. rewrite Hi, Hg in Hrun.
  split; [| apply strip_idempotent].
  exact (process_request_existing items g eq_refl Hq Hs Hrun).
Qed.

End RagGeneration.

(** ** The RAG service: context formatting beyond the default cap *)

Lemma slice_to_map {A C} (f : A -> C) (k : Z) (l : list A) :
  LlmRag.slice_to k (map f l) = map f (LlmRag.slice_to k l).
Proof.
  unfold LlmRag.slice_to. rewrite length_map.
  destruct (k <? 0)%Z; apply firstn_map.
Qed.

Lemma slice_to_negative {A} (j : nat) (l : list A) :
  LlmRag.slice_to (- Z.of_nat (S j)) l = firstn (List.length l - S j) l.
Proof.
  unfold LlmRag.slice_to.
  destruct (Z.ltb_spec (- Z.of_nat (S j)) 0); [| lia].
  f_equal. lia.
Qed.

Section FormatExtras.
Context {B : Builtins}.
Import ContextSpec.

(** X12. The cap on the number of results.  With a cap [k >= 0] the first
    [k] results are rendered, all of them when there are no more than
    [k]; with the cap 0 and a non-empty sequence the result is the empty
    string, not the sentinel; with a negative cap [-j] the last [j]
    results are left out. *)
Theorem X12_result_cap :
  (forall (k : nat) (rs : list SearchResult),
      LlmRag.format_search_context (JArr (map to_json rs)) (Z.of_nat k)
      = Val (context k rs))
  /\ (forall (r : SearchResult) (rs : list SearchResult),
        LlmRag.format_search_context (JArr (map to_json (r :: rs))) 0 = Val "")
  /\ (forall (k : nat) (rs : list SearchResult),
        List.length rs <= k ->
        LlmRag.format_search_context (JArr (map to_json rs)) (Z.of_nat k)
        = Val (context (List.length rs) rs))
  /\ (forall (j : nat) (rs : list SearchResult),
        LlmRag.format_search_context (JArr (map to_json rs)) (- Z.of_nat (S j))
        = Val (context (List.length rs - S j) rs)).
Proof.
  split; [exact format_search_context_typed |].
  split; [| split].
  - intros r rs. exact (format_search_context_typed 0 (r :: rs)).
  - intros k rs Hk. rewrite format_search_context_typed.
    unfold context. rewrite (firstn_all2 rs Hk), firstn_all. reflexivity.
  - intros j rs.
    unfold LlmRag.format_search_context, context, numbered.
    destruct rs as [| r rs]; [reflexivity |].
    cbn [truthy map negb res_bind].
    change (to_json r :: map to_json rs) with (map to_json (r :: rs)).
    rewrite slice_to_map, slice_to_negative, render_loop_typed. reflexivity.
Qed.

(** X13. Missing keys.  A result without [file_path], [similarity] and
    [source_text] is rendered with "Unknown file", the relevance of the
    int 0 and "No source available"; more generally the block of a result
    is built from the values that [get] returns with these defaults, and
    [node_type] and any other key do not appear in it. *)
Theorem X13_missing_keys (i : nat) (items : list (string * json)) :
  (forall path source,
      dict_get items "file_path" (JStr "Unknown file") = JStr path ->
      dict_get items "source_text" (JStr "No source available") = JStr source ->
      LlmRag.render_result i (JObj items)
      = (let? relevance := format_percent (dict_get items "similarity" (JInt 0)) in
         Val (nl ++ "Code Snippet " ++ str_of_nat i ++ " (Relevance: " ++ relevance
              ++ ") from " ++ basename path ++ ":" ++ nl ++ truncated source ++ nl)))
  /\ (dict_lookup items "file_path" = None ->
      dict_lookup items "similarity" = None ->
      dict_lookup items "source_text" = None ->
      LlmRag.render_result i (JObj items)
      = (let? relevance := format_percent (JInt 0) in
         Val (nl ++ "Code Snippet " ++ str_of_nat i ++ " (Relevance: " ++ relevance
              ++ ") from Unknown file:" ++ nl ++ "No source available" ++ nl))).
Proof.
  assert (Hmain : forall path source,
             dict_get items "file_path" (JStr "Unknown file") = JStr path ->
             dict_get items "source_text" (JStr "No source available") = JStr source ->
             LlmRag.render_result i (JObj items)
             = (let? relevance := format_percent (dict_get items "similarity" (JInt 0)) in
                Val (nl ++ "Code Snippet " ++ str_of_nat i ++ " (Relevance: "
                     ++ relevance ++ ") from " ++ basename path ++ ":" ++ nl
                     ++ truncated source ++ nl))).
  { intros path source Hp Hs. unfold LlmRag.render_result.
    rewrite Hp, Hs, truncate_source_str. cbn [res_bind].
    destruct (format_percent (dict_get items "similarity" (JInt 0))); reflexivity. }
  split; [exact Hmain |].
  intros Hf Hsim Hsrc.
  rewrite (Hmain "Unknown file" "No source available");
    unfold dict_get; rewrite ?Hf, ?Hsim, ?Hsrc; reflexivity.
Qed.

Lemma render_result_node_type (i : nat) (v r : json) :
  LlmRag.render_result i (Rag.with_node_type v r) = LlmRag.render_result i r.
Proof.
  destruct r; try reflexivity.
  unfold Rag.with_node_type, LlmRag.render_result. cbv zeta.
  rewrite !dict_get_set_other by discriminate. reflexivity.
Qed.

Lemma render_loop_ext (f : json -> json) (l : list json) :
  (forall i x, LlmRag.render_result i (f x) = LlmRag.render_result i x) ->
  forall i acc,
    LlmRag.render_loop i (map f l) acc = LlmRag.render_loop i l acc.
Proof.
  intros Hf. induction l as [| x l IH]; intros i acc; [reflexivity |].
  cbn [map LlmRag.render_loop]. rewrite Hf.
  destruct (LlmRag.render_result i x); cbn [res_bind]; [apply IH | reflexivity].
Qed.

(** X14. The [node_type] of a search result is read and never used:
    whatever the results are, setting the [node_type] of each of them to
    any value leaves the formatted context, or the exception, as it was. *)
Theorem X14_node_type_ignored (results : list json) (v : json) (k : Z) :
  LlmRag.format_search_context (JArr (map (Rag.with_node_type v) results)) k
  = LlmRag.format_search_context (JArr results) k.
Proof.
  unfold LlmRag.format_search_context.
  destruct results as [| r results]; [reflexivity |].
  cbn [truthy map negb res_bind].
  change (Rag.with_node_type v r :: map (Rag.with_node_type v) results)
    with (map (Rag.with_node_type v) (r :: results)).
  rewrite slice_to_map.
  rewrite (render_loop_ext (Rag.with_node_type v) _
             (fun i x => render_result_node_type i v x)).
  reflexivity.
Qed.

Lemma substring_whole (n : nat) (s : string) :
  String.length s <= n -> substring 0 n s = s.
Proof.
  revert n. induction s as [| c s IH]; intros n Hn; [destruct n; reflexivity |].
  destruct n as [| n]; simpl in *; [lia |].
  rewrite IH by lia. reflexivity.
Qed.

Lemma starts_with_refl (s : string) : starts_with s s = true.
Proof.
  unfold starts_with. induction s as [| c s IH]; simpl; [reflexivity |].
  destruct (ascii_dec c c); [exact IH | contradiction].
Qed.

(** X15. Truncation of the source text.  What is rendered starts with the
    first 600 characters of the text (all of it when it is shorter) and is
    never longer than 603 characters; a text of more than 600 characters
    is rendered in exactly 603, so that one of 601 or 602 characters gets
    longer.  A source text without length (null, a boolean or a number)
    raises TypeError, and so does a list of more than 600 elements, while
    a shorter list is passed on as it is. *)
Theorem X15_truncation_bounds :
  (forall s : string,
      exists s',
        LlmRag.truncate_source (JStr s) = Val (JStr s')
        /\ String.length s' <= 603
        /\ (600 < String.length s -> String.length s' = 603)
        /\ starts_with (substring 0 600 s) s' = true)
  /\ (forall v : json,
        match v with
        | JNull | JBool _ | JInt _ | JFloat _ =>
            exists e, LlmRag.truncate_source v = Exn e
                      /\ exc_class_of e = ClsTypeError
        | _ => True
        end)
  /\ (forall l : list json,
        if (600 <? List.length l)%nat
        then exists e, LlmRag.truncate_source (JArr l) = Exn e
                       /\ exc_class_of e = ClsTypeError
        else LlmRag.truncate_source (JArr l) = Val (JArr l)).
Proof.
  split; [| split].
  - intros s. exists (truncated s). rewrite truncate_source_str.
    split; [reflexivity |]. unfold truncated.
    destruct (Nat.leb_spec (String.length s) 600) as [Hle | Hgt].
    + split; [lia |]. split; [lia |].
      rewrite (@substring_whole 600 s Hle). apply starts_with_refl.
    + rewrite length_string_app, length_substring_0 by lia.
      split; [simpl; lia |]. split; [reflexivity |]. apply starts_with_app.
  - intros v. destruct v; try exact I; eexists; split; reflexivity.
  - intros l. unfold LlmRag.truncate_source. cbn [LlmRag.py_len res_bind].
    destruct (600 <? List.length l)%nat; [eexists; split; reflexivity | reflexivity].
Qed.

End FormatExtras.

(** ** What reaches stderr *)

Section Emits.
Context {S : Type} (p : event -> bool).

Lemma emits_ret {A} (a : A) : emits p (ret a : M S A).
Proof. intros s. reflexivity. Qed.

Lemma emits_gets {A} (f : S -> A) : emits p (gets f).
Proof. intros s. reflexivity. Qed.

Lemma emits_modify (f : S -> S) : emits p (modify f).
Proof. intros s. reflexivity. Qed.

Lemma emits_raise {A} (r : raised) : emits p (raise r : M S A).
Proof. intros s. reflexivity. Qed.

Lemma emits_raise_exc {A} (c : exc_class) (msg : string) :
  emits p (raise_exc c msg : M S A).
Proof. intros s. reflexivity. Qed.

Lemma emits_sys_exit {A} (code : Z) : emits p (sys_exit code : M S A).
Proof. intros s. reflexivity. Qed.

Lemma emits_lift {A} (r : res A) : emits p (lift r : M S A).
Proof. intros s. destruct r; reflexivity. Qed.

Lemma emits_py_get (v : json) (k : string) (d : json) :
  emits p (py_get v k d : M S json).
Proof. intros s. destruct v; reflexivity. Qed.

Lemma emits_invoke {A} (c : call) (r : res A) :
  p (Invoke c) = true -> emits p (invoke c r : M S A).
Proof.
  intros Hc s. unfold trace_of, invoke, bind, emit.
  destruct r; simpl; rewrite Hc; reflexivity.
Qed.

Lemma emits_print (v : json) : p (Print v) = true -> emits p (print v : M S unit).
Proof. intros Hv s. unfold trace_of. simpl. rewrite Hv. reflexivity. Qed.

Lemma emits_print_err (v : json) :
  p (PrintErr v) = true -> emits p (print_err v : M S unit).
Proof. intros Hv s. unfold trace_of. simpl. rewrite Hv. reflexivity. Qed.

Lemma emits_bind {A C} (m : M S A) (k : A -> M S C) :
  emits p m -> (forall a, emits p (k a)) -> emits p (bind m k).
Proof.
  intros Hm Hk s. unfold emits, trace_of, bind in *. specialize (Hm s).
  destruct (m s) as [[tr s'] [a | r]]; simpl in *; [| exact Hm].
  specialize (Hk a s'). destruct (k a s') as [[tr' s''] o]; simpl in *.
  rewrite forallb_app, Hm, Hk. reflexivity.
Qed.

Lemma emits_try_except_when {A} (c : exc -> bool) (m : M S A) (h : exc -> M S A) :
  emits p m -> (forall e, emits p (h e)) -> emits p (try_except_when c m h).
Proof.
  intros Hm Hh s. unfold emits, trace_of, try_except_when in *. specialize (Hm s).
  destruct (m s) as [[tr s'] [a | [e | code]]]; simpl in *; try exact Hm.
  destruct (c e); simpl; [| exact Hm].
  specialize (Hh e s'). destruct (h e s') as [[tr' s''] o]; simpl in *.
  rewrite forallb_app, Hm, Hh. reflexivity.
Qed.

Lemma emits_try_except {A} (m : M S A) (h : exc -> M S A) :
  emits p m -> (forall e, emits p (h e)) -> emits p (try_except m h).
Proof. apply emits_try_except_when. Qed.

End Emits.

(** Splits a goal [emits p m] along the structure of [m]. *)
Ltac emits_step :=
  match goal with
  | |- emits _ (bind _ _) => apply emits_bind; [| intros]
  | |- emits _ (try_except _ _) => apply emits_try_except; [| intros]
  | |- emits _ (try_except_when _ _ _) => apply emits_try_except_when; [| intros]
  | |- emits _ (invoke _ _) => apply emits_invoke; reflexivity
  | |- emits _ (print _) => apply emits_print; reflexivity
  | |- emits _ (print_err _) => apply emits_print_err; reflexivity
  | |- emits _ (ret _) => apply emits_ret
  | |- emits _ (gets _) => apply emits_gets
  | |- emits _ (modify _) => apply emits_modify
  | |- emits _ (raise _) => apply emits_raise
  | |- emits _ (raise_exc _ _) => apply emits_raise_exc
  | |- emits _ (sys_exit _) => apply emits_sys_exit
  | |- emits _ (lift _) => apply emits_lift
  | |- emits _ (py_get _ _ _) => apply emits_py_get
  | |- emits _ (match ?x with _ => _ end) => destruct x
  end.

Lemma status_only_stderr (tr : list event) :
  forallb status_only tr = true -> forallb is_status (stderr tr) = true.
Proof.
  induction tr as [| e tr IH]; [reflexivity |].
  cbn [forallb]. intros H. apply andb_true_iff in H. destruct H as [He Htr].
  destruct e; cbn [stderr forallb]; auto.
  unfold status_only in He. rewrite He. exact (IH Htr).
Qed.

Section RagOutput.
Context {B : Builtins} {G : GenerationBackend}.
Import LlmRag.

Ltac run_monad :=
  cbv [try_except try_except_when bind ret gets raise raise_exc invoke lift
       emit print print_err py_get modify sys_exit].

Lemma emits_load_model : emits status_only load_model.
Proof. unfold load_model. repeat emits_step. Qed.

Lemma emits_generate_explanation (query search_results : json) :
  emits status_only (generate_explanation query search_results).
Proof.
  unfold generate_explanation.
  repeat first [apply emits_load_model | emits_step].
Qed.

Lemma emits_on_service {A} (meth : string) (m : M CodeRAGService A) :
  emits status_only m -> emits status_only (on_service meth m).
Proof.
  intros Hm g. unfold on_service, trace_of.
  destruct (rag_service g) as [svc |]; simpl; [| reflexivity].
  specialize (Hm svc). unfold trace_of in Hm.
  destruct (m svc) as [[tr svc'] o]; simpl in *. exact Hm.
Qed.

Lemma emits_process_request (request_data : json) :
  emits status_only (process_request request_data).
Proof.
  unfold process_request, model_or_unknown.
  repeat first [apply emits_on_service
               | apply emits_load_model
               | apply emits_generate_explanation
               | emits_step].
Qed.

(** X20. Whatever stdin holds, every line that the RAG script writes on
    stderr is a status message: the response and the errors go to stdout
    only. *)
Theorem X20_stderr_is_status_only (stdin : res string) :
  forallb is_status (stderr (fst (run stdin))) = true.
Proof.
  apply status_only_stderr.
  assert (Hmain : emits status_only (main stdin)).
  { unfold main, model_or_unknown.
    repeat first [apply emits_process_request | emits_step]. }
  specialize (Hmain initial_globals). unfold trace_of in Hmain.
  unfold run. destruct (main stdin initial_globals) as [[tr g] o]. exact Hmain.
Qed.

(** X16. Input that is valid JSON but not an object is answered like any
    failed request: one failure response with the AttributeError message
    of the first [get], [model] "unknown", no library call, status 0. *)
Theorem X16_non_object_input (raw : string) (v : json) :
  json_loads raw = Val v ->
  is_dict v = false ->
  run (Val raw)
  = ([Print (failure ("'" ++ type_name v ++ "' object has no attribute 'get'")
               (JStr "unknown"))], 0%Z).
Proof.
  intros Hl Hd.
  apply (main_prints_result raw Hl (tr := []) (g' := initial_globals)).
  unfold process_request, model_or_unknown. run_monad.
  destruct v; try discriminate; reflexivity.
Qed.

End RagOutput.

(** ** The one-shot embedding script *)

Section EmbedExtras.
Context {B : Builtins} {K : EmbeddingBackend}.

Ltac run_monad :=
  cbv [try_except try_except_when bind ret gets raise raise_exc invoke lift
       emit print print_err py_get modify sys_exit].

(** [get_embedding] of [embed.py] raises what the library raised. *)
Lemma script_get_embedding_run (text is_query : json) (g : Embed.globals) :
  exists tr,
    Embed.get_embedding text is_query g
    = (tr, g,
       match OneShot.embed_result g text with
       | Val v => Ret v
       | Exn e => Raise (Exc e)
       end)
    /\ forallb is_invoke tr = true.
Proof.
  unfold Embed.get_embedding, OneShot.embed_result. run_monad.
  destruct (Embed.tokenizer g) as [tok |]; simpl; [| eexists; split; reflexivity].
  destruct (tokenize tok text) as [i | e]; simpl; [| eexists; split; reflexivity].
  destruct (Embed.model g) as [mdl |]; simpl; [| eexists; split; reflexivity].
  destruct (mean_pooled mdl i) as [v | e]; simpl; eexists; split; reflexivity.
Qed.

(** The [__main__] block when stdin is a JSON object. *)
Lemma main_block_object (raw : string) (items : list (string * json))
    (g : Embed.globals) :
  json_loads (strip raw) = Val (JObj items) ->
  Embed.main_block (Val raw) g
  = try_except
      (Embed.embed_text (dict_get items "text" (JStr ""))
         (dict_get items "is_query" (JBool false)))
      (fun e => print (Embed.error_result (exc_msg e)) ;; sys_exit 1) g.
Proof.
  intros Hl. unfold Embed.main_block. run_monad. rewrite Hl. cbv beta iota.
  cbn [fst snd].
  destruct (Embed.embed_text _ _ g) as [[tr s] [a | [e | c]]];
    simpl; rewrite ?app_nil_r; reflexivity.
Qed.

(** The [__main__] block when stdin is not JSON. *)
Lemma main_block_plain (raw : string) (e : exc) (g : Embed.globals) :
  json_loads (strip raw) = Exn e ->
  is_JSONDecodeError e = true ->
  Embed.main_block (Val raw) g
  = try_except (Embed.embed_text (JStr (strip raw)) (JBool false))
      (fun e => print (Embed.error_result (exc_msg e)) ;; sys_exit 1) g.
Proof.
  intros Hl He. unfold Embed.main_block. run_monad. rewrite Hl. cbv beta iota.
  rewrite He. cbv beta iota. cbn [fst snd].
  destruct (Embed.embed_text _ _ g) as [[tr s] [a | [e' | c]]];
    simpl; rewrite ?app_nil_r; reflexivity.
Qed.

(** X4. A failure of the backend on a text.  The streaming worker
    reports it as "Embedding generation failed: <message>" under the id
    of the request and goes on; the one-shot script reports the bare
    message and ends with status 1. *)
Theorem X4_backend_failure_reports :
  (forall (items : list (string * json)) (g : EmbedServer.globals) (e : exc),
      truthy (dict_get items "text" (JStr "")) = true ->
      Streaming.embed_result g (dict_get items "text" (JStr "")) = Exn e ->
      stdout_of (EmbedServer.process_request (JObj items) g)
      = [EmbedServer.error_response (dict_get items "id" JNull)
           ("Embedding generation failed: " ++ exc_msg e)]
      /\ outcome_of (EmbedServer.process_request (JObj items) g) = Ret tt
      /\ globals_of (EmbedServer.process_request (JObj items) g) = g)
  /\ (forall (raw : string) (items : list (string * json)) (g : Embed.globals)
             (e : exc),
        json_loads (strip raw) = Val (JObj items) ->
        truthy (dict_get items "text" (JStr "")) = true ->
        OneShot.embed_result g (dict_get items "text" (JStr "")) = Exn e ->
        stdout_of (Embed.main_block (Val raw) g) = [Embed.error_result (exc_msg e)]
        /\ outcome_of (Embed.main_block (Val raw) g) = Raise (SystemExit 1)).
Proof.
  split.
  - intros items g e Ht He.
    destruct (process_request_dict items g) as (tr & Hrun & Hout).
    unfold stdout_of, outcome_of, globals_of, trace_of. rewrite Hrun. cbn [fst snd].
    rewrite Hout. cbv zeta. rewrite Ht, He. repeat split.
  - intros raw items g e Hl Ht He.
    rewrite (main_block_object raw g Hl).
    destruct (script_get_embedding_run (dict_get items "text" (JStr ""))
                (dict_get items "is_query" (JBool false)) g) as (tr & Hrun & Hinv).
    rewrite He in Hrun.
    unfold stdout_of, outcome_of, trace_of, Embed.embed_text. run_monad.
    rewrite Ht. cbn [negb]. rewrite Hrun. cbn [fst snd].
    rewrite stdout_app, (stdout_invokes _ Hinv). split; reflexivity.
Qed.



(** X23. The two ways of passing a text agree: stdin that is a JSON
    object with the text under [text] is answered exactly as stdin that
    is the bare text, when the bare text is not itself JSON; [is_query]
    plays no part. *)
Theorem X23_script_json_and_plain_agree (raw1 raw2 : string)
    (items : list (string * json)) (e : exc) (g : Embed.globals) :
  json_loads (strip raw1) = Val (JObj items) ->
  dict_get items "text" (JStr "") = JStr (strip raw2) ->
  json_loads (strip raw2) = Exn e ->
  is_JSONDecodeError e = true ->
  Embed.main_block (Val raw1) g = Embed.main_block (Val raw2) g.
Proof.
  intros H1 Ht H2 He.
  rewrite (main_block_object raw1 g H1), (main_block_plain raw2 g H2 He), Ht.
  reflexivity.
Qed.

End EmbedExtras.

(** ** The further properties at concrete inputs *)

Lemma X1_witness :
  map (field "id")
    (stdout_of (EmbedServer.main_loop (B := Mock.builtins)
                  [(scenario_line1 ++ nl)%string; (scenario_line3 ++ nl)%string]
                  Mock.ready))
  = [Some (JInt 1); Some (JInt 2)].
Proof.
  apply (@X1_ids_echoed_in_order Mock.builtins Mock.backend Mock.ready
           [(scenario_line1 ++ nl)%string; (scenario_line3 ++ nl)%string]
           [[("id", JInt 1); ("text", JStr "a")];
            [("id", JInt 2); ("text", JStr "b")]]).
  repeat constructor; vm_compute; try reflexivity; discriminate.
Defined.

Lemma X2_witness :
  EmbedServer.process_request
    (JObj [("id", JStr "a"); ("text", JStr "def foo(): pass")]) Mock.ready
  = ([Invoke (Tokenize (JStr "def foo(): pass")); Invoke MoveInputs; Invoke Forward;
      Print (EmbedServer.success_response (JStr "a") Mock.vector "m")],
     Mock.ready, Ret tt).
Proof.
  refine (proj1 (@X2_success_response Mock.backend
                   [("id", JStr "a"); ("text", JStr "def foo(): pass")]
                   Mock.ready Mock.vector _ _)); reflexivity.
Defined.

Lemma X3_witness :
  stdout_of (EmbedServer.process_request
               (JObj [("id", JInt 4); ("text", JInt 0)]) Mock.ready)
  = [EmbedServer.error_response (JInt 4) "No text provided"].
Proof.
  destruct (@X3_no_text_iff_falsy Mock.backend
              [("id", JInt 4); ("text", JInt 0)] Mock.ready)
    as (Hiff & _ & Hvalues & _).
  apply Hiff. apply (Hvalues (JInt 0)).
  - cbn. tauto.
  - reflexivity.
Defined.

Lemma X4_witness :
  stdout_of (EmbedServer.process_request
               (JObj [("id", JInt 3); ("text", JInt 5)]) Mock.ready)
  = [EmbedServer.error_response (JInt 3)
       "Embedding generation failed: text input must be of type `str`"]
  /\ stdout_of (Embed.main_block (B := Mock.builtins) (Val (dq "{'text': 5}"))
                  Mock.ready_embed)
     = [Embed.error_result "text input must be of type `str`"].
Proof.
  destruct (@X4_backend_failure_reports Mock.builtins Mock.backend)
    as (Hserver & Hscript).
  split.
  - refine (proj1 (Hserver [("id", JInt 3); ("text", JInt 5)] Mock.ready
                     (mkExc ClsValueError "text input must be of type `str`") _ _));
      reflexivity.
  - refine (proj1 (Hscript (dq "{'text': 5}") [("text", JInt 5)] Mock.ready_embed
                     (mkExc ClsValueError "text input must be of type `str`") _ _ _));
      vm_compute; reflexivity.
Defined.

Lemma X5_witness :
  field "model" (EmbedServer.success_response (JInt 1) Mock.vector "m")
  = Some (JStr "m").
Proof.
  destruct (@X5_model_name_from_argv Mock.builtins Mock.backend)
    as (_ & _ & _ & Hmodel).
  refine (Hmodel ["embed_server.py"; "m"] [(scenario_line1 ++ nl)%string] tt tt
            (EmbedServer.success_response (JInt 1) Mock.vector "m") _ _ _).
  - reflexivity.
  - vm_compute. right. left. reflexivity.
  - discriminate.
Defined.

Lemma X6_witness :
  EmbedServer.run (B := Mock.builtins) (K := Fixture.offline_backend)
    ["embed_server.py"] [(scenario_line1 ++ nl)%string]
  = ([Invoke (LoadTokenizer (JStr "mixedbread-ai/mxbai-embed-large-v1"));
      Print (EmbedServer.init_error_message "Failed to load model: no network")],
     1%Z)
  /\ EmbedServer.run (B := Mock.builtins) (K := Mock.broken_backend)
       ["embed_server.py"] [(scenario_line1 ++ nl)%string]
     = ([Invoke (LoadTokenizer (JStr "mixedbread-ai/mxbai-embed-large-v1"));
         Invoke (LoadModel (JStr "mixedbread-ai/mxbai-embed-large-v1"));
         Print (EmbedServer.init_error_message "Failed to load model: model not found")],
        1%Z).
Proof.
  split.
  - refine (proj1 (@X6_load_failure_stops_startup Mock.builtins Fixture.offline_backend
                     ["embed_server.py"] [(scenario_line1 ++ nl)%string])
              (mkExc (ClsOther "OSError") "no network") _).
    reflexivity.
  - refine (proj2 (@X6_load_failure_stops_startup Mock.builtins Mock.broken_backend
                     ["embed_server.py"] [(scenario_line1 ++ nl)%string])
              tt (mkExc (ClsOther "OSError") "model not found") _ _);
      reflexivity.
Defined.

Lemma X7_witness :
  EmbedServer.loop_body (B := Mock.builtins) ("   " ++ scenario_line1 ++ nl) Mock.ready
  = EmbedServer.loop_body (B := Mock.builtins) scenario_line1 Mock.ready.
Proof.
  refine (proj1 (proj2 (@X7_trimmed_line_decides Mock.builtins Mock.backend Mock.ready))
            ("   " ++ scenario_line1 ++ nl) scenario_line1 _).
  vm_compute. reflexivity.
Defined.

Lemma X9_witness :
  let s' := globals_of (LlmRag.load_model (B := Mock.builtins)
                          (LlmRag.new_service (G := Mock.generator) (JStr "m"))) in
  LlmRag.load_model (B := Mock.builtins) s' = ([], s', Ret tt).
Proof.
  intros s'.
  refine (proj2 (proj2 (@X9_load_model_idempotent Mock.builtins Mock.generator
                          (LlmRag.new_service (G := Mock.generator) (JStr "m")))
                   (trace_of (LlmRag.load_model (B := Mock.builtins)
                                (LlmRag.new_service (G := Mock.generator) (JStr "m"))))
                   s' _)).
  vm_compute. reflexivity.
Defined.

Lemma X10_witness :
  exists msg,
    stdout (fst (LlmRag.run (B := Mock.builtins) (G := Fixture.offline_generator)
                   (Val (dq "{'query':'q','search_results':[{}]}"))))
    = [LlmRag.failure ("Failed to load model: " ++ msg)
         (JStr "Qwen/Qwen2.5-Coder-1.5B-Instruct")]
    /\ existsb is_compute
         (fst (LlmRag.run (B := Mock.builtins) (G := Fixture.offline_generator)
                 (Val (dq "{'query':'q','search_results':[{}]}")))) = false
    /\ snd (LlmRag.run (B := Mock.builtins) (G := Fixture.offline_generator)
              (Val (dq "{'query':'q','search_results':[{}]}"))) = 0%Z.
Proof.
  apply (@X10_load_failure_is_a_response Mock.builtins Fixture.offline_generator
           (dq "{'query':'q','search_results':[{}]}")
           [("query", JStr "q"); ("search_results", JArr [JObj []])]
           (Exc (mkExc ClsRuntimeError "Failed to load model: no network")));
    vm_compute; reflexivity.
Defined.


Lemma X12_witness :
  LlmRag.format_search_context (B := Mock.builtins) Fixture.hits 8
  = Val (ContextSpec.context (B := Mock.builtins) 1 [Mock.hit "src/a.py" "def a(): pass"]).
Proof.
  destruct (@X12_result_cap Mock.builtins) as (_ & _ & Hall & _).
  apply (Hall 8 [Mock.hit "src/a.py" "def a(): pass"]).
  simpl. lia.
Defined.

Lemma X13_witness :
  LlmRag.render_result (B := Mock.builtins) 3 (JObj [("node_type", JStr "class")])
  = Val (nl ++ "Code Snippet 3 (Relevance: 0.0%) from Unknown file:" ++ nl
         ++ "No source available" ++ nl)
  /\ LlmRag.render_result (B := Mock.builtins) 1 (JObj [("file_path", JStr "a/b.py")])
     = Val (nl ++ "Code Snippet 1 (Relevance: 0.0%) from b.py:" ++ nl
            ++ "No source available" ++ nl).
Proof.
  split.
  - refine (proj2 (@X13_missing_keys Mock.builtins 3 [("node_type", JStr "class")])
              _ _ _); reflexivity.
  - refine (proj1 (@X13_missing_keys Mock.builtins 1 [("file_path", JStr "a/b.py")])
              "a/b.py" "No source available" _ _); reflexivity.
Defined.

Lemma X15_witness :
  exists s',
    LlmRag.truncate_source (JStr (Mock.replicate 601 "x")) = Val (JStr s')
    /\ String.length s' = 603.
Proof.
  destruct (proj1 X15_truncation_bounds (Mock.replicate 601 "x"))
    as (s' & Hrun & _ & Hlong & _).
  exists s'. split; [exact Hrun |].
  apply Hlong. vm_compute. lia.
Defined.

Lemma X16_witness :
  LlmRag.run (B := Mock.builtins) (G := Mock.generator) (Val "[1, 2]")
  = ([Print (LlmRag.failure "'list' object has no attribute 'get'" (JStr "unknown"))],
     0%Z).
Proof.
  apply (@X16_non_object_input Mock.builtins Mock.generator "[1, 2]"
           (JArr [JInt 1; JInt 2])).
  - vm_compute. reflexivity.
  - reflexivity.
Defined.

Lemma X17_witness :
  outcome_of
    (LlmRag.generate_explanation (B := Mock.builtins) (JStr "what is a?") Fixture.hits
       (Fixture.service_with false true true))
  = Ret "It works.".
Proof.
  pose proof (proj2 (@X17_chat_template_fallback Mock.builtins
                       (Fixture.generator_with false true true)
                       (Fixture.service_with false true true) tt tt
                       (JStr "what is a?") Fixture.hits Fixture.hits_context
                       (mkExc ClsValueError "tokenizer.chat_template is not set")
                       eq_refl eq_refl eq_refl eq_refl)) as H.
  cbv zeta in H. unfold outcome_of.
  rewrite (H _ " It works. " eq_refl eq_refl). reflexivity.
Defined.

Lemma X18_witness :
  LlmRag.process_request (B := Mock.builtins)
    (JObj [("query", JStr "q"); ("search_results", JArr [JInt 5])])
    (LlmRag.mkGlobals (Some Fixture.service))
  = ([], LlmRag.mkGlobals (Some Fixture.service),
     Ret (LlmRag.failure "'int' object has no attribute 'get'" (JStr "m")))
  /\ outcome_of
       (LlmRag.process_request (B := Mock.builtins) (JObj Fixture.question)
          (LlmRag.mkGlobals (Some (Fixture.service_with true false true))))
     = Ret (LlmRag.failure "prompt cannot be encoded" (JStr "m"))
  /\ outcome_of
       (LlmRag.process_request (B := Mock.builtins) (JObj Fixture.question)
          (LlmRag.mkGlobals (Some (Fixture.service_with true true false))))
     = Ret (LlmRag.failure "Generation failed: out of memory" (JStr "m")).
Proof.
  split; [| split].
  - refine (proj1 (@X18_failure_messages Mock.builtins Mock.generator
                     [("query", JStr "q"); ("search_results", JArr [JInt 5])]
                     Fixture.service tt tt eq_refl eq_refl eq_refl eq_refl)
              (no_attribute (JInt 5) "get") _).
    reflexivity.
  - refine (proj1 (proj2 (@X18_failure_messages Mock.builtins
                            (Fixture.generator_with true false true)
                            Fixture.question (Fixture.service_with true false true)
                            tt tt eq_refl eq_refl eq_refl eq_refl))
              Fixture.hits_context
              (mkExc ClsValueError "prompt cannot be encoded") _ _);
      reflexivity.
  - refine (proj2 (proj2 (@X18_failure_messages Mock.builtins
                            (Fixture.generator_with true true false)
                            Fixture.question (Fixture.service_with true true false)
                            tt tt eq_refl eq_refl eq_refl eq_refl))
              Fixture.hits_context _
              (mkExc ClsRuntimeError "out of memory") _ eq_refl _);
      reflexivity.
Defined.

Lemma X19_witness :
  outcome_of
    (LlmRag.process_request (B := Mock.builtins) (JObj Fixture.question)
       (LlmRag.mkGlobals (Some Fixture.service)))
  = Ret (JObj [("success", JBool true);
               ("explanation", JStr "It works.");
               ("model", JStr "m");
               ("device", JStr "cpu")]).
Proof.
  unfold outcome_of.
  rewrite (proj1 (@X19_served_request Mock.builtins Mock.generator
                    Fixture.question Fixture.service tt tt Fixture.hits_context
                    _ " It works. "
                    eq_refl eq_refl eq_refl eq_refl eq_refl eq_refl eq_refl)).
  reflexivity.
Defined.



Lemma X23_witness :
  Embed.main_block (B := Mock.builtins) (Val (dq "{'text':'hello world'}"))
    Mock.ready_embed
  = Embed.main_block (B := Mock.builtins) (Val ("hello world  " ++ nl))
      Mock.ready_embed.
Proof.
  apply (@X23_script_json_and_plain_agree Mock.builtins Mock.backend
           (dq "{'text':'hello world'}") ("hello world  " ++ nl)
           [("text", JStr "hello world")] Mock.not_json).
  - vm_compute. reflexivity.
  - vm_compute. reflexivity.
  - vm_compute. reflexivity.
  - reflexivity.
Defined.

(** ** The RAG service: a load that succeeds *)

Section RagDevice.
Context {B : Builtins} {G : GenerationBackend}.
Import LlmRag.

Ltac run_monad :=
  cbv [try_except try_except_when bind ret gets raise raise_exc invoke lift
       emit print print_err py_get modify sys_exit].

(** X24. Device policy of a load that succeeds.  A new service is on
    cuda when cuda is available, whatever mps is, else on mps when that is
    available, else on cpu.  The model is requested in float32 on cpu and
    in float16 elsewhere, with [device_map="auto"] on cuda only; on cuda
    it is never moved, elsewhere it is moved to the device.  The load
    writes two status messages on stderr, the second naming the device,
    and binds the tokenizer, its pad token ensured, and the model. *)
Theorem X24_device_policy (s : CodeRAGService) (tok : CausalTokenizer)
    (mdl : CausalModel) :
  model s = None ->
  load_tokenizer (model_name s) = Val tok ->
  load_causal_model (model_name s)
    (if device s =? "cpu" then "float32" else "float16")
    (if device s =? "cuda" then Some "auto" else None) = Val mdl ->
  let loading :=
    PrintErr (status_message ("Loading " ++ py_str (model_name s)
                              ++ "... (this may take 2-3 minutes)")) in
  let loaded :=
    PrintErr (status_message ("Model loaded successfully on " ++ device s ++ "!")) in
  (forall name,
      device (new_service name)
      = if cuda_available then "cuda" else if mps_available then "mps" else "cpu")
  /\ (device s = "cuda" ->
      load_model s
      = ([loading; Invoke (LoadTokenizer (model_name s));
          Invoke (LoadModel (model_name s)); loaded],
         mkService (model_name s) (Some (ensure_pad_token tok)) (Some mdl)
           (device s) (max_context s),
         Ret tt))
  /\ (forall mdl',
        device s <> "cuda" ->
        causal_model_to mdl (device s) = Val mdl' ->
        load_model s
        = ([loading; Invoke (LoadTokenizer (model_name s));
            Invoke (LoadModel (model_name s)); Invoke MoveModel; loaded],
           mkService (model_name s) (Some (ensure_pad_token tok)) (Some mdl')
             (device s) (max_context s),
           Ret tt)).
Proof.
  intros Hm Ht Hl loading loaded.
  split; [reflexivity |].
  assert (Hdtype : (if negb (device s =? "cpu") then "float16" else "float32")
                   = (if device s =? "cpu" then "float32" else "float16"))
    by (destruct (device s =? "cpu"); reflexivity).
  split.
  - intros Hd. unfold load_model. run_monad.
    rewrite Hm. cbv beta iota. rewrite Ht. cbv beta iota.
    cbn [model_name tokenizer model device max_context].
    rewrite Hdtype, Hl. cbv beta iota.
    cbn [model_name tokenizer model device max_context].
    apply String.eqb_eq in Hd. rewrite Hd. reflexivity.
  - intros mdl' Hd Hmove. unfold load_model. run_monad.
    rewrite Hm. cbv beta iota. rewrite Ht. cbv beta iota.
    cbn [model_name tokenizer model device max_context].
    rewrite Hdtype, Hl. cbv beta iota.
    cbn [model_name tokenizer model device max_context].
    apply String.eqb_neq in Hd. rewrite Hd. cbn [negb]. rewrite Hmove.
    reflexivity.
Qed.

End RagDevice.

Lemma X24_witness :
  trace_of (LlmRag.load_model (B := Mock.builtins)
              (LlmRag.new_service (G := Mock.generator) (JStr "m")))
  = [PrintErr (LlmRag.status_message "Loading m... (this may take 2-3 minutes)");
     Invoke (LoadTokenizer (JStr "m")); Invoke (LoadModel (JStr "m"));
     Invoke MoveModel;
     PrintErr (LlmRag.status_message "Model loaded successfully on cpu!")]
  /\ trace_of (LlmRag.load_model (B := Mock.builtins)
                 (LlmRag.new_service (G := Fixture.generator_with true true true)
                    (JStr "m")))
     = [PrintErr (LlmRag.status_message "Loading m... (this may take 2-3 minutes)");
        Invoke (LoadTokenizer (JStr "m")); Invoke (LoadModel (JStr "m"));
        PrintErr (LlmRag.status_message "Model loaded successfully on cuda!")].
Proof.
  split.
  - unfold trace_of.
    rewrite (proj2 (proj2 (@X24_device_policy Mock.builtins Mock.generator
                             (LlmRag.new_service (G := Mock.generator) (JStr "m"))
                             tt tt eq_refl eq_refl eq_refl))
               tt ltac:(discriminate) eq_refl).
    reflexivity.
  - unfold trace_of.
    rewrite (proj1 (proj2 (@X24_device_policy Mock.builtins
                             (Fixture.generator_with true true true)
                             (LlmRag.new_service
                                (G := Fixture.generator_with true true true) (JStr "m"))
                             tt tt eq_refl eq_refl eq_refl))
               eq_refl).
    reflexivity.
Defined.
